(** * cBench validation engine (compiler_gym/envs/llvm/datasets/cbench.py)

    A shallow embedding of the process runner, the compile stage, the
    runtime-error classifier, the differential validator and the flakiness
    retry loop, together with the properties the specification states
    about them.

    Python values are rendered as follows.
    - [str] is [string]; a decoded text is kept as its UTF-8 bytes, which
      preserves the substring test [in] and equality.
    - [bytes] is [list byte].
    - a [float] number of seconds is a rational [Q]; the code only stores,
      passes on and compares these numbers against an elapsed time.
    - [int] is [Z].
    - a [dict] built by successive assignments is an association list in
      insertion order.
    - the file system is a finite map from paths to file contents.
    - statements that touch the outside world run in the monad [M]: a
      state monad over [World] with Python exceptions as a second kind of
      result. *)

From stdpp Require Import gmap strings.
From Stdlib Require Import QArith ZArith String Ascii DecimalString Strings.Byte List Lia.
Import ListNotations.
Close Scope Q_scope.
Open Scope string_scope.

(** ** Strings and paths *)

Module Str.

(** [needle in hay]. *)
Fixpoint contains (needle hay : string) : bool :=
  String.prefix needle hay
  || match hay with
     | EmptyString => false
     | String _ rest => contains needle rest
     end.

(** [s.replace(old, new)] for a non-empty [old]: occurrences are replaced
    left to right and do not overlap. [skip] counts the characters of a
    matched occurrence that are still to be dropped. *)
Fixpoint replace_from (skip : nat) (old new s : string) : string :=
  match s with
  | EmptyString => EmptyString
  | String c rest =>
      match skip with
      | S k => replace_from k old new rest
      | O =>
          if String.prefix old s
          then new ++ replace_from (String.length old - 1) old new rest
          else String c (replace_from 0 old new rest)
      end
  end.

Definition replace (old new s : string) : string := replace_from 0 old new s.

(** [str(n)] and the [{n}] of an f-string, for an [int]. *)
Definition of_Z (n : Z) : string := NilZero.string_of_int (Z.to_int n).

End Str.

Module Path.

(** [a / b] of pathlib: an absolute right operand replaces the left one.
    Paths are kept as written: pathlib's removal of doubled and trailing
    slashes is not shown. *)
Definition join (a b : string) : string :=
  if String.prefix "/" b then b else a ++ "/" ++ b.

(** Splits at the last ["/"]: the text before it, if there is one, and the
    final component. *)
Fixpoint split_last (p : string) : option string * string :=
  match p with
  | EmptyString => (None, EmptyString)
  | String c rest =>
      match split_last rest with
      | (Some dir, base) => (Some (String c dir), base)
      | (None, base) =>
          if Ascii.eqb c "/" then (Some EmptyString, base)
          else (None, String c base)
      end
  end.

(** [p.name]. *)
Definition name (p : string) : string := snd (split_last p).

(** [p.parent]. *)
Definition parent (p : string) : string :=
  match fst (split_last p) with
  | None => "."
  | Some EmptyString => "/"
  | Some dir => dir
  end.

End Path.

(** ** UTF-8 *)

Module Utf8.

Definition between (lo hi : N) (b : byte) : bool :=
  (lo <=? Byte.to_N b)%N && (Byte.to_N b <=? hi)%N.

Definition cont : byte -> bool := between 128 191.

(** Well-formed UTF-8 byte sequences (Unicode, table 3-7): no overlong
    form, no surrogate, nothing above U+10FFFF. [fuel] bounds the number
    of code points and is the length of the input. *)
Fixpoint valid (fuel : nat) (bs : list byte) : bool :=
  match fuel with
  | O => match bs with [] => true | _ => false end
  | S fuel' =>
      match bs with
      | [] => true
      | b0 :: r0 =>
          if between 0 127 b0 then valid fuel' r0
          else match r0 with
          | [] => false
          | b1 :: r1 =>
              if between 194 223 b0 then cont b1 && valid fuel' r1
              else match r1 with
              | [] => false
              | b2 :: r2 =>
                  if between 224 224 b0 then between 160 191 b1 && cont b2 && valid fuel' r2
                  else if between 225 236 b0 then cont b1 && cont b2 && valid fuel' r2
                  else if between 237 237 b0 then between 128 159 b1 && cont b2 && valid fuel' r2
                  else if between 238 239 b0 then cont b1 && cont b2 && valid fuel' r2
                  else match r2 with
                  | [] => false
                  | b3 :: r3 =>
                      if between 240 240 b0
                      then between 144 191 b1 && cont b2 && cont b3 && valid fuel' r3
                      else if between 241 243 b0
                      then cont b1 && cont b2 && cont b3 && valid fuel' r3
                      else if between 244 244 b0
                      then between 128 143 b1 && cont b2 && cont b3 && valid fuel' r3
                      else false
                  end
              end
          end
      end
  end.

(** [bs.decode("utf-8")]: [None] stands for [UnicodeDecodeError]. *)
Definition decode (bs : list byte) : option string :=
  if valid (length bs) bs then Some (string_of_list_byte bs) else None.

Definition encode (s : string) : list byte := list_byte_of_string s.

End Utf8.

Arguments Path.join : simpl never.
Arguments Path.name : simpl never.
Arguments Path.parent : simpl never.
Arguments Str.replace : simpl never.
Arguments Str.contains : simpl never.
Arguments Str.of_Z : simpl never.
Arguments Utf8.decode : simpl never.
Arguments Utf8.encode : simpl never.

(** ** Data model *)

(** [class LlvmSanitizer(enum.IntEnum)]. *)
Inductive LlvmSanitizer := ASAN | TSAN | MSAN | UBSAN.

Definition LlvmSanitizer_eqb (a b : LlvmSanitizer) : bool :=
  match a, b with
  | ASAN, ASAN | TSAN, TSAN | MSAN, MSAN | UBSAN, UBSAN => true
  | _, _ => false
  end.

#[global] Instance LlvmSanitizer_eq_dec : EqDecision LlvmSanitizer.
Proof. solve_decision. Defined.

#[global] Instance byte_eq_dec : EqDecision byte := Byte.byte_eq_dec.

(** [_SANITIZER_FLAGS]. *)
Definition _SANITIZER_FLAGS (s : LlvmSanitizer) : list string :=
  match s with
  | ASAN => ["-O1"; "-g"; "-fsanitize=address"; "-fno-omit-frame-pointer"]
  | TSAN => ["-O1"; "-g"; "-fsanitize=thread"]
  | MSAN => ["-O1"; "-g"; "-fsanitize=memory"]
  | UBSAN => ["-fsanitize=undefined"]
  end.

(** The values stored in the [data] dictionary of an error. *)
Inductive PyVal :=
| PNone
| PStr (s : string)
| PInt (n : Z)
| PNum (q : Q)
| PList (l : list string).

(** [d[k] = v]: an existing key keeps its position. *)
Fixpoint dict_set {V : Type} (k : string) (v : V) (d : list (string * V)) : list (string * V) :=
  match d with
  | [] => [(k, v)]
  | (k', v') :: rest =>
      if String.eqb k k' then (k, v) :: rest else (k', v') :: dict_set k v rest
  end.

Fixpoint dict_get {V : Type} (k : string) (d : list (string * V)) : option V :=
  match d with
  | [] => None
  | (k', v') :: rest => if String.eqb k k' then Some v' else dict_get k rest
  end.

(** [d.update(e)]. *)
Definition dict_update {V : Type} (d e : list (string * V)) : list (string * V) :=
  fold_left (fun acc kv => dict_set (fst kv) (snd kv) acc) e d.

(** The [data] dictionary of an error. *)
Definition Dict := list (string * PyVal).

(** The environment variables of a process. *)
Definition Environ := list (string * string).

(** [compiler_gym.validation_result.ValidationError]. *)
Record ValidationError := {
  type : string;
  data : Dict;
}.

(** [class BenchmarkExecutionResult(NamedTuple)]. *)
Record BenchmarkExecutionResult := {
  walltime_seconds : Q;
  error : option ValidationError;
  output : option string;
}.

Definition of_opt_str (o : option string) : PyVal :=
  match o with
  | Some s => PStr s
  | None => PNone
  end.

(** ** The outside world *)

(** A command line: an argument vector, or a line handed to the shell
    ([shell=True]). *)
Inductive Command :=
| Argv (args : list string)
| Shell (line : string).

(** What one subprocess does once it is launched. The code cannot tell
    more about a child process than this record holds. *)
Record ProcRun := {
  exits_after : option Q;     (* seconds until it exits by itself; [None]: never *)
  returncode : Z;
  stdout : list byte;         (* stdout with stderr merged into it *)
  effect : gmap string (list byte) -> gmap string (list byte);
                              (* what it has done to the files when it is gone *)
  reaped_after : option Q;    (* seconds from [kill()] until its pipes close *)
}.

(** The exceptions the code raises, catches or lets through. *)
Inductive Exn :=
| TimeoutExpired            (* subprocess.TimeoutExpired *)
| TimeoutError              (* raised by the environment on a slow step *)
| UnicodeDecodeError
| FileNotFoundError (msg : string)
| AssertionError
| UnboundLocalError (var : string).

(** Observable actions, in the order they happen. [Attempt] is a ghost
    event: it marks each call [validator_cb(env)] of the retry loop. *)
Inductive Event :=
| Popen (cmd : Command) (env : option Environ) (cwd : option string)
| Kill (pid : nat)
| Terminate (pid : nat)
| EnvFork
| EnvReset (benchmark : string)
| EnvWriteBitcode (path : string)
| EnvClose
| Mkdtemp (d : string)
| Rmtree (d : string)
| Download
| PreExecution (cwd : string)
| ValidateResult (diagnostic : option string)
| Warning (j flakiness : Z)
| Attempt.

(** The machine the code runs on: everything it reads from outside. The
    n-th subprocess, the n-th environment call and the n-th scratch
    directory may each behave in any way, so a statement for every [Host]
    covers every behaviour of the outside world. *)
Record Host := {
  process : nat -> ProcRun;
  rpc_times_out : nat -> bool;
  tmp_name : nat -> string;
  diff : option (list byte) -> option (list byte) -> Z * list byte;
  environ : string -> option string;   (* os.environ *)
  platform : string;                   (* sys.platform *)
  python_3_7 : bool;                   (* sys.version_info >= (3, 7, 0) *)
  locale_decode : list byte -> option string;
  clang_path : string;
  lli_path : string;
  cbench_data : string;
  fetch_runtime_data : gmap string (list byte) -> gmap string (list byte);
  benchmark_bitcode : string -> list byte;
}.

Record World := {
  files : gmap string (list byte);
  spawned : nat;              (* subprocesses launched so far *)
  rpcs : nat;                 (* environment calls made so far *)
  tmpdirs : nat;              (* scratch directories made so far *)
  trace : list Event;
}.

Definition set_files (f : gmap string (list byte)) (w : World) : World :=
  {| files := f; spawned := spawned w; rpcs := rpcs w;
     tmpdirs := tmpdirs w; trace := trace w |}.

Definition emit (e : Event) (w : World) : World :=
  {| files := files w; spawned := spawned w; rpcs := rpcs w;
     tmpdirs := tmpdirs w; trace := (trace w ++ [e])%list |}.

(** ** The monad of statements *)

Inductive Outcome (A : Type) :=
| Returned (a : A)
| Raised (e : Exn).
Arguments Returned {A} a.
Arguments Raised {A} e.

Definition M (A : Type) : Type := World -> Outcome A * World.

Definition ret {A} (a : A) : M A := fun w => (Returned a, w).

Definition raise {A} (e : Exn) : M A := fun w => (Raised e, w).

Definition bind {A B} (m : M A) (k : A -> M B) : M B :=
  fun w =>
    match m w with
    | (Returned a, w') => k a w'
    | (Raised e, w') => (Raised e, w')
    end.

Notation "'let!' x ':=' m 'in' k" := (bind m (fun x => k))
  (at level 10, x name, m at level 100, k at level 200).
Notation "'run!' m 'in' k" := (bind m (fun _ => k))
  (at level 10, m at level 100, k at level 200).

(** [try: body  except E: handler], where [catches] says which exceptions
    the clause names. *)
Definition try_except {A} (body : M A) (catches : Exn -> bool) (handler : M A) : M A :=
  fun w =>
    match body w with
    | (Raised e, w') => if catches e then handler w' else (Raised e, w')
    | r => r
    end.

(** [try: body  finally: cleanup]: the cleanup runs on every exit, and an
    exception it raises replaces the result of the body. *)
Definition try_finally {A} (body : M A) (cleanup : M unit) : M A :=
  fun w =>
    match body w with
    | (r, w') =>
        match cleanup w' with
        | (Returned _, w'') => (r, w'')
        | (Raised e, w'') => (Raised e, w'')
        end
    end.

Definition log (e : Event) : M unit := fun w => (Returned tt, emit e w).

(** [assert b]. *)
Definition assert (b : bool) : M unit :=
  if b then ret tt else raise AssertionError.

Definition is_TimeoutExpired (e : Exn) : bool :=
  match e with TimeoutExpired => true | _ => false end.

Definition is_TimeoutError (e : Exn) : bool :=
  match e with TimeoutError => true | _ => false end.

(** ** Primitive statements *)

Definition LF : string := String (ascii_of_nat 10) EmptyString.

(** Universal-newlines translation of a text stream: ["\r\n"] and a lone
    ["\r"] both become ["\n"]. *)
Fixpoint universal_newlines (s : string) : string :=
  match s with
  | EmptyString => EmptyString
  | String c rest =>
      if Ascii.eqb c (ascii_of_nat 13)
      then match rest with
           | String c' rest' =>
               if Ascii.eqb c' (ascii_of_nat 10)
               then String c' (universal_newlines rest')
               else String (ascii_of_nat 10) (universal_newlines rest)
           | EmptyString => LF
           end
      else String c (universal_newlines rest)
  end.

(** Removes every file below directory [d]. *)
Definition rmtree_files (d : string) (fs : gmap string (list byte)) : gmap string (list byte) :=
  base.filter (fun kv : string * list byte => String.prefix (d ++ "/") (fst kv) = false) fs.

Section Primitives.

Variable H : Host.

(** [p.is_file()]. *)
Definition is_file (p : string) : M bool :=
  fun w => (Returned (match files w !! p with Some _ => true | None => false end), w).

(** [with open(p, "w") as f: print(text, file=f)]. *)
Definition write_file (p : string) (content : list byte) : M unit :=
  fun w => (Returned tt, set_files (<[p := content]> (files w)) w).

(** [p.unlink()]. *)
Definition unlink (p : string) : M unit :=
  fun w =>
    match files w !! p with
    | Some _ => (Returned tt, set_files (delete p (files w)) w)
    | None => (Raised (FileNotFoundError p), w)
    end.

(** [p.rename(q)]. *)
Definition rename (p q : string) : M unit :=
  fun w =>
    match files w !! p with
    | Some c => (Returned tt, set_files (<[q := c]> (delete p (files w))) w)
    | None => (Raised (FileNotFoundError p), w)
    end.

(** [subprocess.Popen(cmd, env=env, cwd=cwd)]: the handle is the index of
    the process. *)
Definition popen (cmd : Command) (env : option Environ) (cwd : option string) : M nat :=
  fun w =>
    (Returned (spawned w),
     emit (Popen cmd env cwd)
       {| files := files w; spawned := S (spawned w);
          rpcs := rpcs w; tmpdirs := tmpdirs w; trace := trace w |}).

(** [p.kill()], or [p.terminate()] before Python 3.7. *)
Definition kill (pid : nat) : M unit :=
  fun w =>
    (Returned tt,
     emit (if python_3_7 H then Kill pid else Terminate pid)
       w).

(** [p.communicate(timeout=t)]: the captured bytes and the seconds waited.
    [signalled] says whether the call comes after [p.kill()]: a process
    that was sent the signal ends when it is reaped. *)
Definition communicate (pid : nat) (signalled : bool) (timeout : Q) : M (list byte * Q) :=
  fun w =>
    let p := process H pid in
    match (if signalled then reaped_after p else exits_after p) with
    | Some d =>
        if Qle_bool d timeout
        then (Returned (stdout p, d), set_files (effect p (files w)) w)
        else (Raised TimeoutExpired, w)
    | None => (Raised TimeoutExpired, w)
    end.

(** The same on a pipe opened with [universal_newlines=True]: the bytes
    are decoded with the locale's encoding, also by the call that comes
    after [p.kill()]. *)
Definition communicate_text (pid : nat) (signalled : bool) (timeout : Q) : M string :=
  let! r := communicate pid signalled timeout in
  match locale_decode H (fst r) with
  | Some s => ret (universal_newlines s)
  | None => raise UnicodeDecodeError
  end.

(** [subprocess.Popen(["diff", a, b], ...)] followed by [communicate()]:
    the output of the tool and its exit status. *)
Definition run_diff (a b : string) : M (list byte * Z) :=
  fun w =>
    let r := diff H (files w !! a) (files w !! b) in
    (Returned (snd r, fst r), emit (Popen (Argv ["diff"; a; b]) None None) w).

(** [tempfile.TemporaryDirectory(dir=dir)] on entry. *)
Definition mkdtemp (dir : string) : M string :=
  fun w =>
    let d := Path.join dir (tmp_name H (tmpdirs w)) in
    (Returned d,
     emit (Mkdtemp d)
       {| files := files w; spawned := spawned w;
          rpcs := rpcs w; tmpdirs := S (tmpdirs w); trace := trace w |}).

(** ... and on exit. *)
Definition rmtree (d : string) : M unit :=
  fun w => (Returned tt, emit (Rmtree d) (set_files (rmtree_files d (files w)) w)).

End Primitives.

(** ** The execution environment *)

(** Modelled from the spec: the execution-environment abstraction of
    section 6 (class LlvmEnv, not among the source files). It offers
    reset-to-benchmark, serialize-current-state-to-artifact-file,
    fork-into-independent-copy, release-copy and a working-directory path.
    An environment is the benchmark it was reset to and the bitcode of its
    current, possibly transformed, state. *)
Record LlvmEnv := {
  benchmark : string;
  bitcode : list byte;
  working_dir : string;        (* env.service.connection.working_dir *)
}.

Section Environment.

Variable H : Host.

(** Modelled from the spec: a call into the environment either completes
    or raises the timeout exception of the environment layer (section
    4.6); which one is for the host to say. *)
Definition rpc {A} (e : Event) (a : A) (change : World -> World) : M A :=
  fun w =>
    let w' := {| files := files w; spawned := spawned w;
                 rpcs := S (rpcs w); tmpdirs := tmpdirs w; trace := trace w |} in
    if rpc_times_out H (rpcs w)
    then (Raised TimeoutError, emit e w')
    else (Returned a, change (emit e w')).

(** Modelled from the spec: [env.fork()], an independent copy. *)
Definition fork (env : LlvmEnv) : M LlvmEnv := rpc EnvFork env (fun w => w).

(** Modelled from the spec: [env.reset(benchmark=b)], back to the
    original state of the benchmark. *)
Definition reset (env : LlvmEnv) (b : string) : M LlvmEnv :=
  rpc (EnvReset b)
    {| benchmark := b; bitcode := benchmark_bitcode H b; working_dir := working_dir env |}
    (fun w => w).

(** Modelled from the spec: [env.write_bitcode(path)]. *)
Definition write_bitcode (env : LlvmEnv) (path : string) : M unit :=
  rpc (EnvWriteBitcode path) tt
    (fun w => set_files (<[path := bitcode env]> (files w)) w).

(** Modelled from the spec: [env.close()], which releases the copy. *)
Definition close (env : LlvmEnv) : M unit := log EnvClose.

End Environment.

(** ** Process runner, compile stage and classifier *)

(** [try: b.decode("utf-8")  except UnicodeDecodeError: "<binary>"]. *)
Definition decode_or_binary (b : list byte) : string :=
  match Utf8.decode b with
  | Some s => s
  | None => "<binary>"
  end.

(** The [if]/[elif] chain that names a runtime error (lines 216-227). *)
Definition error_type_of (sanitizer : option LlvmSanitizer) (output : string)
    (returncode : Z) : string :=
  let under s := match sanitizer with Some s' => LlvmSanitizer_eqb s' s | None => false end in
  if under ASAN && Str.contains "LeakSanitizer" output then "Memory leak"
  else if under ASAN && Str.contains "AddressSanitizer" output then "Memory error"
  else if under MSAN && Str.contains "MemorySanitizer" output then "Memory error"
  else if Str.contains "Segmentation fault" output then "Segmentation fault"
  else if Str.contains "Illegal Instruction" output then "Illegal Instruction"
  else "Runtime error (" ++ Str.of_Z returncode ++ ")".

Section Runner.

Variable H : Host.

(** [_COMPILE_ARGS]. *)
Definition _COMPILE_ARGS : list string :=
  if String.eqb (platform H) "darwin"
  then ["-L"; "/Library/Developer/CommandLineTools/SDKs/MacOSX.sdk/usr/lib"]
  else [].

Definition environ_get (k default : string) : string :=
  match environ H k with
  | Some v => v
  | None => default
  end.

(** The barebones execution environment of the benchmark (lines 111-120). *)
Definition make_run_env (env : Environ) : Environ :=
  dict_update
    [("TMPDIR", environ_get "TMPDIR" "");
     ("HOME", environ_get "HOME" "");
     ("USER", environ_get "USER" "");
     ("GRPC_VERBOSITY", "NONE")]
    env.

(** [compile_cmd] (lines 129-134). *)
Definition make_compile_cmd (bitcode_file binary : string) (linkopts : list string)
    (sanitizer : LlvmSanitizer) : list string :=
  ([Path.name (clang_path H); bitcode_file; "-o"; binary]
   ++ _COMPILE_ARGS ++ linkopts ++ _SANITIZER_FLAGS sanitizer)%list.

(** The branch [if sanitizer:] (lines 125-171): either the result the
    function returns at once, or the [error_data] it goes on with. *)
Definition compile_stage (bitcode_file cmd cwd : string) (linkopts : list string)
    (sanitizer : LlvmSanitizer) (timeout_seconds compilation_timeout_seconds : Q)
    : M (BenchmarkExecutionResult + Dict) :=
  let binary := Path.join cwd "a.out" in
  let error_data := dict_set "run_cmd" (PStr (Str.replace "$BIN" "./a.out" cmd)) [] in
  let compile_cmd := make_compile_cmd bitcode_file binary linkopts sanitizer in
  let error_data := dict_set "compile_cmd" (PList compile_cmd) error_data in
  let! present := is_file binary in
  run! assert (negb present) in
  let! clang :=
    popen (Argv compile_cmd)
      (Some [("PATH", Path.parent (clang_path H) ++ ":" ++ environ_get "PATH" "")])
      None in
  let! finished :=
    try_except
      (let! output := communicate_text H clang false compilation_timeout_seconds in
       ret (Some output))
      is_TimeoutExpired
      (run! kill H clang in
       run! communicate_text H clang true 30 in
       ret None) in
  match finished with
  | None =>
      ret (inl {| walltime_seconds := timeout_seconds;
                  error := Some {| type := "Compilation timeout";
                                   data := dict_set "timeout"
                                             (PNum compilation_timeout_seconds) error_data |};
                  output := None |})
  | Some output =>
      if negb (returncode (process H clang) =? 0)%Z
      then
        ret (inl {| walltime_seconds := timeout_seconds;
                    error := Some {| type := "Compilation failed";
                                     data := dict_set "output" (PStr output) error_data |};
                    output := None |})
      else
        let! present := is_file binary in
        run! assert present in
        ret (inr error_data)
  end.

(** From [try:] to the end (lines 177-238). [Popen] raises nothing here,
    so it stands before the [except] clause and inside the [finally]. *)
Definition run_stage (cwd : string) (sanitizer : option LlvmSanitizer)
    (error_data : Dict) (run_cmd : string) (run_env : Environ) (timeout_seconds : Q)
    : M BenchmarkExecutionResult :=
  let binary := Path.join cwd "a.out" in
  let! completed :=
    try_finally
      (let! process_ := popen (Shell run_cmd) (Some run_env) (Some cwd) in
       try_except
         (let! r := communicate H process_ false timeout_seconds in
          ret (inr (process_, r)))
         is_TimeoutExpired
         (run! kill H process_ in
          run! communicate H process_ true 30 in
          ret (inl {| walltime_seconds := timeout_seconds;
                      error := Some {| type := "Execution timeout";
                                       data := dict_set "timeout_seconds"
                                                 (PNum timeout_seconds) error_data |};
                      output := None |})))
      (match sanitizer with
       | Some _ => unlink binary
       | None => ret tt
       end) in
  match completed with
  | inl timed_out => ret timed_out
  | inr (process_, (stdout_, time)) =>
      let output := decode_or_binary stdout_ in
      let rc := returncode (process H process_) in
      if negb (rc =? 0)%Z
      then
        let error_type := error_type_of sanitizer output rc in
        let error_data := dict_set "return_code" (PInt rc) error_data in
        let error_data := dict_set "output" (PStr output) error_data in
        ret {| walltime_seconds := time;
               error := Some {| type := error_type; data := error_data |};
               output := None |}
      else
        ret {| walltime_seconds := time; error := None; output := Some output |}
  end.

(** [_compile_and_run_bitcode_file]. *)
Definition _compile_and_run_bitcode_file (bitcode_file cmd cwd : string)
    (linkopts : list string) (env : Environ) (num_runs : Z)
    (sanitizer : option LlvmSanitizer)
    (timeout_seconds compilation_timeout_seconds : Q)
    : M BenchmarkExecutionResult :=
  run! write_file (Path.join cwd "_finfo_dataset")
         (Utf8.encode (Str.of_Z num_runs ++ LF)) in
  let run_env := make_run_env env in
  match sanitizer with
  | Some san =>
      let! compiled :=
        compile_stage bitcode_file cmd cwd linkopts san
          timeout_seconds compilation_timeout_seconds in
      match compiled with
      | inl failed => ret failed
      | inr error_data =>
          run_stage cwd sanitizer error_data
            (Str.replace "$BIN" "./a.out" cmd) run_env timeout_seconds
      end
  | None =>
      let run_cmd := Str.replace "$BIN" (Path.name (lli_path H) ++ " benchmark.bc") cmd in
      let error_data := dict_set "run_cmd" (PStr run_cmd) [] in
      let run_env := dict_set "PATH" (Path.parent (lli_path H)) run_env in
      run_stage cwd sanitizer error_data run_cmd run_env timeout_seconds
  end.

End Runner.

(** ** Differential validator *)

(** The parameters of [_make_cBench_validator], which its two closures
    capture. The hooks are functions of what they are given: the checker
    reads a result, the setup hook prepares files in the directory. *)
Record ValidatorConfig := {
  cmd : string;
  linkopts : list string;
  os_env : Environ;
  num_runs : Z;
  compare_output : bool;
  input_files : list string;
  output_files : list string;
  validate_result : option (BenchmarkExecutionResult -> option string);
  pre_execution_callback :
    option (string -> gmap string (list byte) -> gmap string (list byte));
  sanitizer : option LlvmSanitizer;
  flakiness : Z;
}.

Section Validator.

Variable H : Host.

(** [download_cBench_runtime_data]: the marker file gates the one-time
    download. The download and the extraction are taken to succeed, as
    the stages that follow them take the runtime data to be there; a
    failure of either would raise before the marker file is written.
    Directories are not part of the file map, so the check that the
    unpacked directory exists is not shown. *)
Definition unpack_runtime_data (fs : gmap string (list byte)) : gmap string (list byte) :=
  <[Path.join (cbench_data H) "unpacked" := []]>
    (fetch_runtime_data H (rmtree_files (cbench_data H) fs)).

Definition download_cBench_runtime_data : M bool :=
  let! unpacked := is_file (Path.join (cbench_data H) "unpacked") in
  if unpacked then ret false
  else
    fun w => (Returned true, emit Download (set_files (unpack_runtime_data (files w)) w)).

(** The loop over [input_files] (lines 295-298). *)
Fixpoint require_input_files (names : list string) : M unit :=
  match names with
  | [] => ret tt
  | input_file_name :: rest =>
      let path := Path.join (cbench_data H) input_file_name in
      let! present := is_file path in
      if negb present
      then raise (FileNotFoundError ("Required benchmark input not found: " ++ path))
      else require_input_files rest
  end.

(** The loop that keeps the files of the reference run (lines 343-355). *)
Fixpoint keep_gold_standard_files (cfg : ValidatorConfig) (env : LlvmEnv)
    (gold_standard : BenchmarkExecutionResult) (paths : list string) : M unit :=
  match paths with
  | [] => ret tt
  | path :: rest =>
      let! present := is_file path in
      if negb present
      then
        raise (FileNotFoundError
                 ("Expected file '" ++ Path.name path ++ "' not generated" ++ LF
                  ++ "Benchmark: " ++ benchmark env ++ LF
                  ++ "Command: " ++ cmd cfg ++ LF
                  ++ "Output: " ++ match output gold_standard with
                                   | Some s => s
                                   | None => "None"
                                   end))
      else
        run! rename path (path ++ ".gold_standard") in
        keep_gold_standard_files cfg env gold_standard rest
  end.

(** The reference run (lines 316-355): [inl] is the value the callback
    returns at once, [inr] the binding of [gold_standard] it goes on
    with, if the run was asked for. *)
Definition gold_standard_stage (cfg : ValidatorConfig) (env : LlvmEnv)
    (cwd expanded_command : string) (output_paths : list string)
    : M (ValidationError + option BenchmarkExecutionResult) :=
  if compare_output cfg || negb (Nat.eqb (length (output_files cfg)) 0)
  then
    let! gs_env := fork H env in
    let! ran :=
      try_finally
        (let! gs_env := reset H gs_env (benchmark env) in
         run! write_bitcode H gs_env (Path.join cwd "benchmark.bc") in
         let! gold_standard :=
           _compile_and_run_bitcode_file H (Path.join cwd "benchmark.bc")
             expanded_command cwd (linkopts cfg ++ ["-O2"])%list (os_env cfg) 1
             None 300 60 in
         match error gold_standard with
         | Some e =>
             ret (inl {| type := "Gold standard: " ++ type e; data := data e |})
         | None => ret (inr gold_standard)
         end)
        (close gs_env) in
    match ran with
    | inl e => ret (inl e)
    | inr gold_standard =>
        run! keep_gold_standard_files cfg env gold_standard output_paths in
        ret (inr (Some gold_standard))
    end
  else ret (inr None).

(** The comparison of the output files (lines 385-408). *)
Fixpoint difftest_output_files (cfg : ValidatorConfig) (paths : list string)
    : M (option ValidationError) :=
  match paths with
  | [] => ret None
  | path :: rest =>
      let! present := is_file path in
      if negb present
      then
        ret (Some {| type := "Output not generated";
                     data := [("path", PStr (Path.name path));
                              ("command", PStr (cmd cfg))] |})
      else
        let! r := run_diff H path (path ++ ".gold_standard") in
        if negb (snd r =? 0)%Z
        then
          ret (Some {| type := "Wrong output (file)";
                       data := [("path", PStr (Path.name path));
                                ("diff", PStr (decode_or_binary (fst r)))] |})
        else difftest_output_files cfg rest
  end.

(** From the candidate run to the end (lines 357-408). *)
Definition candidate_stage (cfg : ValidatorConfig) (env : LlvmEnv)
    (cwd expanded_command : string) (output_paths : list string)
    (gold_standard : option BenchmarkExecutionResult) : M (option ValidationError) :=
  run! write_bitcode H env (Path.join cwd "benchmark.bc") in
  let! outcome :=
    _compile_and_run_bitcode_file H (Path.join cwd "benchmark.bc")
      expanded_command cwd (linkopts cfg) (os_env cfg) (num_runs cfg)
      (sanitizer cfg) 300 60 in
  match error outcome with
  | Some e => ret (Some e)
  | None =>
      run! match validate_result cfg with
           | Some check => log (ValidateResult (check outcome))
           | None => ret tt
           end in
      let! differs :=
        if compare_output cfg
        then match gold_standard with
             | Some g =>
                 ret (negb (bool_decide (output g = output outcome)))
             | None => raise (UnboundLocalError "gold_standard")
             end
        else ret false in
      if (differs : bool)
      then
        ret (Some {| type := "Wrong output";
                     data := [("expected",
                               of_opt_str match gold_standard with
                                          | Some g => output g
                                          | None => None
                                          end);
                              ("actual", of_opt_str (output outcome))] |})
      else difftest_output_files cfg output_paths
  end.

(** The body of the [with tempfile.TemporaryDirectory(...) as d:] block. *)
Definition validator_body (cfg : ValidatorConfig) (env : LlvmEnv) (cwd : string)
    : M (option ValidationError) :=
  let expanded_command := Str.replace "$D" (cbench_data H) (cmd cfg) in
  let output_paths := map (Path.join cwd) (output_files cfg) in
  run! match pre_execution_callback cfg with
       | Some setup =>
           fun w => (Returned tt, emit (PreExecution cwd) (set_files (setup cwd (files w)) w))
       | None => ret tt
       end in
  let! gold := gold_standard_stage cfg env cwd expanded_command output_paths in
  match gold with
  | inl e => ret (Some e)
  | inr gold_standard =>
      candidate_stage cfg env cwd expanded_command output_paths gold_standard
  end.

(** [validator_cb]. The two locks around the download serialise
    concurrent callers and do nothing in a single caller. *)
Definition validator_cb (cfg : ValidatorConfig) (env : LlvmEnv)
    : M (option ValidationError) :=
  run! download_cBench_runtime_data in
  run! require_input_files (input_files cfg) in
  let! d := mkdtemp H (working_dir env) in
  try_finally (validator_body cfg env d) (rmtree d).

End Validator.

(** ** Flakiness retry loop *)

(** The [for] loop of [flaky_wrapped_cb] over the values of [j] that are
    left. The local [error] is unbound until a call returns. *)
Fixpoint flaky_loop (validator_cb : M (option ValidationError)) (flakiness : Z)
    (js : list Z) (error_ : option (option ValidationError))
    : M (option ValidationError) :=
  match js with
  | [] =>
      match error_ with
      | Some e => ret e
      | None => raise (UnboundLocalError "error")
      end
  | j :: rest =>
      let! attempt :=
        try_except
          (run! log Attempt in
           let! e := validator_cb in
           ret (Some e))
          is_TimeoutError
          (ret None) in
      match attempt with
      | Some None => ret None
      | Some (Some e) =>
          run! log (Warning j flakiness) in
          flaky_loop validator_cb flakiness rest (Some (Some e))
      | None =>
          run! log (Warning j flakiness) in
          flaky_loop validator_cb flakiness rest error_
      end
  end.

(** [range(1, n + 1)]. *)
Definition range_from_1 (n : Z) : list Z := map Z.of_nat (seq 1 (Z.to_nat n)).

(** [flaky_wrapped_cb], for the callback it wraps. *)
Definition flaky_wrapped_cb (validator_cb : LlvmEnv -> M (option ValidationError))
    (flakiness : Z) (env : LlvmEnv) : M (option ValidationError) :=
  flaky_loop (validator_cb env) flakiness (range_from_1 (Z.max flakiness 1)) None.

(** [_make_cBench_validator]. *)
Definition _make_cBench_validator (H : Host) (cfg : ValidatorConfig)
    : LlvmEnv -> M (option ValidationError) :=
  flaky_wrapped_cb (validator_cb H cfg) (flakiness cfg).

(** ** The classifier as the specification words it *)

(** The rules of section 4.3 in their order: when each applies, and the
    kind it gives. *)
Definition classifier_rules
    : list ((option LlvmSanitizer -> string -> bool) * string) :=
  let under s (sanitizer : option LlvmSanitizer) :=
    bool_decide (sanitizer = Some s) in
  [ (fun s out => under ASAN s && Str.contains "LeakSanitizer" out, "Memory leak");
    (fun s out => under ASAN s && Str.contains "AddressSanitizer" out, "Memory error");
    (fun s out => under MSAN s && Str.contains "MemorySanitizer" out, "Memory error");
    (fun _ out => Str.contains "Segmentation fault" out, "Segmentation fault");
    (fun _ out => Str.contains "Illegal Instruction" out, "Illegal Instruction") ].

(** The kind of the first rule that applies, [otherwise] when none does. *)
Fixpoint first_match (rules : list ((option LlvmSanitizer -> string -> bool) * string))
    (sanitizer : option LlvmSanitizer) (output : string) (otherwise : string) : string :=
  match rules with
  | [] => otherwise
  | (applies, kind) :: rest =>
      if applies sanitizer output then kind
      else first_match rest sanitizer output otherwise
  end.

(** ** Scenarios *)

(** A wait of [t] seconds sees the end of something that takes [d]. *)
Definition within (d : option Q) (t : Q) : bool :=
  match d with
  | Some s => Qle_bool s t
  | None => false
  end.

(** The process leaves a file at [path] whatever it finds. *)
Definition creates (p : ProcRun) (path : string) : Prop :=
  forall fs, is_Some (effect p fs !! path).

(** The process does not remove the file at [path]. *)
Definition keeps (p : ProcRun) (path : string) : Prop :=
  forall fs, is_Some (fs !! path) -> is_Some (effect p fs !! path).

(** The compile stage succeeds when run in [w]: no binary is in the way,
    and the compiler, the next process to be launched, ends in time with
    status 0 and a readable output, and leaves the binary. *)
Definition compiles (H : Host) (cwd : string) (compilation_timeout_seconds : Q)
    (w : World) : Prop :=
  let clang := process H (spawned w) in
  files w !! Path.join cwd "a.out" = None
  /\ within (exits_after clang) compilation_timeout_seconds = true
  /\ returncode clang = 0%Z
  /\ is_Some (locale_decode H (stdout clang))
  /\ creates clang (Path.join cwd "a.out").

(** The index of the process that runs the benchmark, for a call of
    [_compile_and_run_bitcode_file] in [w]. *)
Definition run_pid (sanitizer : option LlvmSanitizer) (w : World) : nat :=
  match sanitizer with
  | Some _ => S (spawned w)
  | None => spawned w
  end.

(** The call gets as far as running the benchmark, and the benchmark
    leaves its own binary in place. *)
Definition reaches_run (H : Host) (cwd : string) (sanitizer : option LlvmSanitizer)
    (compilation_timeout_seconds : Q) (w : World) : Prop :=
  match sanitizer with
  | Some _ =>
      compiles H cwd compilation_timeout_seconds w
      /\ keeps (process H (S (spawned w))) (Path.join cwd "a.out")
  | None => True
  end.

(** The commands of the processes launched in a trace, oldest first. *)
Fixpoint launches (t : list Event) : list Command :=
  match t with
  | [] => []
  | Popen c _ _ :: rest => c :: launches rest
  | _ :: rest => launches rest
  end.

(** The number of calls of the validation callback in a trace. *)
Fixpoint attempts (t : list Event) : nat :=
  match t with
  | [] => 0
  | Attempt :: rest => S (attempts rest)
  | _ :: rest => attempts rest
  end.

(** The world in which the stages of [_compile_and_run_bitcode_file]
    start: the iteration count has been written. *)
Definition after_finfo (cwd : string) (num_runs_ : Z) (w : World) : World :=
  set_files
    (<[Path.join cwd "_finfo_dataset" := Utf8.encode (Str.of_Z num_runs_ ++ LF)]> (files w)) w.

(** The files once [download_cBench_runtime_data] has run on [fs]: the
    runtime-data directory a validation attempt reads. *)
Definition files_after_download (H : Host) (fs : gmap string (list byte))
    : gmap string (list byte) :=
  match fs !! Path.join (cbench_data H) "unpacked" with
  | Some _ => fs
  | None => unpack_runtime_data H fs
  end.

(** The statements of [validator_cb] that come before the reference run,
    in their order, for a validator that asks for that run: the scratch
    directory and the copy of the environment they end with. *)
Definition before_gold_standard_run (H : Host) (cfg : ValidatorConfig) (env : LlvmEnv)
    : M (string * LlvmEnv) :=
  run! download_cBench_runtime_data H in
  run! require_input_files H (input_files cfg) in
  let! d := mkdtemp H (working_dir env) in
  run! match pre_execution_callback cfg with
       | Some setup =>
           fun w => (Returned tt, emit (PreExecution d) (set_files (setup d (files w)) w))
       | None => ret tt
       end in
  let! gs_env := fork H env in
  let! gs_env := reset H gs_env (benchmark env) in
  run! write_bitcode H gs_env (Path.join d "benchmark.bc") in
  ret (d, gs_env).

(** The world after [diff] has been run on each of [paths] in turn. *)
Definition after_diffs (paths : list string) (w : World) : World :=
  fold_left
    (fun w' p => emit (Popen (Argv ["diff"; p; p ++ ".gold_standard"]) None None) w')
    paths w.

(** ** The registered result checker *)

Module Sha.

(** [[0-9a-f]]. *)
Definition is_hex (c : ascii) : bool :=
  let n := nat_of_ascii c in
  ((48 <=? n) && (n <=? 57) || (97 <=? n) && (n <=? 102))%nat.

(** What is left of [s] after the longest run of at most [k] hexadecimal
    digits at its start. *)
Fixpoint skip_hex (k : nat) (s : string) : string :=
  match k, s with
  | S k', String c rest => if is_hex c then skip_hex k' rest else s
  | _, _ => s
  end.

(** [[0-9a-f]{0,16} ] at the start of [s], and what follows it. The
    greedy run is the only way to match: a shorter run would have to be
    followed by a space where a digit stands. *)
Definition group_and_space (s : string) : option string :=
  match skip_hex 16 s with
  | String c rest => if Ascii.eqb c " " then Some rest else None
  | EmptyString => None
  end.

(** [re.match] of five groups separated by four spaces; the fifth group
    matches the empty string. *)
Definition re_match (s : string) : bool :=
  match group_and_space s with
  | Some s1 =>
      match group_and_space s1 with
      | Some s2 =>
          match group_and_space s2 with
          | Some s3 =>
              match group_and_space s3 with
              | Some _ => true
              | None => false
              end
          | None => false
          end
      | None => false
      end
  | None => false
  end.

Definition one_of (b : byte) (l : list N) : bool := existsb (N.eqb (Byte.to_N b)) l.

(** Drops the white space at the head of a reversed UTF-8 text: the
    characters U+0009-000D, U+001C-0020, U+0085, U+00A0, U+1680,
    U+2000-200A, U+2028, U+2029, U+202F, U+205F and U+3000. *)
Fixpoint rstrip_rev (bs : list byte) : list byte :=
  match bs with
  | [] => []
  | b0 :: r0 =>
      if Utf8.between 9 13 b0 || Utf8.between 28 32 b0 then rstrip_rev r0
      else
        match r0 with
        | [] => bs
        | b1 :: r1 =>
            if one_of b1 [194%N] && one_of b0 [133%N; 160%N] then rstrip_rev r1
            else
              match r1 with
              | [] => bs
              | b2 :: r2 =>
                  if (one_of b2 [225%N] && one_of b1 [154%N] && one_of b0 [128%N])
                     || (one_of b2 [226%N] && one_of b1 [128%N]
                         && (Utf8.between 128 138 b0 || one_of b0 [168%N; 169%N; 175%N]))
                     || (one_of b2 [226%N] && one_of b1 [129%N] && one_of b0 [159%N])
                     || (one_of b2 [227%N] && one_of b1 [128%N] && one_of b0 [128%N])
                  then rstrip_rev r2
                  else bs
              end
        end
  end.

(** [s.rstrip()]. *)
Definition rstrip (s : string) : string :=
  string_of_list_byte (rev (rstrip_rev (rev (list_byte_of_string s)))).

(** [validate_sha_output]. A result without output has no [rstrip];
    the checker is only called on results that carry one. *)
Definition validate_sha_output (result : BenchmarkExecutionResult) : option string :=
  match output result with
  | Some out =>
      if negb (re_match (rstrip out)) then Some "Failed to parse hex output" else None
  | None => None
  end.

End Sha.

(** The value a statement returned, if it returned. *)
Definition fst_returned {A : Type} (o : Outcome A) : option A :=
  match o with
  | Returned a => Some a
  | Raised _ => None
  end.

(** The statement leaves the marks of the retry loop alone: it records no
    call of the callback that the loop did not make. *)
Definition leaves_marks {A : Type} (m : M A) : Prop :=
  forall w, attempts (trace (snd (m w))) = attempts (trace w).

(** The first of the required input files that is not among [fs]. *)
Fixpoint first_missing (H : Host) (names : list string) (fs : gmap string (list byte))
    : option string :=
  match names with
  | [] => None
  | name :: rest =>
      match fs !! Path.join (cbench_data H) name with
      | Some _ => first_missing H rest fs
      | None => Some name
      end
  end.

(** [diff] as POSIX has it: status 0 on equal files; on different files a
    status other than 0 and a report of the differences. *)
Definition diff_compares_bytes (H : Host) : Prop :=
  (forall a, fst (diff H (Some a) (Some a)) = 0%Z)
  /\ (forall a b, a <> b ->
        fst (diff H (Some a) (Some b)) <> 0%Z /\ snd (diff H (Some a) (Some b)) <> []).

(** The file at [path] is there and equal to its gold-standard sibling. *)
Definition same_as_gold_standard (fs : gmap string (list byte)) (path : string) : Prop :=
  exists c, fs !! path = Some c /\ fs !! (path ++ ".gold_standard") = Some c.

(** The attempt started in [w] gets as far as the comparison of the
    output files, which then starts in [w_cmp] with the scratch directory
    [cwd]: the input files are there, the reference run, if there is one,
    and the candidate run end without error, and the console outputs agree
    if they are compared. *)
Definition reaches_comparison (H : Host) (cfg : ValidatorConfig) (env : LlvmEnv)
    (w : World) (cwd : string) (w_cmp : World) : Prop :=
  let expanded_command := Str.replace "$D" (cbench_data H) (cmd cfg) in
  let output_paths := map (Path.join cwd) (output_files cfg) in
  exists unpacked w1 w2 gold_standard w3 w4 outcome w5,
    download_cBench_runtime_data H w = (Returned unpacked, w1)
    /\ require_input_files H (input_files cfg) w1 = (Returned tt, w1)
    /\ mkdtemp H (working_dir env) w1 = (Returned cwd, w2)
    /\ gold_standard_stage H cfg env cwd expanded_command output_paths
         match pre_execution_callback cfg with
         | Some setup => emit (PreExecution cwd) (set_files (setup cwd (files w2)) w2)
         | None => w2
         end
       = (Returned (inr gold_standard), w3)
    /\ write_bitcode H env (Path.join cwd "benchmark.bc") w3 = (Returned tt, w4)
    /\ _compile_and_run_bitcode_file H (Path.join cwd "benchmark.bc") expanded_command cwd
         (linkopts cfg) (os_env cfg) (num_runs cfg) (sanitizer cfg) 300 60 w4
       = (Returned outcome, w5)
    /\ error outcome = None
    /\ (compare_output cfg = true ->
        exists gs, gold_standard = Some gs /\ output gs = output outcome)
    /\ w_cmp = match validate_result cfg with
               | Some check => emit (ValidateResult (check outcome)) w5
               | None => w5
               end.

(** ** A machine to run the code on *)

Module Example.

(** A process that ends by itself after [d] seconds with status [rc] and
    output [out], and touches no file. *)
Definition exits (d : Q) (rc : Z) (out : string) : ProcRun :=
  {| exits_after := Some d; returncode := rc; stdout := Utf8.encode out;
     effect := fun fs => fs; reaped_after := Some 0%Q |}.

(** A process that never ends by itself and is gone at once when it is
    sent the signal. *)
Definition hangs : ProcRun :=
  {| exits_after := None; returncode := (-9)%Z; stdout := [];
     effect := fun fs => fs; reaped_after := Some 0%Q |}.

(** A compiler run of two seconds that leaves the binary. *)
Definition compiler (binary : string) : ProcRun :=
  {| exits_after := Some 2%Q; returncode := 0%Z; stdout := [];
     effect := fun fs => <[binary := []]> fs; reaped_after := Some 0%Q |}.

(** A benchmark that writes [content] to [path] and prints [out]. *)
Definition writes (path : string) (content out : string) : ProcRun :=
  {| exits_after := Some 1%Q; returncode := 0%Z; stdout := Utf8.encode out;
     effect := fun fs => <[path := Utf8.encode content]> fs; reaped_after := Some 0%Q |}.

(** A [diff] that tells whether the files are equal. *)
Definition byte_diff (a b : option (list byte)) : Z * list byte :=
  if bool_decide (a = b) then (0%Z, []) else (1%Z, Utf8.encode "Files differ").

(** A Linux machine whose processes are [procs] and whose environment
    calls time out when [slow] says so. *)
Definition machine (procs : nat -> ProcRun) (slow : nat -> bool) : Host :=
  {| process := procs;
     rpc_times_out := slow;
     tmp_name := fun n => "tmp" ++ Str.of_Z (Z.of_nat n);
     diff := byte_diff;
     environ := fun _ => None;
     platform := "linux";
     python_3_7 := true;
     locale_decode := Utf8.decode;
     clang_path := "/opt/llvm/bin/clang";
     lli_path := "/opt/llvm/bin/lli";
     cbench_data := "/data";
     fetch_runtime_data := fun fs => fs;
     benchmark_bitcode := fun _ => [] |}.

(** The world at the start, with the files [fs]. *)
Definition start (fs : gmap string (list byte)) : World :=
  {| files := fs; spawned := 0; rpcs := 0; tmpdirs := 0; trace := [] |}.

(** The runtime data, unpacked, with two input files. *)
Definition runtime_data : gmap string (list byte) :=
  <["/data/office_data/1.txt" := Utf8.encode "hello"]>
    (<["/data/office_data/1.benc" := Utf8.encode "olleh"]> (<["/data/unpacked" := []]> ∅)).

(** The runtime data, unpacked, without input files. *)
Definition runtime_data_without_input : gmap string (list byte) :=
  <["/data/unpacked" := []]> ∅.

Definition env : LlvmEnv :=
  {| benchmark := "benchmark://cbench-v1/sha"; bitcode := []; working_dir := "/wd" |}.

(** [validator(benchmark="benchmark://cbench-v1/sha", ...)] for [i = 1],
    without a sanitizer (lines 811-817). *)
Definition sha : ValidatorConfig :=
  {| cmd := "$BIN $D/office_data/1.txt";
     linkopts := [];
     os_env := [];
     num_runs := 1;
     compare_output := false;
     input_files := ["office_data/1.txt"];
     output_files := [];
     validate_result := Some Sha.validate_sha_output;
     pre_execution_callback := None;
     sanitizer := None;
     flakiness := 5 |}.

(** [validator(benchmark="benchmark://cbench-v1/crc32", ...)] for [i = 1],
    with the input file of the example (lines 734-738). *)
Definition crc32 : ValidatorConfig :=
  {| cmd := "$BIN $D/office_data/1.txt";
     linkopts := [];
     os_env := [];
     num_runs := 1;
     compare_output := true;
     input_files := ["office_data/1.txt"];
     output_files := [];
     validate_result := None;
     pre_execution_callback := None;
     sanitizer := None;
     flakiness := 5 |}.

(** [validator(benchmark="benchmark://cbench-v1/blowfish", ...)] for
    [i = 1], without a sanitizer (lines 721-726). *)
Definition blowfish : ValidatorConfig :=
  {| cmd := "$BIN d $D/office_data/1.benc output.txt 1234567890abcdeffedcba0987654321";
     linkopts := [];
     os_env := [];
     num_runs := 1;
     compare_output := true;
     input_files := ["office_data/1.benc"];
     output_files := ["output.txt"];
     validate_result := None;
     pre_execution_callback := None;
     sanitizer := None;
     flakiness := 5 |}.

(** The reference run writes [gold] to the output file and the candidate
    run writes [actual]; both print the same line. *)
Definition decrypts (gold actual : string) (n : nat) : ProcRun :=
  match n with
  | O => writes "/wd/tmp0/output.txt" gold "done"
  | _ => writes "/wd/tmp0/output.txt" actual "done"
  end.

(** What AddressSanitizer prints when it finds a leak. *)
Definition leak_report : string :=
  "==42==ERROR: LeakSanitizer: detected memory leaks" ++ LF
  ++ "SUMMARY: AddressSanitizer: 24 byte(s) leaked in 1 allocation(s)." ++ LF.

(** The compiler, then a benchmark that leaks. *)
Definition leaking (n : nat) : ProcRun :=
  match n with
  | O => compiler "/w/a.out"
  | _ => exits 3%Q 1%Z leak_report
  end.

(** The reference run fails with status 1. *)
Definition broken_reference (n : nat) : ProcRun := exits 1%Q 1%Z "boom".









End Example.

(** * More of the code *)

(** ** More of the code: what a trace holds *)

(** Every process launched in a trace, oldest first: its command, its
    environment and its working directory. *)
Fixpoint launched (t : list Event) : list (Command * option Environ * option string) :=
  match t with
  | [] => []
  | Popen c e d :: rest => (c, e, d) :: launched rest
  | _ :: rest => launched rest
  end.

(** The events of a process: its launch and the signal sent to it. *)
Definition is_process_event (e : Event) : bool :=
  match e with
  | Popen _ _ _ | Kill _ | Terminate _ => true
  | _ => false
  end.

(** The statement leaves every world in a world that is related to it by
    [R]. *)
Definition respects {A : Type} (R : World -> World -> Prop) (m : M A) : Prop :=
  forall w, R w (snd (m w)).

(** The trace has grown, by events of the kind [allowed] only. *)
Definition grows_by (allowed : Event -> bool) (w w' : World) : Prop :=
  exists t, trace w' = (trace w ++ t)%list /\ forallb allowed t = true.

(** No call into the environment was made, and no scratch directory. *)
Definition same_counters (w w' : World) : Prop :=
  rpcs w' = rpcs w /\ tmpdirs w' = tmpdirs w.

(** The last binding of [k] in a list of bindings. *)
Definition last_binding {V : Type} (k : string) (d : list (string * V)) : option V :=
  dict_get k (rev d).

(** ** More of the code: stages of an attempt *)

(** An event of the copy of the environment that the reference run uses. *)
Definition is_copy_event (e : Event) : bool :=
  match e with
  | EnvFork | EnvReset _ | EnvClose => true
  | _ => false
  end.

(** Any event but the fork of the environment and the release of a copy. *)
Definition is_not_fork_or_close (e : Event) : bool :=
  match e with
  | EnvFork | EnvClose => false
  | _ => true
  end.

(** The world the reference run is asked for in, once the setup hook has
    run on the scratch directory [cwd] made in [w2]. *)
Definition after_setup (cfg : ValidatorConfig) (cwd : string) (w2 : World) : World :=
  match pre_execution_callback cfg with
  | Some setup => emit (PreExecution cwd) (set_files (setup cwd (files w2)) w2)
  | None => w2
  end.

(** The attempt started in [w] gets as far as the candidate run, which
    then starts in [w4] with the scratch directory [cwd] and the result
    [gold_standard] of the reference run, if there was one. *)
Definition reaches_candidate (H : Host) (cfg : ValidatorConfig) (env : LlvmEnv)
    (w : World) (cwd : string) (gold_standard : option BenchmarkExecutionResult)
    (w4 : World) : Prop :=
  exists unpacked w1 w2 w3,
    download_cBench_runtime_data H w = (Returned unpacked, w1)
    /\ require_input_files H (input_files cfg) w1 = (Returned tt, w1)
    /\ mkdtemp H (working_dir env) w1 = (Returned cwd, w2)
    /\ gold_standard_stage H cfg env cwd (Str.replace "$D" (cbench_data H) (cmd cfg))
         (map (Path.join cwd) (output_files cfg)) (after_setup cfg cwd w2)
       = (Returned (inr gold_standard), w3)
    /\ write_bitcode H env (Path.join cwd "benchmark.bc") w3 = (Returned tt, w4).

(** The call of [_compile_and_run_bitcode_file] on the candidate. *)
Definition candidate_run (H : Host) (cfg : ValidatorConfig) (cwd : string)
    : M BenchmarkExecutionResult :=
  _compile_and_run_bitcode_file H (Path.join cwd "benchmark.bc")
    (Str.replace "$D" (cbench_data H) (cmd cfg)) cwd
    (linkopts cfg) (os_env cfg) (num_runs cfg) (sanitizer cfg) 300 60.

(** What the retry loop sees of one call of the callback that does not
    succeed: an error it returns, or the timeout of the environment. *)
Inductive Observed :=
| Failed (e : ValidationError)
| TimedOut.

(** The error of the last of the calls numbered [first], [first + 1], ...
    ([n] of them) that returned one; [seen] if none did. *)
Fixpoint last_failure (obs : nat -> Observed) (first n : nat)
    (seen : option ValidationError) : option ValidationError :=
  match n with
  | O => seen
  | S n' =>
      last_failure obs (S first) n'
        match obs first with
        | Failed e => Some e
        | TimedOut => seen
        end
  end.

(** Any event but those of the copy of the environment. *)
Definition is_not_copy_event (e : Event) : bool := negb (is_copy_event e).

(** Any event. *)
Definition any_event (e : Event) : bool := true.

(** The world once the checker, if one is configured, has been called on
    the result of the candidate run. *)
Definition after_checker (cfg : ValidatorConfig) (outcome : BenchmarkExecutionResult)
    (w : World) : World :=
  match validate_result cfg with
  | Some check => emit (ValidateResult (check outcome)) w
  | None => w
  end.

(** The scratch directory of an attempt started in [w]. *)
Definition scratch_dir (H : Host) (env : LlvmEnv) (w : World) : string :=
  Path.join (working_dir env) (tmp_name H (tmpdirs w)).

(** ** Registration of the validators *)

(** [s.split()]: the words of [s], which the white space of
    [str.isspace] separates. *)
Module Words.

Definition code (c : ascii) : N := N_of_ascii c.

Definition among (c : ascii) (l : list N) : bool := existsb (N.eqb (code c)) l.

Definition from_to (lo hi : N) (c : ascii) : bool :=
  (N.leb lo (code c) && N.leb (code c) hi)%bool.

(** U+0009-000D and U+001C-0020. *)
Definition space1 (c0 : ascii) : bool := from_to 9 13 c0 || from_to 28 32 c0.

(** U+0085 and U+00A0. *)
Definition space2 (c0 c1 : ascii) : bool := among c0 [194%N] && among c1 [133%N; 160%N].

(** U+1680, U+2000-200A, U+2028, U+2029, U+202F, U+205F and U+3000. *)
Definition space3 (c0 c1 c2 : ascii) : bool :=
  (among c0 [225%N] && among c1 [154%N] && among c2 [128%N])
  || (among c0 [226%N] && among c1 [128%N]
      && (from_to 128 138 c2 || among c2 [168%N; 169%N; 175%N]))
  || (among c0 [226%N] && among c1 [129%N] && among c2 [159%N])
  || (among c0 [227%N] && among c1 [128%N] && among c2 [128%N]).

(** The word read so far ends here. *)
Definition flush (word : string) (rest : list string) : list string :=
  match word with
  | EmptyString => rest
  | _ => word :: rest
  end.

Fixpoint split_from (word : string) (s : string) : list string :=
  match s with
  | EmptyString => flush word []
  | String c0 r0 =>
      if space1 c0 then flush word (split_from "" r0)
      else
        match r0 with
        | String c1 r1 =>
            if space2 c0 c1 then flush word (split_from "" r1)
            else
              match r1 with
              | String c2 r2 =>
                  if space3 c0 c1 c2 then flush word (split_from "" r2)
                  else split_from (word ++ String c0 "") r0
              | EmptyString => split_from (word ++ String c0 "") r0
              end
        | EmptyString => split_from (word ++ String c0 "") r0
        end
  end.

Definition split (s : string) : list string := split_from "" s.

End Words.

(** The fields of the messages [Command] and [BenchmarkDynamicConfig] of
    the service protocol that the code sets; a field it leaves out is
    empty. *)
Module Proto.

Record Command := {
  argument : list string;
  timeout_seconds : Z;
  infile : list string;
  outfile : list string;
}.

Record BenchmarkDynamicConfig := {
  build_cmd : Command;
  run_cmd : Command;
  pre_run_cmd : list Command;
}.

End Proto.

(** The keyword arguments of one call of [validator]; [None] is an
    argument that is left out. Output files are named in the normal form
    of [pathlib]. *)
Record Keywords := {
  kw_benchmark : string;
  kw_cmd : string;
  kw_data : option (list string);
  kw_outs : option (list string);
  kw_platforms : option (list string);
  kw_compare_output : bool;
  kw_validate_result : option (BenchmarkExecutionResult -> option string);
  kw_linkopts : option (list string);
  kw_env : option Environ;
  kw_pre_execution_callback :
    option (string -> gmap string (list byte) -> gmap string (list byte));
  kw_sanitizers : option (list LlvmSanitizer);
}.

(** The two tables [VALIDATORS] and [DYNAMIC_CONFIGS]. A registered
    callback is the closure [_make_cBench_validator] returns, held here as
    the parameters it captures; [VALIDATORS] is a [defaultdict(list)]. *)
Record Registry := {
  VALIDATORS : gmap string (list ValidatorConfig);
  DYNAMIC_CONFIGS : gmap string Proto.BenchmarkDynamicConfig;
}.

(** [VALIDATORS.get(uri, [])]. *)
Definition registered (r : Registry) (uri : string) : list ValidatorConfig :=
  default [] (VALIDATORS r !! uri).

(** [x or d] for a list or a dict. *)
Definition or_else {A : Type} (x : option (list A)) (d : list A) : list A :=
  match x with
  | Some (a :: l) => a :: l
  | _ => d
  end.

(** [{"darwin": "macos"}.get(sys.platform, sys.platform)]. *)
Definition platform_name (H : Host) : string :=
  if String.eqb (platform H) "darwin" then "macos" else platform H.

(** The members of [LlvmSanitizer] in the order of their definition. *)
Definition all_sanitizers : list LlvmSanitizer := [ASAN; TSAN; MSAN; UBSAN].

Section Registration.

Variable H : Host.

(** The platform test of [validator] (lines 455-457). *)
Definition supported (kw : Keywords) : bool :=
  existsb (String.eqb (platform_name H)) (or_else (kw_platforms kw) ["linux"; "macos"]).

(** The call of [_make_cBench_validator] for one sanitizer, or none. *)
Definition make_validator (kw : Keywords) (sanitizer : option LlvmSanitizer)
    : ValidatorConfig :=
  {| cmd := kw_cmd kw;
     linkopts := or_else (kw_linkopts kw) [];
     os_env := or_else (kw_env kw) [];
     num_runs := 1;
     compare_output := kw_compare_output kw;
     input_files := or_else (kw_data kw) [];
     output_files := or_else (kw_outs kw) [];
     validate_result := kw_validate_result kw;
     pre_execution_callback := kw_pre_execution_callback kw;
     sanitizer := sanitizer;
     flakiness := 5 |}.

(** The callbacks one call appends to [VALIDATORS[benchmark]] (lines
    465-493). *)
Definition new_validators (kw : Keywords) : list ValidatorConfig :=
  make_validator kw None
  :: (if String.prefix "linux" (platform H)
      then map (fun s => make_validator kw (Some s))
             match kw_sanitizers kw with
             | Some l => l
             | None => all_sanitizers
             end
      else []).

(** The message one call binds [DYNAMIC_CONFIGS[benchmark]] to (lines
    496-514). *)
Definition new_dynamic_config (kw : Keywords) : Proto.BenchmarkDynamicConfig :=
  {| Proto.build_cmd :=
       {| Proto.argument := ["$CC"; "$IN"] ++ or_else (kw_linkopts kw) [];
          Proto.timeout_seconds := 60;
          Proto.infile := [];
          Proto.outfile := ["a.out"] |};
     Proto.run_cmd :=
       {| Proto.argument :=
            Words.split
              (Str.replace "$D" (cbench_data H) (Str.replace "$BIN" "./a.out" (kw_cmd kw)));
          Proto.timeout_seconds := 300;
          Proto.infile := ["a.out"; "_finfo_dataset"];
          Proto.outfile := or_else (kw_outs kw) [] |};
     Proto.pre_run_cmd :=
       [ {| Proto.argument := ["echo"; "1"; ">_finfo_dataset"];
            Proto.timeout_seconds := 30;
            Proto.infile := [];
            Proto.outfile := [] |} ] |}.

(** [validator]. *)
Definition validator (kw : Keywords) (r : Registry) : bool * Registry :=
  if negb (supported kw) then (false, r)
  else
    (true,
     {| VALIDATORS :=
          <[kw_benchmark kw := (registered r (kw_benchmark kw) ++ new_validators kw)%list]>
            (VALIDATORS r);
        DYNAMIC_CONFIGS := <[kw_benchmark kw := new_dynamic_config kw]> (DYNAMIC_CONFIGS r) |}).

(** A sequence of calls of [validator] whose results are dropped, as at
    the end of the module (lines 694-914). *)
Definition declare (calls : list Keywords) (r : Registry) : Registry :=
  fold_left (fun r' kw => snd (validator kw r')) calls r.

(** [CBenchBenchmark.__init__] (lines 522-528): the validation callbacks
    the benchmark [uri] is given, and the dynamic configuration that is
    merged into its own. *)
Definition CBenchBenchmark (r : Registry) (uri : string)
    : list (LlvmEnv -> M (option ValidationError)) * option Proto.BenchmarkDynamicConfig :=
  (map (_make_cBench_validator H) (registered r uri), DYNAMIC_CONFIGS r !! uri).

End Registration.

(** The table before a validator is declared. *)
Definition no_validators : Registry := {| VALIDATORS := ∅; DYNAMIC_CONFIGS := ∅ |}.

(** The calls of [validator] that register [kw_benchmark = uri] on this
    machine, in their order. *)
Definition calls_for (H : Host) (uri : string) (calls : list Keywords) : list Keywords :=
  List.filter (fun kw => supported H kw && String.eqb (kw_benchmark kw) uri) calls.

(** ** The datasets *)

(** [_CBENCH_TARS] and [_CBENCH_LEGACY_TARS]: the archive and its
    checksum for a platform, [None] where the dict has no such key. *)
Definition _CBENCH_TARS (platform : string) : option (string * string) :=
  if String.eqb platform "macos"
  then Some ("https://dl.fbaipublicfiles.com/compiler_gym/llvm_bitcodes-10.0.0-cBench-v1-macos.tar.bz2",
             "90b312b40317d9ee9ed09b4b57d378879f05e8970bb6de80dc8581ad0e36c84f")
  else if String.eqb platform "linux"
  then Some ("https://dl.fbaipublicfiles.com/compiler_gym/llvm_bitcodes-10.0.0-cBench-v1-linux.tar.bz2",
             "601fff3944c866f6617e653b6eb5c1521382c935f56ca1f36a9f5cf1a49f3de5")
  else None.

Definition _CBENCH_LEGACY_TARS (platform : string) : option (string * string) :=
  if String.eqb platform "macos"
  then Some ("https://dl.fbaipublicfiles.com/compiler_gym/llvm_bitcodes-10.0.0-cBench-v0-macos.tar.bz2",
             "072a730c86144a07bba948c49afe543e4f06351f1cb17f7de77f91d5c1a1b120")
  else if String.eqb platform "linux"
  then Some ("https://dl.fbaipublicfiles.com/compiler_gym/llvm_bitcodes-10.0.0-cBench-v0-linux.tar.bz2",
             "9b5838a90895579aab3b9375e8eeb3ed2ae58e0ad354fec7eb4f8b31ecb4a360")
  else None.

(** The archive [CBenchDataset.__init__] and [CBenchLegacyDataset2.__init__]
    hand to their base class; [None] is the [KeyError] of the lookup. *)
Definition CBenchDataset_tar (H : Host) : option (string * string) :=
  _CBENCH_TARS (platform_name H).

(** The same for [CBenchLegacyDataset.__init__]. *)
Definition CBenchLegacyDataset_tar (H : Host) : option (string * string) :=
  _CBENCH_LEGACY_TARS (platform_name H).

Module Bitcount.

(** The two calls for [bitcount] (lines 694-702). *)
Definition call (cmd_ : string) : Keywords :=
  {| kw_benchmark := "benchmark://cbench-v1/bitcount";
     kw_cmd := cmd_;
     kw_data := None;
     kw_outs := None;
     kw_platforms := None;
     kw_compare_output := true;
     kw_validate_result := None;
     kw_linkopts := None;
     kw_env := None;
     kw_pre_execution_callback := None;
     kw_sanitizers := None |}.

Definition calls : list Keywords := [call "$BIN 1125000"; call "$BIN 512"].

End Bitcount.

(** ** What the checker of [sha] accepts *)

(** At most sixteen characters, each of them one of [0-9a-f]. *)
Fixpoint all_hex (s : string) : bool :=
  match s with
  | EmptyString => true
  | String c rest => Sha.is_hex c && all_hex rest
  end.

Definition hex_group (s : string) : bool :=
  all_hex s && (String.length s <=? 16)%nat.

(** Text made of the one-byte white space only: U+0009-000D and
    U+001C-0020, among them the blank and the line feed. *)
Definition blank (s : string) : bool :=
  forallb (fun b => Utf8.between 9 13 b || Utf8.between 28 32 b) (Utf8.encode s).

(** A result of a run that printed [out]. *)
Definition printed (out : string) : BenchmarkExecutionResult :=
  {| walltime_seconds := 1; error := None; output := Some out |}.

(** The message of the [FileNotFoundError] for an output file that the
    reference run did not leave (lines 344-354). *)
Definition not_generated (cfg : ValidatorConfig) (env : LlvmEnv)
    (gold_standard : BenchmarkExecutionResult) (path : string) : string :=
  "Expected file '" ++ Path.name path ++ "' not generated" ++ LF
  ++ "Benchmark: " ++ benchmark env ++ LF
  ++ "Command: " ++ cmd cfg ++ LF
  ++ "Output: " ++ match output gold_standard with
                   | Some s => s
                   | None => "None"
                   end.

(** The test the comparison makes of one output file, on the files [fs]:
    the file is there, and [diff] ends with status 0 on it and its
    [.gold_standard] sibling. *)
Definition passes_diff (H : Host) (fs : gmap string (list byte)) (path : string) : bool :=
  match fs !! path with
  | Some c => (fst (diff H (Some c) (fs !! (path ++ ".gold_standard"))) =? 0)%Z
  | None => false
  end.

(** The error the comparison returns for a file that does not pass the
    test: the file is missing, or [diff] found a difference (lines
    386-408). *)
Definition diff_error (H : Host) (cfg : ValidatorConfig) (fs : gmap string (list byte))
    (path : string) : ValidationError :=
  match fs !! path with
  | Some c =>
      {| type := "Wrong output (file)";
         data := [("path", PStr (Path.name path));
                  ("diff",
                   PStr (decode_or_binary
                           (snd (diff H (Some c) (fs !! (path ++ ".gold_standard"))))))] |}
  | None =>
      {| type := "Output not generated";
         data := [("path", PStr (Path.name path)); ("command", PStr (cmd cfg))] |}
  end.

(** The files [diff] was run on when the comparison ended at [path], the
    files [checked] having passed: [path] is among them unless it is
    missing. *)
Definition diffed (fs : gmap string (list byte)) (checked : list string) (path : string)
    : list string :=
  match fs !! path with
  | Some _ => (checked ++ [path])%list
  | None => checked
  end.

(** ** More machines to run the code on *)

Module Demo.

(** A process that never ends by itself and stays when it is sent the
    signal, as one whose children hold its pipes open. *)
Definition stuck : ProcRun :=
  {| exits_after := None; returncode := (-9)%Z; stdout := [];
     effect := fun fs => fs; reaped_after := None |}.

(** A process that ends with status [rc] and prints bytes that are not
    UTF-8. *)
Definition garbled (rc : Z) : ProcRun :=
  {| exits_after := Some 1%Q; returncode := rc; stdout := [xff%byte; xfe%byte];
     effect := fun fs => fs; reaped_after := Some 0%Q |}.

(** A Linux machine on which every process prints "abc" and ends with
    status 0. *)
Definition quiet : Host := Example.machine (fun _ => Example.exits 1 0 "abc") (fun _ => false).

(** The same machine with an environment whose every call runs into the
    timeout. *)
Definition slow : Host := Example.machine (fun _ => Example.exits 1 0 "abc") (fun _ => true).

(** The reference run prints "abc"; the candidate fails with status 1. *)
Definition failing : Host :=
  Example.machine
    (fun n => match n with
              | O => Example.exits 1 0 "abc"
              | _ => Example.exits 1 1 "boom"
              end)
    (fun _ => false).

(** The reference run prints "abc"; the candidate prints "xyz". *)
Definition talking : Host :=
  Example.machine
    (fun n => match n with
              | O => Example.exits 1 0 "abc"
              | _ => Example.exits 1 0 "xyz"
              end)
    (fun _ => false).

(** The reference run writes the output file; the candidate does not. *)
Definition forgetful : Host :=
  Example.machine
    (fun n => match n with
              | O => Example.writes "/wd/tmp0/output.txt" "Y" "done"
              | _ => Example.exits 1 0 "done"
              end)
    (fun _ => false).

(** The callback fails on its second call and runs into the timeout of
    the environment on every other call. *)
Definition second_call_fails (n : nat) : Observed :=
  match n with
  | 2 => Failed {| type := "Wrong output"; data := [] |}
  | _ => TimedOut
  end.

Definition moody (env : LlvmEnv) : M (option ValidationError) :=
  fun w =>
    (match second_call_fails (attempts (trace w)) with
     | Failed e => Returned (Some e)
     | TimedOut => Raised TimeoutError
     end, w).

(** An attempt on [H], stage by stage, from the runtime data of the
    example in the scratch directory [/wd/tmp0]. *)
Section Staged.

Variable H : Host.
Variable cfg : ValidatorConfig.

Definition w0 : World := Example.start Example.runtime_data.

Definition w1 : World := snd (download_cBench_runtime_data H w0).

Definition w2 : World := snd (mkdtemp H "/wd" w1).

Definition gold : Outcome (ValidationError + option BenchmarkExecutionResult) * World :=
  gold_standard_stage H cfg Example.env "/wd/tmp0"
    (Str.replace "$D" (cbench_data H) (cmd cfg))
    (map (Path.join "/wd/tmp0") (output_files cfg)) (after_setup cfg "/wd/tmp0" w2).

Definition gold_standard : option BenchmarkExecutionResult :=
  match fst gold with
  | Returned (inr g) => g
  | _ => None
  end.

Definition reference : BenchmarkExecutionResult :=
  default {| walltime_seconds := 0; error := None; output := None |} gold_standard.

Definition w4 : World :=
  snd (write_bitcode H Example.env "/wd/tmp0/benchmark.bc" (snd gold)).

Definition candidate : Outcome BenchmarkExecutionResult * World :=
  candidate_run H cfg "/wd/tmp0" w4.

Definition outcome : BenchmarkExecutionResult :=
  match fst candidate with
  | Returned r => r
  | Raised _ => {| walltime_seconds := 0; error := None; output := None |}
  end.

Definition failure : ValidationError :=
  default {| type := ""; data := [] |} (error outcome).

End Staged.

(** The output file of a reference run, before it is moved aside. *)
Definition with_output : World :=
  Example.start (<["/wd/tmp0/output.txt" := Utf8.encode "Y"]> Example.runtime_data).

Definition moved_aside : World :=
  snd (keep_gold_standard_files Example.blowfish Example.env (printed "done")
         ["/wd/tmp0/output.txt"] with_output).

(** What [sha] prints for the empty input. *)
Definition digest : string :=
  "da39a3ee 5e6b4b0d 3255bfef 95601890 afd80709" ++ LF.

End Demo.

(** * Properties *)

(** ** Stepping through statements *)

Ltac unfold_m :=
  unfold bind, ret, raise, try_except, try_finally, log, assert, is_file,
    write_file, unlink, rename, popen, kill, mkdtemp, rmtree, run_diff in *.

Lemma launches_app t u : launches (t ++ u) = (launches t ++ launches u)%list.
Proof.
  induction t as [|e t IH]; [reflexivity|].
  destruct e; cbn; rewrite IH; reflexivity.
Qed.

Lemma attempts_app t u : attempts (t ++ u) = attempts t + attempts u.
Proof.
  induction t as [|e t IH]; [reflexivity|].
  destruct e; cbn; rewrite IH; reflexivity.
Qed.

Section RunnerFacts.

Variable H : Host.

Lemma communicate_done pid (signalled : bool) t d w :
  (if signalled then reaped_after (process H pid) else exits_after (process H pid)) = Some d ->
  Qle_bool d t = true ->
  communicate H pid signalled t w
  = (Returned (stdout (process H pid), d),
     set_files (effect (process H pid) (files w)) w).
Proof.
  intros Hd Ht. unfold communicate. rewrite Hd, Ht. reflexivity.
Qed.

Lemma communicate_late pid (signalled : bool) t w :
  within (if signalled then reaped_after (process H pid) else exits_after (process H pid)) t
  = false ->
  communicate H pid signalled t w = (Raised TimeoutExpired, w).
Proof.
  unfold communicate, within.
  destruct (if signalled then _ else _) as [d|]; [intros ->|]; reflexivity.
Qed.

Lemma within_Some d t : within d t = true -> exists s, d = Some s /\ Qle_bool s t = true.
Proof. destruct d as [s|]; simpl; [eauto | discriminate]. Qed.


(** The run stage when the benchmark ends in time. *)
Lemma run_stage_completed cwd sanitizer error_data run_cmd run_env T w d :
  let p := process H (spawned w) in
  exits_after p = Some d ->
  Qle_bool d T = true ->
  (sanitizer <> None -> is_Some (effect p (files w) !! Path.join cwd "a.out")) ->
  exists w',
    run_stage H cwd sanitizer error_data run_cmd run_env T w
    = (Returned
         (let output := decode_or_binary (stdout p) in
          if negb (returncode p =? 0)%Z
          then {| walltime_seconds := d;
                  error := Some {| type := error_type_of sanitizer output (returncode p);
                                   data := dict_set "output" (PStr output)
                                             (dict_set "return_code" (PInt (returncode p))
                                                error_data) |};
                  output := None |}
          else {| walltime_seconds := d; error := None; output := Some output |}), w')
    /\ spawned w' = S (spawned w)
    /\ trace w' = (trace w ++ [Popen (Shell run_cmd) (Some run_env) (Some cwd)])%list.
Proof.
  intros p Hd Hle Hbin. subst p.
  unfold run_stage. unfold_m. cbn.
  rewrite (communicate_done _ false _ d) by assumption. cbn.
  destruct sanitizer as [san|]; cbn.
  - destruct (Hbin ltac:(discriminate)) as [c Hc]. rewrite Hc.
    eexists; split;
      [cbn; destruct (returncode _ =? 0)%Z; reflexivity | split; reflexivity].
  - eexists; split;
      [cbn; destruct (returncode _ =? 0)%Z; reflexivity | split; reflexivity].
Qed.

(** The compile stage when the compiler succeeds. *)
Lemma compile_stage_ok bitcode_file cmd cwd linkopts san T Tc w :
  compiles H cwd Tc w ->
  exists w',
    compile_stage H bitcode_file cmd cwd linkopts san T Tc w
    = (Returned
         (inr (dict_set "compile_cmd"
                 (PList (make_compile_cmd H bitcode_file (Path.join cwd "a.out") linkopts san))
                 (dict_set "run_cmd" (PStr (Str.replace "$BIN" "./a.out" cmd)) []))), w')
    /\ spawned w' = S (spawned w)
    /\ files w' = effect (process H (spawned w)) (files w)
    /\ launches (trace w')
       = (launches (trace w)
          ++ [Argv (make_compile_cmd H bitcode_file (Path.join cwd "a.out") linkopts san)])%list.
Proof.
  intros (Habsent & Hin & Hrc & [out Hout] & Hmk).
  apply within_Some in Hin as (d & Hd & Hle).
  unfold compile_stage, communicate_text. unfold_m. cbn.
  rewrite Habsent. cbn.
  rewrite (communicate_done _ false _ d) by assumption. cbn.
  rewrite Hout, Hrc. cbn.
  destruct (Hmk (files w)) as [c Hc]. rewrite Hc. cbn.
  eexists; split; [reflexivity|]. cbn. rewrite launches_app. auto.
Qed.

(** The compile stage when the compiler outlasts its timeout; what it
    printed is decoded by the wait that follows the signal. *)
Lemma compile_stage_timeout bitcode_file cmd cwd linkopts san T Tc w :
  let clang := process H (spawned w) in
  files w !! Path.join cwd "a.out" = None ->
  within (exits_after clang) Tc = false ->
  within (reaped_after clang) 30 = true ->
  is_Some (locale_decode H (stdout clang)) ->
  exists e w',
    compile_stage H bitcode_file cmd cwd linkopts san T Tc w
    = (Returned (inl {| walltime_seconds := T; error := Some e; output := None |}), w')
    /\ type e = "Compilation timeout"
    /\ dict_get "timeout" (data e) = Some (PNum Tc)
    /\ launches (trace w')
       = (launches (trace w)
          ++ [Argv (make_compile_cmd H bitcode_file (Path.join cwd "a.out") linkopts san)])%list.
Proof.
  intros clang Habsent Hlate Hreap [out Hout].
  apply within_Some in Hreap as (s & Hs & Hle).
  unfold compile_stage, communicate_text. unfold_m. cbn.
  rewrite Habsent. cbn.
  rewrite communicate_late by exact Hlate. cbn.
  rewrite (communicate_done _ true _ s) by assumption. cbn.
  fold clang. rewrite Hout. cbn.
  eexists _, _; split; [reflexivity|]. cbn.
  repeat split.
  rewrite !launches_app. cbn. destruct (python_3_7 H); cbn; rewrite app_nil_r; reflexivity.
Qed.

(** The compile stage when the compiler reports a failure. *)
Lemma compile_stage_failed bitcode_file cmd cwd linkopts san T Tc w out :
  let clang := process H (spawned w) in
  files w !! Path.join cwd "a.out" = None ->
  within (exits_after clang) Tc = true ->
  returncode clang <> 0%Z ->
  locale_decode H (stdout clang) = Some out ->
  exists e w',
    compile_stage H bitcode_file cmd cwd linkopts san T Tc w
    = (Returned (inl {| walltime_seconds := T; error := Some e; output := None |}), w')
    /\ type e = "Compilation failed"
    /\ dict_get "output" (data e) = Some (PStr (universal_newlines out))
    /\ launches (trace w')
       = (launches (trace w)
          ++ [Argv (make_compile_cmd H bitcode_file (Path.join cwd "a.out") linkopts san)])%list.
Proof.
  intros clang Habsent Hin Hrc Hout.
  apply within_Some in Hin as (d & Hd & Hle).
  unfold compile_stage, communicate_text. unfold_m. cbn.
  rewrite Habsent. cbn.
  rewrite (communicate_done _ false _ d) by assumption. cbn.
  fold clang. rewrite Hout. cbn.
  destruct (Z.eqb_spec (returncode clang) 0) as [E|_]; [contradiction|]. cbn.
  eexists _, _; split; [reflexivity|]. cbn.
  repeat split. rewrite launches_app. reflexivity.
Qed.

(** The compile stage when what the compiler printed cannot be decoded:
    the wait that gets the output raises [UnicodeDecodeError], be it the
    first wait or the one that follows the signal. *)
Lemma compile_stage_undecodable bitcode_file cmd cwd linkopts san T Tc w :
  let clang := process H (spawned w) in
  files w !! Path.join cwd "a.out" = None ->
  (if within (exits_after clang) Tc then True else within (reaped_after clang) 30 = true) ->
  locale_decode H (stdout clang) = None ->
  fst (compile_stage H bitcode_file cmd cwd linkopts san T Tc w) = Raised UnicodeDecodeError.
Proof.
  intros clang Habsent Hcase Hout.
  unfold compile_stage, communicate_text. unfold_m. cbn.
  rewrite Habsent. cbn. fold clang.
  destruct (within (exits_after clang) Tc) eqn:Hin.
  - apply within_Some in Hin as (d & Hd & Hle).
    rewrite (communicate_done _ false _ d) by assumption. cbn.
    fold clang. rewrite Hout. reflexivity.
  - apply within_Some in Hcase as (s & Hs & Hle).
    rewrite communicate_late by exact Hin. cbn.
    rewrite (communicate_done _ true _ s) by assumption. cbn.
    fold clang. rewrite Hout. reflexivity.
Qed.

End RunnerFacts.

Ltac break_match :=
  match goal with
  | |- context [match ?x with _ => _ end] =>
      lazymatch x with
      | context [match _ with _ => _ end] => fail
      | _ => destruct x eqn:?
      end
  end.

Section RunnerTraces.

Variable H : Host.



End RunnerTraces.

Lemma binary_is_not_finfo cwd : Path.join cwd "a.out" <> Path.join cwd "_finfo_dataset".
Proof.
  unfold Path.join. cbn.
  induction cwd as [|c cwd IH]; cbn; [discriminate|].
  intros E. injection E as E. exact (IH E).
Qed.

Lemma dict_get_set {V} k (v : V) d : dict_get k (dict_set k v d) = Some v.
Proof.
  induction d as [|[k' v'] d IH]; cbn.
  - rewrite String.eqb_refl. reflexivity.
  - destruct (String.eqb k k') eqn:E; cbn.
    + rewrite String.eqb_refl. reflexivity.
    + rewrite E. exact IH.
Qed.

Lemma binary_after_finfo cwd n w :
  files (after_finfo cwd n w) !! Path.join cwd "a.out" = files w !! Path.join cwd "a.out".
Proof.
  cbn. apply lookup_insert_ne.
  intros E. exact (binary_is_not_finfo cwd (eq_sym E)).
Qed.

Lemma compiles_after_finfo H cwd Tc w n :
  compiles H cwd Tc w -> compiles H cwd Tc (after_finfo cwd n w).
Proof.
  intros (Habsent & Hrest). split; [|exact Hrest].
  rewrite binary_after_finfo. exact Habsent.
Qed.

Lemma error_type_of_first_match sanitizer output returncode :
  error_type_of sanitizer output returncode
  = first_match classifier_rules sanitizer output
      ("Runtime error (" ++ Str.of_Z returncode ++ ")").
Proof.
  unfold error_type_of, classifier_rules, first_match.
  destruct sanitizer as [[]|]; reflexivity.
Qed.

Section RunnerEquations.

Variable H : Host.

Lemma run_with_sanitizer bitcode_file cmd_ cwd linkopts_ env num_runs_ san T Tc w :
  _compile_and_run_bitcode_file H bitcode_file cmd_ cwd linkopts_ env num_runs_
    (Some san) T Tc w
  = match compile_stage H bitcode_file cmd_ cwd linkopts_ san T Tc
            (after_finfo cwd num_runs_ w) with
    | (Returned (inl failed), w1) => (Returned failed, w1)
    | (Returned (inr error_data), w1) =>
        run_stage H cwd (Some san) error_data (Str.replace "$BIN" "./a.out" cmd_)
          (make_run_env H env) T w1
    | (Raised e, w1) => (Raised e, w1)
    end.
Proof.
  unfold _compile_and_run_bitcode_file, bind, write_file, after_finfo.
  destruct (compile_stage _ _ _ _ _ _ _ _ _) as [[[failed|error_data]|e] w1]; reflexivity.
Qed.

Lemma run_without_sanitizer bitcode_file cmd_ cwd linkopts_ env num_runs_ T Tc w :
  _compile_and_run_bitcode_file H bitcode_file cmd_ cwd linkopts_ env num_runs_
    None T Tc w
  = run_stage H cwd None
      (dict_set "run_cmd"
         (PStr (Str.replace "$BIN" (Path.name (lli_path H) ++ " benchmark.bc") cmd_)) [])
      (Str.replace "$BIN" (Path.name (lli_path H) ++ " benchmark.bc") cmd_)
      (dict_set "PATH" (Path.parent (lli_path H)) (make_run_env H env)) T
      (after_finfo cwd num_runs_ w).
Proof. reflexivity. Qed.

End RunnerEquations.

(** C1. Under AddressSanitizer, a run that exits with a non-zero code and
    whose output holds both the marker of the leak detector and the marker
    of the sanitizer is reported as a memory leak and not as a memory
    error; and the kind of an error is that of the first rule that applies,
    in the order leak, ASAN memory error, MSAN memory error, segfault,
    illegal instruction, generic runtime error. *)
Theorem leak_takes_precedence_over_memory_error :
  forall (H : Host) bitcode_file cmd_ cwd linkopts_ env num_runs_ (T Tc : Q) (w : World),
    let p := process H (run_pid (Some ASAN) w) in
    reaches_run H cwd (Some ASAN) Tc w ->
    within (exits_after p) T = true ->
    returncode p <> 0%Z ->
    Str.contains "LeakSanitizer" (decode_or_binary (stdout p)) = true ->
    Str.contains "AddressSanitizer" (decode_or_binary (stdout p)) = true ->
    (exists e w',
       _compile_and_run_bitcode_file H bitcode_file cmd_ cwd linkopts_ env num_runs_
         (Some ASAN) T Tc w
       = (Returned {| walltime_seconds := default 0%Q (exits_after p);
                      error := Some e; output := None |}, w')
       /\ type e = "Memory leak" /\ type e <> "Memory error")
    /\ (forall sanitizer_ output_ returncode_,
          error_type_of sanitizer_ output_ returncode_
          = first_match classifier_rules sanitizer_ output_
              ("Runtime error (" ++ Str.of_Z returncode_ ++ ")")).
Proof.
  intros H bitcode_file cmd_ cwd linkopts_ env num_runs_ T Tc w p
    [Hc Hkeep] Hin Hrc Hleak Hasan.
  split; [|exact error_type_of_first_match].
  apply within_Some in Hin as (d & Hd & Hle).
  rewrite run_with_sanitizer.
  apply (compiles_after_finfo _ _ _ _ num_runs_) in Hc as Hc1.
  destruct (compile_stage_ok H bitcode_file cmd_ cwd linkopts_ ASAN T Tc _ Hc1)
    as (w1 & -> & Hsp & Hfs & _).
  cbn in Hsp.
  edestruct (run_stage_completed H cwd (Some ASAN)) with (w := w1) (d := d) (T := T)
    as (w2 & -> & _).
  { rewrite Hsp. exact Hd. }
  { exact Hle. }
  { intros _. rewrite Hsp, Hfs. apply Hkeep. apply Hc1. }
  rewrite Hsp. fold p. cbn in p. fold p.
  destruct (Z.eqb_spec (returncode p) 0) as [E|_]; [contradiction|]. cbn.
  rewrite Hd. cbn.
  eexists _, _; split; [reflexivity|]. cbn.
  unfold error_type_of. cbn. rewrite Hleak. cbn. split; [reflexivity | discriminate].
Qed.


(** C10. When the compiler outlasts the compilation timeout, or ends with
    a non-zero status, the result reports the execution timeout
    [timeout_seconds] as its wall time: not the compilation timeout and not
    the time the compiler took. What the compiler printed is text in the
    encoding of the locale: both waits decode it. *)
Theorem compilation_failure_reports_the_execution_timeout :
  forall (H : Host) bitcode_file cmd_ cwd linkopts_ env num_runs_ san
         (timeout_seconds compilation_timeout_seconds : Q) (w : World),
    let clang := process H (spawned w) in
    files w !! Path.join cwd "a.out" = None ->
    is_Some (locale_decode H (stdout clang)) ->
    (if within (exits_after clang) compilation_timeout_seconds
     then returncode clang <> 0%Z
     else within (reaped_after clang) 30 = true) ->
    exists e w',
      _compile_and_run_bitcode_file H bitcode_file cmd_ cwd linkopts_ env num_runs_
        (Some san) timeout_seconds compilation_timeout_seconds w
      = (Returned {| walltime_seconds := timeout_seconds; error := Some e; output := None |},
         w')
      /\ type e = (if within (exits_after clang) compilation_timeout_seconds
                   then "Compilation failed" else "Compilation timeout").
Proof.
  intros H bitcode_file cmd_ cwd linkopts_ env num_runs_ san T Tc w clang Habsent Htext
    Hcase.
  rewrite run_with_sanitizer.
  rewrite <- (binary_after_finfo cwd num_runs_ w) in Habsent.
  destruct (within (exits_after clang) Tc) eqn:Hin.
  - destruct Htext as [out Hout].
    destruct (compile_stage_failed H bitcode_file cmd_ cwd linkopts_ san T Tc _ out
                Habsent Hin Hcase Hout) as (e & w1 & -> & Hty & _).
    exists e, w1. split; [reflexivity | exact Hty].
  - destruct (compile_stage_timeout H bitcode_file cmd_ cwd linkopts_ san T Tc _
                Habsent Hin Hcase Htext) as (e & w1 & -> & Hty & _).
    exists e, w1. split; [reflexivity | exact Hty].
Qed.

(** Output of the compiler that cannot be decoded: the call raises
    [UnicodeDecodeError] and returns no result, when the compiler ends in
    time with whatever status and when it outlasts the compilation timeout
    and is gone within the grace period. *)
Lemma undecodable_compiler_output_raises :
  forall (H : Host) bitcode_file cmd_ cwd linkopts_ env num_runs_ san (T Tc : Q) (w : World),
    let clang := process H (spawned w) in
    files w !! Path.join cwd "a.out" = None ->
    (if within (exits_after clang) Tc then True else within (reaped_after clang) 30 = true) ->
    locale_decode H (stdout clang) = None ->
    fst (_compile_and_run_bitcode_file H bitcode_file cmd_ cwd linkopts_ env num_runs_
           (Some san) T Tc w)
    = Raised UnicodeDecodeError.
Proof.
  intros H bitcode_file cmd_ cwd linkopts_ env num_runs_ san T Tc w clang Habsent Hcase Hout.
  rewrite run_with_sanitizer.
  rewrite <- (binary_after_finfo cwd num_runs_ w) in Habsent.
  pose proof (compile_stage_undecodable H bitcode_file cmd_ cwd linkopts_ san T Tc
                (after_finfo cwd num_runs_ w) Habsent Hcase Hout) as Hraise.
  destruct (compile_stage _ _ _ _ _ _ _ _ _) as [[[failed|error_data]|e] w1];
    cbn in Hraise; try discriminate.
  injection Hraise as ->. reflexivity.
Qed.


(** What the grace period is for: when the benchmark outlasts the timeout
    and is still there 30 seconds after it was sent the signal, the second
    wait raises [TimeoutExpired] and the call returns no result. *)
Lemma second_wait_can_time_out :
  forall (H : Host) bitcode_file cmd_ cwd linkopts_ env num_runs_ (T Tc : Q) (w : World),
    within (exits_after (process H (spawned w))) T = false ->
    within (reaped_after (process H (spawned w))) 30 = false ->
    fst (_compile_and_run_bitcode_file H bitcode_file cmd_ cwd linkopts_ env num_runs_
           None T Tc w)
    = Raised TimeoutExpired.
Proof.
  intros H bitcode_file cmd_ cwd linkopts_ env num_runs_ T Tc w Hlate Hstuck.
  rewrite run_without_sanitizer.
  unfold run_stage. unfold_m. cbn.
  rewrite communicate_late by exact Hlate. cbn.
  rewrite communicate_late by exact Hstuck. reflexivity.
Qed.

(** ** The retry loop *)

Section RetryLoop.

Variable validator_cb_ : M (option ValidationError).
Variable flakiness_ : Z.

Lemma flaky_loop_success j rest error_ w :
  fst (validator_cb_ (emit Attempt w)) = Returned None ->
  flaky_loop validator_cb_ flakiness_ (j :: rest) error_ w
  = (Returned None, snd (validator_cb_ (emit Attempt w))).
Proof.
  intros Hok. cbn. unfold_m.
  destruct (validator_cb_ (emit Attempt w)) as [o w1]. cbn in Hok. subst o.
  reflexivity.
Qed.

(** Every call raises the timeout of the environment: the loop uses up
    its values of [j] and ends on the [error] it started with. *)
Lemma flaky_loop_timeouts js error_ w :
  leaves_marks validator_cb_ ->
  (forall w0, fst (validator_cb_ w0) = Raised TimeoutError) ->
  let r := flaky_loop validator_cb_ flakiness_ js error_ w in
  fst r = match error_ with
          | Some e => Returned e
          | None => Raised (UnboundLocalError "error")
          end
  /\ attempts (trace (snd r)) = attempts (trace w) + length js.
Proof.
  intros Hmarks Hraise. revert w.
  induction js as [|j rest IH]; intros w; cbn.
  - destruct error_; cbn; split; auto.
  - unfold_m.
    pose proof (Hraise (emit Attempt w)) as E.
    pose proof (Hmarks (emit Attempt w)) as F.
    destruct (validator_cb_ (emit Attempt w)) as [o w1]. cbn in E, F. subst o. cbn.
    destruct (IH (emit (Warning j flakiness_) w1)) as [IH1 IH2].
    split; [exact IH1|].
    rewrite IH2. cbn. rewrite attempts_app, F, attempts_app. cbn. lia.
Qed.

(** Every call returns an error, which may differ from call to call:
    [err n] is the error of the call that brings the number of calls to
    [n]. The loop ends on the error of the last call. *)
Lemma flaky_loop_failures (err : nat -> ValidationError) js error_ w :
  leaves_marks validator_cb_ ->
  (forall w0, fst (validator_cb_ w0) = Returned (Some (err (attempts (trace w0))))) ->
  let r := flaky_loop validator_cb_ flakiness_ js error_ w in
  fst r = match js with
          | [] => match error_ with
                  | Some e => Returned e
                  | None => Raised (UnboundLocalError "error")
                  end
          | _ => Returned (Some (err (attempts (trace w) + length js)))
          end
  /\ attempts (trace (snd r)) = attempts (trace w) + length js.
Proof.
  intros Hmarks Herr. revert w error_.
  induction js as [|j rest IH]; intros w error_; cbn.
  - destruct error_; cbn; split; auto.
  - unfold_m.
    pose proof (Herr (emit Attempt w)) as E.
    pose proof (Hmarks (emit Attempt w)) as F.
    destruct (validator_cb_ (emit Attempt w)) as [o w1]. cbn in E, F. subst o. cbn.
    destruct (IH (emit (Warning j flakiness_) w1) (Some (Some (err (attempts (trace (emit Attempt w)))))))
      as [IH1 IH2].
    assert (Hn : attempts (trace (emit (Warning j flakiness_) w1)) = S (attempts (trace w))).
    { cbn. rewrite attempts_app, F. cbn. rewrite attempts_app. cbn. lia. }
    rewrite Hn in IH1, IH2.
    split.
    + etransitivity; [exact IH1|]. destruct rest; cbn.
      * rewrite attempts_app. cbn. do 3 f_equal; lia.
      * do 3 f_equal; lia.
    + etransitivity; [exact IH2|]. lia.
Qed.

(** The loop calls the callback at least once when it has a value of
    [j] to go through. *)
Lemma flaky_loop_calls js error_ w :
  leaves_marks validator_cb_ ->
  attempts (trace w) + (if js is [] then 0 else 1)
  <= attempts (trace (snd (flaky_loop validator_cb_ flakiness_ js error_ w))).
Proof.
  intros Hmarks. revert w error_.
  induction js as [|j rest IH]; intros w error_; cbn.
  - destruct error_; cbn; lia.
  - unfold_m.
    pose proof (Hmarks (emit Attempt w)) as F.
    destruct (validator_cb_ (emit Attempt w)) as [[[e|]|x] w1]; cbn in F |- *;
      rewrite attempts_app in F; cbn in F.
    + specialize (IH (emit (Warning j flakiness_) w1) (Some (Some e))).
      cbn in IH. rewrite attempts_app in IH. cbn in IH.
      destruct (flaky_loop _ _ _ _ _) as [o w2]. cbn in *. lia.
    + lia.
    + destruct x; cbn; try lia.
      specialize (IH (emit (Warning j flakiness_) w1) error_).
      cbn in IH. rewrite attempts_app in IH. cbn in IH.
      destruct (flaky_loop _ _ _ _ _) as [o w2]. cbn in *. lia.
Qed.

End RetryLoop.

Lemma length_range_from_1 n : length (range_from_1 n) = Z.to_nat n.
Proof. unfold range_from_1. rewrite length_map, length_seq. reflexivity. Qed.

Lemma range_from_1_cons n : (1 <= n)%Z -> exists rest, range_from_1 n = 1%Z :: rest.
Proof.
  intros Hn. unfold range_from_1.
  destruct (Z.to_nat n) as [|k] eqn:E; [lia|].
  cbn. eauto.
Qed.

(** C9. The wrapper calls the callback at least once, whatever the retry
    budget is, also when it is below 1; and when the first call reports no
    error, that call is the only one and the wrapper reports success. *)
Theorem first_success_ends_the_retry_loop :
  forall (validator_cb_ : LlvmEnv -> M (option ValidationError)) (flakiness_ : Z)
         (env : LlvmEnv) (w : World),
    leaves_marks (validator_cb_ env) ->
    S (attempts (trace w))
    <= attempts (trace (snd (flaky_wrapped_cb validator_cb_ flakiness_ env w)))
    /\ (fst (validator_cb_ env (emit Attempt w)) = Returned None ->
        flaky_wrapped_cb validator_cb_ flakiness_ env w
        = (Returned None, snd (validator_cb_ env (emit Attempt w)))
        /\ attempts (trace (snd (flaky_wrapped_cb validator_cb_ flakiness_ env w)))
           = S (attempts (trace w))).
Proof.
  intros validator_cb_ flakiness_ env w Hmarks.
  unfold flaky_wrapped_cb.
  destruct (range_from_1_cons (Z.max flakiness_ 1)) as [rest ->]; [lia|].
  split.
  - pose proof (flaky_loop_calls (validator_cb_ env) flakiness_ (1%Z :: rest) None w Hmarks)
      as Hge.
    cbn [length] in Hge. lia.
  - intros Hok. rewrite flaky_loop_success by exact Hok.
    split; [reflexivity|]. cbn.
    rewrite Hmarks. cbn. rewrite attempts_app. cbn. lia.
Qed.

(** ** Statements that leave the marks of the retry loop alone *)

Lemma leaves_marks_ret {A} (a : A) : leaves_marks (ret a).
Proof. intros w. reflexivity. Qed.

Lemma leaves_marks_raise {A} e : leaves_marks (@raise A e).
Proof. intros w. reflexivity. Qed.

Lemma leaves_marks_bind {A B} (m : M A) (k : A -> M B) :
  leaves_marks m -> (forall a, leaves_marks (k a)) -> leaves_marks (bind m k).
Proof.
  intros Hm Hk w. unfold bind. specialize (Hm w).
  destruct (m w) as [[a|e] w1]; cbn in *; [|exact Hm].
  rewrite Hk. exact Hm.
Qed.

Lemma leaves_marks_try_except {A} (body : M A) catches handler :
  leaves_marks body -> leaves_marks handler -> leaves_marks (try_except body catches handler).
Proof.
  intros Hb Hh w. unfold try_except. specialize (Hb w).
  destruct (body w) as [[a|e] w1]; cbn in *; [exact Hb|].
  destruct (catches e); cbn; [rewrite Hh|]; exact Hb.
Qed.

Lemma leaves_marks_try_finally {A} (body : M A) cleanup :
  leaves_marks body -> leaves_marks cleanup -> leaves_marks (try_finally body cleanup).
Proof.
  intros Hb Hc w. unfold try_finally. specialize (Hb w).
  destruct (body w) as [r w1]. specialize (Hc w1).
  destruct (cleanup w1) as [[u|e] w2]; cbn in *; congruence.
Qed.

Lemma leaves_marks_emit {A} (o : Outcome A) (e : Event) (f : World -> World) :
  e <> Attempt ->
  (forall w, trace (f w) = trace w) ->
  leaves_marks (fun w => (o, emit e (f w))).
Proof.
  intros He Hf w. cbn. rewrite attempts_app, Hf.
  destruct e; cbn; try lia. contradiction.
Qed.

Create HintDb marks.

Ltac marks_step :=
  first
    [ solve [auto with marks]
    | progress cbv zeta
    | apply leaves_marks_ret
    | apply leaves_marks_raise
    | apply leaves_marks_bind; [|intros ?]
    | apply leaves_marks_try_except
    | apply leaves_marks_try_finally
    | match goal with
      | |- leaves_marks (match ?x with _ => _ end) => destruct x
      end ].

Section Marks.

Variable H : Host.

Lemma leaves_marks_is_file p : leaves_marks (is_file p).
Proof. intros w. reflexivity. Qed.

Lemma leaves_marks_write_file p c : leaves_marks (write_file p c).
Proof. intros w. reflexivity. Qed.

Lemma leaves_marks_unlink p : leaves_marks (unlink p).
Proof. intros w. unfold unlink. destruct (_ !! _); reflexivity. Qed.

Lemma leaves_marks_rename p q : leaves_marks (rename p q).
Proof. intros w. unfold rename. destruct (_ !! _); reflexivity. Qed.

Lemma leaves_marks_assert b : leaves_marks (assert b).
Proof. destruct b; intros w; reflexivity. Qed.

Lemma leaves_marks_log e : e <> Attempt -> leaves_marks (log e).
Proof. intros He. apply (leaves_marks_emit _ e (fun w => w) He). reflexivity. Qed.

Lemma leaves_marks_popen c e d : leaves_marks (popen c e d).
Proof. intros w. cbn. rewrite attempts_app. cbn. lia. Qed.

Lemma leaves_marks_kill pid : leaves_marks (kill H pid).
Proof.
  intros w. cbn. rewrite attempts_app. destruct (python_3_7 H); cbn; lia.
Qed.

Lemma leaves_marks_communicate pid s t : leaves_marks (communicate H pid s t).
Proof.
  intros w. unfold communicate.
  destruct (if s then _ else _) as [d|]; [destruct (Qle_bool d t)|]; reflexivity.
Qed.

Lemma leaves_marks_communicate_text pid s t : leaves_marks (communicate_text H pid s t).
Proof.
  unfold communicate_text. repeat marks_step.
  apply leaves_marks_communicate.
Qed.

Lemma leaves_marks_run_diff a b : leaves_marks (run_diff H a b).
Proof. intros w. cbn. rewrite attempts_app. cbn. lia. Qed.

Lemma leaves_marks_mkdtemp d : leaves_marks (mkdtemp H d).
Proof. intros w. cbn. rewrite attempts_app. cbn. lia. Qed.

Lemma leaves_marks_rmtree d : leaves_marks (rmtree d).
Proof. intros w. cbn. rewrite attempts_app. cbn. lia. Qed.

Lemma leaves_marks_rpc {A} e (a : A) change :
  e <> Attempt -> (forall w, trace (change w) = trace w) -> leaves_marks (rpc H e a change).
Proof.
  intros He Hch w. unfold rpc.
  destruct (rpc_times_out H (rpcs w)); cbn; rewrite ?Hch; cbn;
    rewrite attempts_app; destruct e; cbn; try lia; contradiction.
Qed.

#[local] Hint Resolve leaves_marks_is_file leaves_marks_write_file leaves_marks_unlink
  leaves_marks_rename leaves_marks_assert leaves_marks_popen leaves_marks_kill
  leaves_marks_communicate leaves_marks_communicate_text leaves_marks_run_diff
  leaves_marks_mkdtemp leaves_marks_rmtree : marks.

Ltac marks := repeat marks_step.

Lemma leaves_marks_run bitcode_file cmd_ cwd linkopts_ env num_runs_ sanitizer_ T Tc :
  leaves_marks
    (_compile_and_run_bitcode_file H bitcode_file cmd_ cwd linkopts_ env num_runs_
       sanitizer_ T Tc).
Proof.
  unfold _compile_and_run_bitcode_file, compile_stage, run_stage.
  marks.
Qed.
#[local] Hint Resolve leaves_marks_run : marks.

Lemma leaves_marks_download : leaves_marks (download_cBench_runtime_data H).
Proof.
  unfold download_cBench_runtime_data. marks.
  apply (leaves_marks_emit _ Download (fun w => set_files _ w)); [discriminate|reflexivity].
Qed.

#[local] Hint Resolve leaves_marks_download : marks.

Lemma leaves_marks_require names : leaves_marks (require_input_files H names).
Proof. induction names; cbn; marks. Qed.

Lemma leaves_marks_keep cfg env g paths :
  leaves_marks (keep_gold_standard_files cfg env g paths).
Proof. induction paths; cbn; marks. Qed.

Lemma leaves_marks_difftest cfg paths : leaves_marks (difftest_output_files H cfg paths).
Proof. induction paths; cbn; marks. Qed.

#[local] Hint Resolve leaves_marks_require leaves_marks_keep leaves_marks_difftest : marks.

Lemma leaves_marks_validator_cb cfg env : leaves_marks (validator_cb H cfg env).
Proof.
  unfold validator_cb, validator_body, gold_standard_stage, candidate_stage,
    fork, reset, write_bitcode, close.
  marks;
    try (apply leaves_marks_rpc; [discriminate | reflexivity]);
    try (apply leaves_marks_log; discriminate);
    try (apply (leaves_marks_emit _ (PreExecution _) (fun w => set_files _ w));
         [discriminate | reflexivity]).
Qed.

End Marks.

(** ** The validation attempt *)

Section Attempt.

Variable H : Host.

Lemma download_files w :
  files (snd (download_cBench_runtime_data H w)) = files_after_download H (files w).
Proof.
  unfold download_cBench_runtime_data, files_after_download. unfold_m.
  destruct (files w !! _); reflexivity.
Qed.

Lemma download_returns w :
  exists b, fst (download_cBench_runtime_data H w) = Returned b.
Proof.
  unfold download_cBench_runtime_data. unfold_m.
  destruct (files w !! _); cbn; eauto.
Qed.

(** The download launches nothing, makes no scratch directory and does
    not call the environment. *)
Lemma download_frame w :
  let w' := snd (download_cBench_runtime_data H w) in
  spawned w' = spawned w /\ tmpdirs w' = tmpdirs w /\ rpcs w' = rpcs w
  /\ (trace w' = trace w \/ trace w' = (trace w ++ [Download])%list).
Proof.
  unfold download_cBench_runtime_data. unfold_m.
  destruct (files w !! _); cbn; auto.
Qed.

Lemma first_missing_exists names name fs :
  In name names ->
  fs !! Path.join (cbench_data H) name = None ->
  exists missing,
    first_missing H names fs = Some missing
    /\ In missing names
    /\ fs !! Path.join (cbench_data H) missing = None.
Proof.
  induction names as [|n names IH]; intros Hin Habs; [contradiction|].
  cbn. destruct (fs !! Path.join (cbench_data H) n) eqn:E.
  - destruct Hin as [->|Hin]; [congruence|].
    destruct (IH Hin Habs) as (m & Hm & Hmin & Hmabs). exists m. auto.
  - exists n. auto.
Qed.

Lemma require_input_files_spec names w :
  require_input_files H names w
  = (match first_missing H names (files w) with
     | Some missing =>
         Raised (FileNotFoundError
                   ("Required benchmark input not found: "
                    ++ Path.join (cbench_data H) missing))
     | None => Returned tt
     end, w).
Proof.
  induction names as [|n names IH]; [reflexivity|].
  cbn. unfold_m.
  destruct (files w !! Path.join (cbench_data H) n); cbn; [exact IH | reflexivity].
Qed.

(** The callback when a required input file is missing. *)
Lemma validator_cb_missing cfg env w missing :
  first_missing H (input_files cfg) (files_after_download H (files w)) = Some missing ->
  validator_cb H cfg env w
  = (Raised (FileNotFoundError
               ("Required benchmark input not found: "
                ++ Path.join (cbench_data H) missing)),
     snd (download_cBench_runtime_data H w)).
Proof.
  intros Hm. unfold validator_cb, bind.
  pose proof (download_files w) as Hf. destruct (download_returns w) as [b Hb].
  destruct (download_cBench_runtime_data H w) as [o wa]. cbn in Hf, Hb. subst o.
  rewrite require_input_files_spec, Hf, Hm. reflexivity.
Qed.

End Attempt.

Lemma flaky_loop_fault validator_cb_ flakiness_ j rest error_ w e :
  fst (validator_cb_ (emit Attempt w)) = Raised e ->
  is_TimeoutError e = false ->
  flaky_loop validator_cb_ flakiness_ (j :: rest) error_ w
  = (Raised e, snd (validator_cb_ (emit Attempt w))).
Proof.
  intros Hr He. cbn. unfold_m.
  destruct (validator_cb_ (emit Attempt w)) as [o w1]. cbn in Hr. subst o.
  rewrite He. reflexivity.
Qed.

(** C8. When a required input file is not in the runtime-data directory,
    the callback raises [FileNotFoundError] before it makes the scratch
    directory, launches a process or calls the environment, and the retry
    loop lets the exception through after this one call. *)
Theorem missing_input_file_is_raised_at_once :
  forall (H : Host) (cfg : ValidatorConfig) (env : LlvmEnv) (w : World) (name : string),
    In name (input_files cfg) ->
    files_after_download H (files w) !! Path.join (cbench_data H) name = None ->
    exists missing,
      In missing (input_files cfg)
      /\ files_after_download H (files w) !! Path.join (cbench_data H) missing = None
      /\ validator_cb H cfg env w
         = (Raised (FileNotFoundError
                      ("Required benchmark input not found: "
                       ++ Path.join (cbench_data H) missing)),
            snd (download_cBench_runtime_data H w))
      /\ tmpdirs (snd (validator_cb H cfg env w)) = tmpdirs w
      /\ spawned (snd (validator_cb H cfg env w)) = spawned w
      /\ rpcs (snd (validator_cb H cfg env w)) = rpcs w
      /\ (trace (snd (validator_cb H cfg env w)) = trace w
          \/ trace (snd (validator_cb H cfg env w)) = (trace w ++ [Download])%list)
      /\ fst (_make_cBench_validator H cfg env w)
         = Raised (FileNotFoundError
                     ("Required benchmark input not found: "
                      ++ Path.join (cbench_data H) missing))
      /\ attempts (trace (snd (_make_cBench_validator H cfg env w)))
         = S (attempts (trace w)).
Proof.
  intros H cfg env w name Hin Habs.
  destruct (first_missing_exists H _ _ _ Hin Habs) as (m & Hfirst & Hm & Hmabs).
  pose proof (validator_cb_missing H cfg env w m Hfirst) as Hv.
  pose proof (validator_cb_missing H cfg env (emit Attempt w) m Hfirst) as Hv'.
  exists m. split; [exact Hm|]. split; [exact Hmabs|]. split; [exact Hv|].
  rewrite Hv. cbn.
  destruct (download_frame H w) as (Hs & Ht & Hr & Htr).
  split; [exact Ht|]. split; [exact Hs|]. split; [exact Hr|]. split; [exact Htr|].
  unfold _make_cBench_validator, flaky_wrapped_cb.
  destruct (range_from_1_cons (Z.max (flakiness cfg) 1)) as [rest ->]; [lia|].
  rewrite (flaky_loop_fault _ _ _ _ _ _ _ (f_equal fst Hv')) by reflexivity.
  split; [reflexivity|]. cbn.
  rewrite (leaves_marks_validator_cb H cfg env). cbn. rewrite attempts_app. cbn. lia.
Qed.

(** C4. When the reference run returns an error, the callback returns at
    once an error of type "Gold standard: " followed by the type of that
    error, with its data unchanged: after the reference run the copy of the
    environment is released and the scratch directory removed, and nothing
    else happens, so no candidate is run and nothing is compared. *)
Theorem gold_standard_error_ends_the_attempt :
  forall (H : Host) (cfg : ValidatorConfig) (env : LlvmEnv) (w : World)
         (cwd : string) (gs_env : LlvmEnv) (w1 : World)
         (gold_standard : BenchmarkExecutionResult) (w2 : World) (e : ValidationError),
    compare_output cfg = true \/ output_files cfg <> [] ->
    before_gold_standard_run H cfg env w = (Returned (cwd, gs_env), w1) ->
    _compile_and_run_bitcode_file H (Path.join cwd "benchmark.bc")
      (Str.replace "$D" (cbench_data H) (cmd cfg)) cwd (linkopts cfg ++ ["-O2"])%list
      (os_env cfg) 1 None 300 60 w1
    = (Returned gold_standard, w2) ->
    error gold_standard = Some e ->
    let after := snd (validator_cb H cfg env w) in
    fst (validator_cb H cfg env w)
    = Returned (Some {| type := "Gold standard: " ++ type e; data := data e |})
    /\ trace after = (trace w2 ++ [EnvClose; Rmtree cwd])%list
    /\ spawned after = spawned w2
    /\ rpcs after = rpcs w2.
Proof.
  intros H cfg env w cwd gs_env w1 gold_standard w2 e Hask Hpre Hrun Herr after.
  subst after.
  assert (Hcond : compare_output cfg || negb (length (output_files cfg) =? 0)%nat = true).
  { destruct Hask as [->|Hne]; [reflexivity|].
    destruct (output_files cfg); [contradiction|]. apply orb_true_r. }
  unfold validator_cb, validator_body, gold_standard_stage.
  unfold before_gold_standard_run in Hpre.
  rewrite Hcond. unfold bind, try_finally in *.
  destruct (download_cBench_runtime_data H w) as [[b|x] wa]; [|discriminate].
  destruct (require_input_files H (input_files cfg) wa) as [[[]|x] wb]; [|discriminate].
  destruct (mkdtemp H (working_dir env) wb) as [[d|x] wc]; [|discriminate].
  destruct (pre_execution_callback cfg) as [setup|];
    unfold ret in Hpre |- *; cbv beta iota in Hpre |- *;
    (destruct (fork H env _) as [[g|x] we]; [|discriminate]);
    (destruct (reset H g (benchmark env) we) as [[g'|x] wf]; [|discriminate]);
    (destruct (write_bitcode H g' (Path.join d "benchmark.bc") wf) as [[[]|x] wg];
     [|discriminate]);
    injection Hpre as -> -> ->;
    rewrite Hrun, Herr; cbn; rewrite <- app_assoc; auto.
Qed.

(** ** Comparison of the output files *)

Lemma files_after_diffs paths w : files (after_diffs paths w) = files w.
Proof.
  revert w. induction paths as [|p paths IH]; intros w; [reflexivity|].
  cbn. rewrite IH. reflexivity.
Qed.

Lemma after_diffs_app a b w : after_diffs (a ++ b) w = after_diffs b (after_diffs a w).
Proof. apply fold_left_app. Qed.


Section Difftest.

Variable H : Host.

Lemma difftest_skips_equal_files cfg checked rest w :
  (forall a, fst (diff H (Some a) (Some a)) = 0%Z) ->
  Forall (same_as_gold_standard (files w)) checked ->
  difftest_output_files H cfg (checked ++ rest) w
  = difftest_output_files H cfg rest (after_diffs checked w).
Proof.
  intros Hsame. revert w.
  induction checked as [|p checked IH]; intros w Hall; [reflexivity|].
  inversion Hall as [|? ? (c & Hp & Hg) Hall']; subst.
  cbn. unfold_m. rewrite Hp. cbn. rewrite Hp, Hg. cbn. rewrite Hsame. cbn.
  apply IH. exact Hall'.
Qed.

End Difftest.


Section Candidate.

Variable H : Host.

(** A candidate run without error: the checker is called and what it
    returns is dropped, the console output is compared if that is asked
    for, and the result is that of the comparison of the output files. *)
Lemma candidate_stage_passes_on cfg env cwd expanded paths gold w w1 outcome w2 :
  write_bitcode H env (Path.join cwd "benchmark.bc") w = (Returned tt, w1) ->
  _compile_and_run_bitcode_file H (Path.join cwd "benchmark.bc") expanded cwd
    (linkopts cfg) (os_env cfg) (num_runs cfg) (sanitizer cfg) 300 60 w1
  = (Returned outcome, w2) ->
  error outcome = None ->
  (compare_output cfg = true -> exists gs, gold = Some gs /\ output gs = output outcome) ->
  candidate_stage H cfg env cwd expanded paths gold w
  = difftest_output_files H cfg paths
      match validate_result cfg with
      | Some check => emit (ValidateResult (check outcome)) w2
      | None => w2
      end.
Proof.
  intros Hw Hrun Herr Hcmp.
  unfold candidate_stage, bind. rewrite Hw, Hrun, Herr.
  destruct (validate_result cfg) as [check|]; unfold log, ret; cbv beta iota;
    (destruct (compare_output cfg);
     [destruct (Hcmp eq_refl) as (gs & -> & Heq); rewrite Heq;
      rewrite bool_decide_eq_true_2 by reflexivity; reflexivity
     | reflexivity]).
Qed.

(** A diagnostic of the checker does not make the attempt fail. *)
Lemma checker_diagnostic_is_dropped cfg env cwd expanded gold w w1 outcome w2 check diag :
  write_bitcode H env (Path.join cwd "benchmark.bc") w = (Returned tt, w1) ->
  _compile_and_run_bitcode_file H (Path.join cwd "benchmark.bc") expanded cwd
    (linkopts cfg) (os_env cfg) (num_runs cfg) (sanitizer cfg) 300 60 w1
  = (Returned outcome, w2) ->
  error outcome = None ->
  validate_result cfg = Some check ->
  check outcome = Some diag ->
  compare_output cfg = false ->
  candidate_stage H cfg env cwd expanded [] gold w
  = (Returned None, emit (ValidateResult (Some diag)) w2).
Proof.
  intros Hw Hrun Herr Hcheck Hdiag Hcmp.
  rewrite (candidate_stage_passes_on cfg env cwd expanded [] gold w w1 outcome w2)
    by (try assumption; rewrite Hcmp; discriminate).
  rewrite Hcheck, Hdiag. reflexivity.
Qed.

Lemma validator_cb_ends_with_comparison cfg env w cwd w_cmp :
  reaches_comparison H cfg env w cwd w_cmp ->
  fst (validator_cb H cfg env w)
  = fst (difftest_output_files H cfg (map (Path.join cwd) (output_files cfg)) w_cmp).
Proof.
  intros (unpacked & w1 & w2 & gold & w3 & w4 & outcome & w5
          & Hd & Hr & Hm & Hg & Hw & Hrun & Herr & Hcmp & ->).
  unfold validator_cb, validator_body, bind, try_finally.
  rewrite Hd, Hr, Hm.
  destruct (pre_execution_callback cfg) as [setup|]; unfold ret; cbv beta iota;
    rewrite Hg;
    rewrite (candidate_stage_passes_on cfg env cwd _ _ gold w3 w4 outcome w5 Hw Hrun Herr Hcmp);
    destruct (difftest_output_files _ _ _ _) as [r w']; reflexivity.
Qed.

End Candidate.


(** When every call of the callback raises the timeout of the
    environment, the loop makes [max(flakiness, 1)] calls and then fails on
    its unbound local [error]. *)
Lemma persistent_timeout_ends_unbound validator_cb_ flakiness_ env w :
  leaves_marks (validator_cb_ env) ->
  (forall w0, fst (validator_cb_ env w0) = Raised TimeoutError) ->
  fst (flaky_wrapped_cb validator_cb_ flakiness_ env w) = Raised (UnboundLocalError "error")
  /\ attempts (trace (snd (flaky_wrapped_cb validator_cb_ flakiness_ env w)))
     = attempts (trace w) + Z.to_nat (Z.max flakiness_ 1).
Proof.
  intros Hmarks Hraise. unfold flaky_wrapped_cb.
  destruct (flaky_loop_timeouts (validator_cb_ env) flakiness_
              (range_from_1 (Z.max flakiness_ 1)) None w Hmarks Hraise) as [Hr Hn].
  rewrite length_range_from_1 in Hn. auto.
Qed.

(** When every call returns an error, the loop makes [max(flakiness, 1)]
    calls and returns the error of the last one. *)
Lemma persistent_failure_returns_last_error validator_cb_ flakiness_ env w err :
  leaves_marks (validator_cb_ env) ->
  (forall w0, fst (validator_cb_ env w0) = Returned (Some (err (attempts (trace w0))))) ->
  fst (flaky_wrapped_cb validator_cb_ flakiness_ env w)
  = Returned (Some (err (attempts (trace w) + Z.to_nat (Z.max flakiness_ 1))))
  /\ attempts (trace (snd (flaky_wrapped_cb validator_cb_ flakiness_ env w)))
     = attempts (trace w) + Z.to_nat (Z.max flakiness_ 1).
Proof.
  intros Hmarks Herr. unfold flaky_wrapped_cb.
  destruct (flaky_loop_failures (validator_cb_ env) flakiness_ err
              (range_from_1 (Z.max flakiness_ 1)) None w Hmarks Herr) as [Hr Hn].
  rewrite length_range_from_1 in Hr, Hn. split; [|exact Hn].
  destruct (range_from_1_cons (Z.max flakiness_ 1)) as [rest E]; [lia|].
  rewrite E in Hr |- *. exact Hr.
Qed.

(** ** The theorems at work on the example machine *)

Lemma example_compiler_creates binary : creates (Example.compiler binary) binary.
Proof. intros fs. cbn. rewrite lookup_insert_eq. eauto. Qed.

Lemma example_exits_keeps d rc out path : keeps (Example.exits d rc out) path.
Proof. intros fs Hfs. exact Hfs. Qed.

Lemma example_hangs_keeps path : keeps Example.hangs path.
Proof. intros fs Hfs. exact Hfs. Qed.

Lemma example_compiles procs slow Tc :
  procs 0 = Example.compiler "/w/a.out" ->
  (2 <= Tc)%Q ->
  compiles (Example.machine procs slow) "/w" Tc (Example.start ∅).
Proof.
  intros Hp HT. unfold compiles. cbn. rewrite Hp. cbn.
  split; [reflexivity|]. split; [apply Qle_bool_iff; exact HT|].
  split; [reflexivity|]. split; [eexists; reflexivity|].
  apply example_compiler_creates.
Qed.

Lemma leak_report_is_a_memory_leak :
  (exists e w',
     _compile_and_run_bitcode_file (Example.machine Example.leaking (fun _ => false))
       "/w/benchmark.bc" "$BIN 512" "/w" [] [] 1 (Some ASAN) 300 60 (Example.start ∅)
     = (Returned {| walltime_seconds := 3; error := Some e; output := None |}, w')
     /\ type e = "Memory leak" /\ type e <> "Memory error")
  /\ (forall sanitizer_ output_ returncode_,
        error_type_of sanitizer_ output_ returncode_
        = first_match classifier_rules sanitizer_ output_
            ("Runtime error (" ++ Str.of_Z returncode_ ++ ")")).
Proof.
  refine (leak_takes_precedence_over_memory_error
            (Example.machine Example.leaking (fun _ => false))
            "/w/benchmark.bc" "$BIN 512" "/w" [] [] 1 300 60 (Example.start ∅) _ _ _ _ _).
  - split.
    + apply example_compiles; [reflexivity | vm_compute; discriminate].
    + apply example_exits_keeps.
  - reflexivity.
  - discriminate.
  - vm_compute. reflexivity.
  - vm_compute. reflexivity.
Defined.


Lemma hanging_compiler_reports_the_execution_timeout :
  exists e w',
    _compile_and_run_bitcode_file (Example.machine (fun _ => Example.hangs) (fun _ => false))
      "/w/benchmark.bc" "$BIN 512" "/w" [] [] 1 (Some ASAN) 300 60 (Example.start ∅)
    = (Returned {| walltime_seconds := 300; error := Some e; output := None |}, w')
    /\ type e = "Compilation timeout".
Proof.
  refine (compilation_failure_reports_the_execution_timeout
            (Example.machine (fun _ => Example.hangs) (fun _ => false))
            "/w/benchmark.bc" "$BIN 512" "/w" [] [] 1 ASAN 300 60 (Example.start ∅) _ _ _).
  - reflexivity.
  - eexists. vm_compute. reflexivity.
  - reflexivity.
Defined.


Lemma passing_validation_is_attempted_once :
  let H := Example.machine (fun _ => Example.exits 1 0 "abc") (fun _ => false) in
  let w := Example.start Example.runtime_data in
  flaky_wrapped_cb (validator_cb H Example.crc32) 5 Example.env w
  = (Returned None, snd (validator_cb H Example.crc32 Example.env (emit Attempt w)))
  /\ attempts (trace (snd (flaky_wrapped_cb (validator_cb H Example.crc32) 5 Example.env w)))
     = S (attempts (trace w)).
Proof.
  intros H w.
  refine (proj2 (first_success_ends_the_retry_loop (validator_cb H Example.crc32) 5
                   Example.env w (leaves_marks_validator_cb H Example.crc32 Example.env)) _).
  vm_compute. reflexivity.
Defined.

Lemma missing_office_data_is_raised_at_once :
  let H := Example.machine (fun _ => Example.exits 1 0 "abc") (fun _ => false) in
  let w := Example.start Example.runtime_data_without_input in
  exists missing,
    In missing (input_files Example.crc32)
    /\ files_after_download H (files w) !! Path.join (cbench_data H) missing = None
    /\ validator_cb H Example.crc32 Example.env w
       = (Raised (FileNotFoundError
                    ("Required benchmark input not found: "
                     ++ Path.join (cbench_data H) missing)),
          snd (download_cBench_runtime_data H w))
    /\ tmpdirs (snd (validator_cb H Example.crc32 Example.env w)) = tmpdirs w
    /\ spawned (snd (validator_cb H Example.crc32 Example.env w)) = spawned w
    /\ rpcs (snd (validator_cb H Example.crc32 Example.env w)) = rpcs w
    /\ (trace (snd (validator_cb H Example.crc32 Example.env w)) = trace w
        \/ trace (snd (validator_cb H Example.crc32 Example.env w))
           = (trace w ++ [Download])%list)
    /\ fst (_make_cBench_validator H Example.crc32 Example.env w)
       = Raised (FileNotFoundError
                   ("Required benchmark input not found: "
                    ++ Path.join (cbench_data H) missing))
    /\ attempts (trace (snd (_make_cBench_validator H Example.crc32 Example.env w)))
       = S (attempts (trace w)).
Proof.
  intros H w.
  refine (missing_input_file_is_raised_at_once H Example.crc32 Example.env w
            "office_data/1.txt" _ _).
  - left. reflexivity.
  - vm_compute. reflexivity.
Defined.

Lemma broken_reference_ends_the_attempt :
  fst (validator_cb (Example.machine Example.broken_reference (fun _ => false))
         Example.crc32 Example.env (Example.start Example.runtime_data))
  = Returned (Some {| type := "Gold standard: Runtime error (1)";
                      data := [("run_cmd", PStr "lli benchmark.bc /data/office_data/1.txt");
                               ("return_code", PInt 1);
                               ("output", PStr "boom")] |}).
Proof.
  edestruct (gold_standard_error_ends_the_attempt
               (Example.machine Example.broken_reference (fun _ => false))
               Example.crc32 Example.env (Example.start Example.runtime_data))
    as [Hfst _];
    [ left; reflexivity
    | vm_compute; reflexivity
    | vm_compute; reflexivity
    | reflexivity
    | exact Hfst ].
Defined.

Lemma example_diff_compares_bytes procs slow :
  diff_compares_bytes (Example.machine procs slow).
Proof.
  split; cbn; unfold Example.byte_diff.
  - intros a. rewrite bool_decide_eq_true_2 by reflexivity. reflexivity.
  - intros a b Hne. rewrite bool_decide_eq_false_2 by congruence.
    split; cbn; discriminate.
Qed.



(** C3. With a retry budget of five and an environment that times out on
    every call, every call of the callback raises [TimeoutError]: the
    wrapper calls it five times, as many as its budget, and then raises
    [UnboundLocalError] for its local [error], which no call has bound. It
    does not return the last observed error. *)
Theorem timeouts_on_every_call_end_in_an_unbound_local :
  let r :=
    _make_cBench_validator (Example.machine (fun _ => Example.exits 1 0 "abc") (fun _ => true))
      Example.crc32 Example.env (Example.start Example.runtime_data) in
  fst r = Raised (UnboundLocalError "error") /\ attempts (trace (snd r)) = 5.
Proof. vm_compute. split; reflexivity. Qed.

(** C5. With the checker [validate_sha_output] configured and a candidate
    that prints no digest, the checker returns the diagnostic "Failed to
    parse hex output" and the validation reports success all the same: the
    diagnostic is not a validation failure. *)
Theorem checker_diagnostic_does_not_fail_the_validation :
  let r :=
    _make_cBench_validator
      (Example.machine (fun _ => Example.exits 1 0 "not a digest") (fun _ => false))
      Example.sha Example.env (Example.start Example.runtime_data) in
  fst r = Returned None
  /\ In (ValidateResult (Some "Failed to parse hex output")) (trace (snd r)).
Proof. vm_compute. split; [reflexivity | auto 10]. Qed.

(** ** Whole attempts on the example machine *)

(** Each example is one validation attempt. *)

(** Candidate and reference both exit with 0 and print the same output,
    and no output file is declared: the validation succeeds. *)
Example equal_console_output_validates :
  fst (validator_cb
         (Example.machine (fun _ => Example.exits 1 0 ("abc" ++ LF)) (fun _ => false))
         Example.crc32 Example.env (Example.start Example.runtime_data))
  = Returned None.
Proof. vm_compute. reflexivity. Qed.

(** The candidate writes "X" to [output.txt] where the reference run wrote
    "Y": the result is "Wrong output (file)" for [output.txt]. *)
Example different_output_file_fails_the_validation :
  fst (validator_cb
         (Example.machine (Example.decrypts "Y" "X") (fun _ => false))
         Example.blowfish Example.env (Example.start Example.runtime_data))
  = Returned (Some {| type := "Wrong output (file)";
                      data := [("path", PStr "output.txt");
                               ("diff", PStr "Files differ")] |}).
Proof. vm_compute. reflexivity. Qed.

(** Both runs write the same bytes: the validation succeeds. *)
Example equal_output_file_validates :
  fst (validator_cb
         (Example.machine (Example.decrypts "Y" "Y") (fun _ => false))
         Example.blowfish Example.env (Example.start Example.runtime_data))
  = Returned None.
Proof. vm_compute. reflexivity. Qed.

(** A benchmark that segfaults under the interpreter. *)
Example segfault_is_classified :
  error_type_of None ("Segmentation fault (core dumped)" ++ LF) (-11) = "Segmentation fault"
  /\ error_type_of (Some TSAN) "ThreadSanitizer: data race" 66 = "Runtime error (66)".
Proof. vm_compute. split; reflexivity. Qed.

(** The compiler ends after four seconds with status 1: the result
    reports the 300 seconds of the execution timeout. *)
Example failing_compiler_reports_the_execution_timeout :
  fst (_compile_and_run_bitcode_file
         (Example.machine (fun _ => Example.exits 4 1 "error: linker") (fun _ => false))
         "/w/benchmark.bc" "$BIN 512" "/w" [] [] 1 (Some UBSAN) 300 60 (Example.start ∅))
  = Returned {| walltime_seconds := 300;
                error := Some {| type := "Compilation failed";
                                 data := [("run_cmd", PStr "./a.out 512");
                                          ("compile_cmd",
                                           PList ["clang"; "/w/benchmark.bc"; "-o"; "/w/a.out";
                                                  "-fsanitize=undefined"]);
                                          ("output", PStr "error: linker")] |};
                output := None |}.
Proof. vm_compute. reflexivity. Qed.

(** The compiled binary outlasts a timeout of five seconds: it is killed
    and removed, and the result reports five seconds. *)
Example hanging_binary_is_killed_and_removed :
  let r :=
    _compile_and_run_bitcode_file
      (Example.machine (fun n => match n with
                                 | O => Example.compiler "/w/a.out"
                                 | _ => Example.hangs
                                 end) (fun _ => false))
      "/w/benchmark.bc" "$BIN 512" "/w" [] [] 1 (Some MSAN) 5 60 (Example.start ∅) in
  (walltime_seconds <$> fst_returned (fst r)) = Some 5%Q
  /\ In (Kill 1) (trace (snd r))
  /\ files (snd r) !! "/w/a.out" = None.
Proof. vm_compute. auto 10. Qed.

(** * More properties of the code *)

(** ** The classifier *)

Lemma prefix_app n b : String.prefix n (n ++ b) = true.
Proof.
  induction n as [|c n IH]; [destruct b; reflexivity|].
  change (String c n ++ b) with (String c (n ++ b)).
  change (String.prefix (String c n) (String c (n ++ b)))
    with (if ascii_dec c c then String.prefix n (n ++ b) else false).
  destruct (ascii_dec c c); [exact IH | contradiction].
Qed.

Lemma prefix_split n h : String.prefix n h = true -> exists b, h = n ++ b.
Proof.
  revert h. induction n as [|c n IH]; intros h Hp.
  - exists h. reflexivity.
  - destruct h as [|c' h]; [discriminate|].
    change (String.prefix (String c n) (String c' h))
      with (if ascii_dec c c' then String.prefix n h else false) in Hp.
    destruct (ascii_dec c c') as [->|]; [|discriminate].
    destruct (IH h Hp) as [b ->]. exists b. reflexivity.
Qed.

Lemma contains_unfold n h :
  Str.contains n h
  = String.prefix n h || match h with
                         | EmptyString => false
                         | String _ rest => Str.contains n rest
                         end.
Proof. destruct h; reflexivity. Qed.

(** [Str.contains] is the substring test. *)
Lemma contains_spec n h : Str.contains n h = true <-> exists a b, h = a ++ n ++ b.
Proof.
  split.
  - induction h as [|c h IH]; rewrite contains_unfold; intros Hc;
      apply orb_true_iff in Hc as [Hp|Hc]; try discriminate.
    + apply prefix_split in Hp as [b ->]. exists "", b. reflexivity.
    + apply prefix_split in Hp as [b Hb]. exists "", b. exact Hb.
    + destruct (IH Hc) as (a & b & ->). exists (String c a), b. reflexivity.
  - intros (a & b & ->). induction a as [|c a IH].
    + change ("" ++ n ++ b) with (n ++ b).
      rewrite contains_unfold, prefix_app. reflexivity.
    + change (String c a ++ n ++ b) with (String c (a ++ n ++ b)).
      rewrite contains_unfold, IH. apply orb_true_r.
Qed.

(** X1. The markers are looked for anywhere in the output: under
    AddressSanitizer an output that holds "LeakSanitizer" at any place is a
    memory leak, whatever else it holds; and without a sanitizer an output
    that holds "Segmentation fault" at any place is a segmentation fault. *)
Theorem markers_are_found_anywhere_in_the_output :
  forall (before after : string) (returncode_ : Z),
    error_type_of (Some ASAN) (before ++ "LeakSanitizer" ++ after) returncode_ = "Memory leak"
    /\ error_type_of None (before ++ "Segmentation fault" ++ after) returncode_
       = "Segmentation fault".
Proof.
  intros a b rc. unfold error_type_of. cbn [LlvmSanitizer_eqb andb].
  rewrite (proj2 (contains_spec "LeakSanitizer" _)) by eauto.
  rewrite (proj2 (contains_spec "Segmentation fault" _)) by eauto.
  split; reflexivity.
Qed.

(** X2. The two memory kinds are only given under the sanitizer that
    finds them: "Memory leak" exactly under AddressSanitizer when the
    output holds "LeakSanitizer"; "Memory error" exactly under
    AddressSanitizer when it holds "AddressSanitizer" and not
    "LeakSanitizer", or under MemorySanitizer when it holds
    "MemorySanitizer". Without a sanitizer, and under the thread and
    undefined-behaviour sanitizers, neither is ever given. *)
Theorem memory_kinds_need_their_sanitizer :
  forall (sanitizer_ : option LlvmSanitizer) (output_ : string) (returncode_ : Z),
    (error_type_of sanitizer_ output_ returncode_ = "Memory leak"
     <-> sanitizer_ = Some ASAN /\ Str.contains "LeakSanitizer" output_ = true)
    /\ (error_type_of sanitizer_ output_ returncode_ = "Memory error"
        <-> (sanitizer_ = Some ASAN
             /\ Str.contains "LeakSanitizer" output_ = false
             /\ Str.contains "AddressSanitizer" output_ = true)
            \/ (sanitizer_ = Some MSAN /\ Str.contains "MemorySanitizer" output_ = true)).
Proof.
  intros s out rc. unfold error_type_of.
  destruct s as [[]|]; cbn [LlvmSanitizer_eqb andb];
    destruct (Str.contains "LeakSanitizer" out);
    destruct (Str.contains "AddressSanitizer" out);
    destruct (Str.contains "MemorySanitizer" out);
    destruct (Str.contains "Segmentation fault" out);
    destruct (Str.contains "Illegal Instruction" out);
    (split; split; intros E;
     repeat match goal with
            | E : _ /\ _ |- _ => destruct E
            | E : _ \/ _ |- _ => destruct E
            end;
     try discriminate; try reflexivity; auto 6).
Qed.

(** ** The process runner *)

Lemma launched_app t u : launched (t ++ u) = (launched t ++ launched u)%list.
Proof.
  induction t as [|e t IH]; [reflexivity|].
  destruct e; cbn; rewrite IH; reflexivity.
Qed.

Lemma dict_get_set_ne {V} k k' (v : V) d :
  k <> k' -> dict_get k (dict_set k' v d) = dict_get k d.
Proof.
  intros Hne. induction d as [|[k0 v0] d IH]; cbn.
  - destruct (String.eqb_spec k k'); [contradiction | reflexivity].
  - destruct (String.eqb_spec k' k0) as [->|Hk0]; cbn.
    + destruct (String.eqb_spec k k0); [contradiction | reflexivity].
    + destruct (String.eqb_spec k k0); [reflexivity | exact IH].
Qed.

Lemma dict_get_update {V} k (d e : list (string * V)) :
  dict_get k (dict_update d e)
  = match last_binding k e with
    | Some v => Some v
    | None => dict_get k d
    end.
Proof.
  unfold dict_update, last_binding. revert d.
  induction e as [|[k' v'] e IH]; intros d; [reflexivity|].
  cbn [fold_left fst snd rev]. rewrite IH.
  assert (Hrev : forall l : list (string * V),
            dict_get k (l ++ [(k', v')])
            = match dict_get k l with
              | Some v => Some v
              | None => if String.eqb k k' then Some v' else None
              end).
  { induction l as [|[k0 v0] l IHl]; cbn; [reflexivity|].
    destruct (String.eqb k k0); [reflexivity | exact IHl]. }
  rewrite Hrev. destruct (dict_get k (rev e)); [reflexivity|].
  destruct (String.eqb_spec k k') as [->|Hne].
  - apply dict_get_set.
  - apply dict_get_set_ne. exact Hne.
Qed.

Section RunnerMore.

Variable H : Host.

(** Whatever happens, the run stage launches one process: the benchmark,
    through the shell, with the environment and directory it was given. *)
Lemma run_stage_launched cwd sanitizer_ error_data run_cmd run_env T w :
  launched (trace (snd (run_stage H cwd sanitizer_ error_data run_cmd run_env T w)))
  = (launched (trace w) ++ [(Shell run_cmd, Some run_env, Some cwd)])%list.
Proof.
  unfold run_stage, communicate. unfold_m. cbn.
  repeat (break_match; cbn);
    rewrite ?launched_app; cbn; rewrite ?app_nil_r; try reflexivity.
Qed.

(** Whatever happens, no binary is left when the run stage of a sanitizer
    build is over. *)
Lemma run_stage_removes_binary cwd san error_data run_cmd run_env T w :
  files (snd (run_stage H cwd (Some san) error_data run_cmd run_env T w))
  !! Path.join cwd "a.out" = None.
Proof.
  unfold run_stage, communicate. unfold_m. cbn.
  repeat (break_match; cbn); try apply lookup_delete_eq; assumption.
Qed.

End RunnerMore.

(** X3. A run that ends in time with status 0 returns no error, the
    decoded output and the seconds the process took; the process saw the
    iteration count in [_finfo_dataset], and under a sanitizer the files
    are those the compiler and the benchmark left, without the binary. *)
Theorem successful_run_returns_output_and_time :
  forall (H : Host) bitcode_file cmd_ cwd linkopts_ env num_runs_ sanitizer_
         (T Tc : Q) (w : World) (d : Q),
    let p := process H (run_pid sanitizer_ w) in
    let seen := <[Path.join cwd "_finfo_dataset" := Utf8.encode (Str.of_Z num_runs_ ++ LF)]>
                  (files w) in
    reaches_run H cwd sanitizer_ Tc w ->
    exits_after p = Some d ->
    Qle_bool d T = true ->
    returncode p = 0%Z ->
    exists w',
      _compile_and_run_bitcode_file H bitcode_file cmd_ cwd linkopts_ env num_runs_
        sanitizer_ T Tc w
      = (Returned {| walltime_seconds := d; error := None;
                     output := Some (decode_or_binary (stdout p)) |}, w')
      /\ files w' = match sanitizer_ with
                    | Some _ =>
                        delete (Path.join cwd "a.out")
                          (effect p (effect (process H (spawned w)) seen))
                    | None => effect p seen
                    end.
Proof.
  intros H bitcode_file cmd_ cwd linkopts_ env num_runs_ sanitizer_ T Tc w d p seen
    Hreach Hd Hle Hrc.
  subst p seen. destruct sanitizer_ as [san|]; cbn [run_pid] in *.
  - destruct Hreach as [Hc Hkeep].
    rewrite run_with_sanitizer.
    apply (compiles_after_finfo _ _ _ _ num_runs_) in Hc as Hc1.
    destruct (compile_stage_ok H bitcode_file cmd_ cwd linkopts_ san T Tc _ Hc1)
      as (w1 & -> & Hsp & Hfs & _).
    cbn in Hsp, Hfs.
    assert (Hbin : is_Some (effect (process H (spawned w1)) (files w1) !! Path.join cwd "a.out")).
    { rewrite Hsp, Hfs. apply Hkeep. apply Hc1. }
    destruct Hbin as [c Hbin].
    unfold run_stage. unfold_m. cbn.
    rewrite (communicate_done _ _ false _ d) by (rewrite ?Hsp; assumption). cbn.
    rewrite Hbin, Hsp, Hrc. cbn.
    eexists; split; [reflexivity|]. cbn. rewrite Hfs. reflexivity.
  - rewrite run_without_sanitizer.
    unfold run_stage. unfold_m. cbn.
    rewrite (communicate_done _ _ false _ d) by assumption. cbn.
    rewrite Hrc. cbn. eexists; split; reflexivity.
Qed.

(** X4. Once the compile stage has succeeded, the binary [a.out] is gone
    when the call is over, however the benchmark ends: in time, killed
    after the timeout, or still there after the grace period. *)
Theorem binary_never_outlives_the_call :
  forall (H : Host) bitcode_file cmd_ cwd linkopts_ env num_runs_ san (T Tc : Q) (w : World),
    compiles H cwd Tc w ->
    files (snd (_compile_and_run_bitcode_file H bitcode_file cmd_ cwd linkopts_ env
                  num_runs_ (Some san) T Tc w))
    !! Path.join cwd "a.out" = None.
Proof.
  intros H bitcode_file cmd_ cwd linkopts_ env num_runs_ san T Tc w Hc.
  rewrite run_with_sanitizer.
  apply (compiles_after_finfo _ _ _ _ num_runs_) in Hc.
  destruct (compile_stage_ok H bitcode_file cmd_ cwd linkopts_ san T Tc _ Hc)
    as (w1 & -> & _).
  apply run_stage_removes_binary.
Qed.

(** X5. Without a sanitizer the one process is launched in [cwd] with an
    environment in which PATH is the directory of [lli], whatever the
    validator's own environment says; any other variable of the
    validator's environment is passed on as given, and GRPC_VERBOSITY is
    NONE unless the validator sets it. *)
Theorem interpreter_runs_with_its_own_path :
  forall (H : Host) bitcode_file cmd_ cwd linkopts_ (env : Environ) num_runs_
         (T Tc : Q) (w : World),
    exists run_cmd run_env,
      launched (trace (snd (_compile_and_run_bitcode_file H bitcode_file cmd_ cwd linkopts_
                              env num_runs_ None T Tc w)))
      = (launched (trace w) ++ [(Shell run_cmd, Some run_env, Some cwd)])%list
      /\ dict_get "PATH" run_env = Some (Path.parent (lli_path H))
      /\ (forall k v, k <> "PATH" -> last_binding k env = Some v ->
                      dict_get k run_env = Some v)
      /\ (last_binding "GRPC_VERBOSITY" env = None ->
          dict_get "GRPC_VERBOSITY" run_env = Some "NONE").
Proof.
  intros H bitcode_file cmd_ cwd linkopts_ env num_runs_ T Tc w.
  rewrite run_without_sanitizer, run_stage_launched.
  eexists _, _; split; [reflexivity|].
  split; [apply dict_get_set|]. split.
  - intros k v Hk Hlast. rewrite dict_get_set_ne by exact Hk.
    unfold make_run_env. rewrite dict_get_update, Hlast. reflexivity.
  - intros Hlast. rewrite dict_get_set_ne by discriminate.
    unfold make_run_env. rewrite dict_get_update, Hlast. reflexivity.
Qed.

(** X6. When the benchmark outlasts the timeout and is still there 30
    seconds after it was sent the signal, the second wait raises
    [TimeoutExpired] and the call returns no result; under a sanitizer
    the binary is removed all the same. *)
Theorem unreaped_process_raises_timeout_expired :
  forall (H : Host) bitcode_file cmd_ cwd linkopts_ env num_runs_ sanitizer_
         (T Tc : Q) (w : World),
    let pid := run_pid sanitizer_ w in
    reaches_run H cwd sanitizer_ Tc w ->
    within (exits_after (process H pid)) T = false ->
    within (reaped_after (process H pid)) 30 = false ->
    let r := _compile_and_run_bitcode_file H bitcode_file cmd_ cwd linkopts_ env num_runs_
               sanitizer_ T Tc w in
    fst r = Raised TimeoutExpired
    /\ In (if python_3_7 H then Kill pid else Terminate pid) (trace (snd r))
    /\ (sanitizer_ <> None -> files (snd r) !! Path.join cwd "a.out" = None).
Proof.
  intros H bitcode_file cmd_ cwd linkopts_ env num_runs_ sanitizer_ T Tc w pid
    Hreach Hlate Hstuck r.
  subst pid r. destruct sanitizer_ as [san|]; cbn [run_pid] in *.
  - destruct Hreach as [Hc Hkeep].
    rewrite run_with_sanitizer.
    apply (compiles_after_finfo _ _ _ _ num_runs_) in Hc as Hc1.
    destruct (compile_stage_ok H bitcode_file cmd_ cwd linkopts_ san T Tc _ Hc1)
      as (w1 & -> & Hsp & Hfs & _).
    cbn in Hsp, Hfs.
    assert (Hbin : is_Some (files w1 !! Path.join cwd "a.out")).
    { rewrite Hfs. apply Hc1. }
    destruct Hbin as [c Hbin].
    rewrite <- Hsp in Hlate, Hstuck |- *.
    unfold run_stage. unfold_m. cbn.
    rewrite communicate_late by exact Hlate. cbn.
    rewrite communicate_late by exact Hstuck. cbn.
    rewrite Hbin. cbn. split; [reflexivity|]. split.
    + apply in_or_app. right. cbn. auto.
    + intros _. apply lookup_delete_eq.
  - rewrite run_without_sanitizer.
    unfold run_stage. unfold_m. cbn.
    rewrite communicate_late by exact Hlate. cbn.
    rewrite communicate_late by exact Hstuck. cbn.
    split; [reflexivity|]. split; [|intros E; contradiction].
    apply in_or_app. right. cbn. auto.
Qed.

(** X7. Output that is not UTF-8 is replaced by ["<binary>"] before it is
    looked at: a run that ends in time with a non-zero status and such
    output is a generic runtime error with that status under every
    sanitizer, and its data holds ["<binary>"] as the output. *)
Theorem undecodable_output_is_a_runtime_error :
  forall (H : Host) bitcode_file cmd_ cwd linkopts_ env num_runs_ sanitizer_
         (T Tc : Q) (w : World),
    let p := process H (run_pid sanitizer_ w) in
    reaches_run H cwd sanitizer_ Tc w ->
    within (exits_after p) T = true ->
    returncode p <> 0%Z ->
    Utf8.decode (stdout p) = None ->
    exists e w',
      _compile_and_run_bitcode_file H bitcode_file cmd_ cwd linkopts_ env num_runs_
        sanitizer_ T Tc w
      = (Returned {| walltime_seconds := default 0%Q (exits_after p);
                     error := Some e; output := None |}, w')
      /\ type e = "Runtime error (" ++ Str.of_Z (returncode p) ++ ")"
      /\ dict_get "output" (data e) = Some (PStr "<binary>")
      /\ dict_get "return_code" (data e) = Some (PInt (returncode p)).
Proof.
  intros H bitcode_file cmd_ cwd linkopts_ env num_runs_ sanitizer_ T Tc w p
    Hreach Hin Hrc Hdec.
  apply within_Some in Hin as (d & Hd & Hle).
  assert (Hout : decode_or_binary (stdout p) = "<binary>").
  { unfold decode_or_binary. rewrite Hdec. reflexivity. }
  assert (Hty : error_type_of sanitizer_ "<binary>" (returncode p)
                = "Runtime error (" ++ Str.of_Z (returncode p) ++ ")").
  { destruct sanitizer_ as [[]|]; reflexivity. }
  subst p. destruct sanitizer_ as [san|]; cbn [run_pid] in *.
  - destruct Hreach as [Hc Hkeep].
    rewrite run_with_sanitizer.
    apply (compiles_after_finfo _ _ _ _ num_runs_) in Hc as Hc1.
    destruct (compile_stage_ok H bitcode_file cmd_ cwd linkopts_ san T Tc _ Hc1)
      as (w1 & -> & Hsp & Hfs & _).
    cbn in Hsp, Hfs.
    edestruct (run_stage_completed H cwd (Some san)) with (w := w1) (d := d) (T := T)
      as (w2 & -> & _).
    { rewrite Hsp. exact Hd. }
    { exact Hle. }
    { intros _. rewrite Hsp, Hfs. apply Hkeep. apply Hc1. }
    rewrite Hsp, Hout, Hd.
    destruct (Z.eqb_spec (returncode (process H (S (spawned w)))) 0) as [E|_];
      [contradiction|]. cbn.
    eexists _, _; split; [reflexivity|]. cbn [type data].
    split; [exact Hty|]. split; reflexivity.
  - rewrite run_without_sanitizer.
    edestruct (run_stage_completed H cwd None) with (w := after_finfo cwd num_runs_ w)
      (d := d) (T := T) as (w2 & -> & _).
    { exact Hd. }
    { exact Hle. }
    { intros E. contradiction. }
    cbn [spawned after_finfo set_files]. rewrite Hout, Hd.
    destruct (Z.eqb_spec (returncode (process H (spawned w))) 0) as [E|_];
      [contradiction|]. cbn.
    eexists _, _; split; [reflexivity|]. cbn [type data].
    split; [exact Hty|]. split; reflexivity.
Qed.

(** ** What a statement leaves alone *)

Section Frame.

Variable R : World -> World -> Prop.
Hypothesis R_refl : forall w, R w w.
Hypothesis R_trans : forall a b c, R a b -> R b c -> R a c.

Lemma respects_ret {A} (a : A) : respects R (ret a).
Proof. intros w. apply R_refl. Qed.

Lemma respects_raise {A} e : respects R (@raise A e).
Proof. intros w. apply R_refl. Qed.

Lemma respects_bind {A B} (m : M A) (k : A -> M B) :
  respects R m -> (forall a, respects R (k a)) -> respects R (bind m k).
Proof.
  intros Hm Hk w. unfold bind. specialize (Hm w).
  destruct (m w) as [[a|e] w1]; cbn in *; [|exact Hm].
  eapply R_trans; [exact Hm | apply Hk].
Qed.

Lemma respects_try_except {A} (body : M A) catches handler :
  respects R body -> respects R handler -> respects R (try_except body catches handler).
Proof.
  intros Hb Hh w. unfold try_except. specialize (Hb w).
  destruct (body w) as [[a|e] w1]; cbn in *; [exact Hb|].
  destruct (catches e); cbn; [|exact Hb].
  eapply R_trans; [exact Hb | apply Hh].
Qed.

Lemma respects_try_finally {A} (body : M A) cleanup :
  respects R body -> respects R cleanup -> respects R (try_finally body cleanup).
Proof.
  intros Hb Hc w. unfold try_finally. specialize (Hb w).
  destruct (body w) as [r w1]. specialize (Hc w1).
  destruct (cleanup w1) as [[u|e] w2]; cbn in *; eapply R_trans; eassumption.
Qed.

Lemma respects_assert b : respects R (assert b).
Proof. destruct b; [apply respects_ret | apply respects_raise]. Qed.

Lemma respects_is_file p : respects R (is_file p).
Proof. intros w. apply R_refl. Qed.

End Frame.

Lemma grows_by_refl allowed w : grows_by allowed w w.
Proof. exists []. split; [symmetry; apply app_nil_r | reflexivity]. Qed.

Lemma grows_by_trans allowed a b c :
  grows_by allowed a b -> grows_by allowed b c -> grows_by allowed a c.
Proof.
  intros (t & Ht & Pt) (u & Hu & Pu). exists (t ++ u)%list.
  rewrite Hu, Ht, <- app_assoc, forallb_app, Pt, Pu. auto.
Qed.

Lemma grows_by_weaken (allowed allowed' : Event -> bool) w w' :
  (forall e, allowed e = true -> allowed' e = true) ->
  grows_by allowed w w' -> grows_by allowed' w w'.
Proof.
  intros Himp (t & Ht & Pt). exists t. split; [exact Ht|].
  apply forallb_forall. intros e He. apply Himp.
  exact (proj1 (forallb_forall _ _) Pt e He).
Qed.

Lemma same_counters_refl w : same_counters w w.
Proof. split; reflexivity. Qed.

Lemma same_counters_trans a b c :
  same_counters a b -> same_counters b c -> same_counters a c.
Proof. intros [? ?] [? ?]. split; congruence. Qed.

(** A world that differs from [w] in its files and process count only. *)
Lemma grows_by_silent allowed w w' : trace w' = trace w -> grows_by allowed w w'.
Proof. intros E. exists []. rewrite E, app_nil_r. auto. Qed.

Lemma grows_by_one allowed e w w' :
  allowed e = true -> trace w' = (trace w ++ [e])%list -> grows_by allowed w w'.
Proof. intros He E. exists [e]. cbn. rewrite He. auto. Qed.

Section Grows.

Variable H : Host.
Variable allowed : Event -> bool.

Lemma grows_write_file p c : respects (grows_by allowed) (write_file p c).
Proof. intros w. apply grows_by_silent. reflexivity. Qed.

Lemma grows_unlink p : respects (grows_by allowed) (unlink p).
Proof.
  intros w. unfold unlink. destruct (_ !! _); apply grows_by_silent; reflexivity.
Qed.

Lemma grows_rename p q : respects (grows_by allowed) (rename p q).
Proof.
  intros w. unfold rename. destruct (_ !! _); apply grows_by_silent; reflexivity.
Qed.

Lemma grows_communicate pid s t : respects (grows_by allowed) (communicate H pid s t).
Proof.
  intros w. unfold communicate.
  destruct (if s then _ else _) as [d|]; [destruct (Qle_bool d t)|];
    apply grows_by_silent; reflexivity.
Qed.

Lemma grows_communicate_text pid s t :
  respects (grows_by allowed) (communicate_text H pid s t).
Proof.
  unfold communicate_text.
  apply respects_bind; [apply grows_by_trans | apply grows_communicate |].
  intros r. destruct (locale_decode H (fst r));
    [apply respects_ret | apply respects_raise]; apply grows_by_refl.
Qed.

Lemma grows_popen c e d :
  allowed (Popen c e d) = true -> respects (grows_by allowed) (popen c e d).
Proof. intros Ha w. eapply grows_by_one; [exact Ha | reflexivity]. Qed.

Lemma grows_kill pid :
  allowed (Kill pid) = true -> allowed (Terminate pid) = true ->
  respects (grows_by allowed) (kill H pid).
Proof.
  intros Hk Ht w. eapply grows_by_one; [|reflexivity].
  destruct (python_3_7 H); assumption.
Qed.

Lemma grows_run_diff a b :
  allowed (Popen (Argv ["diff"; a; b]) None None) = true ->
  respects (grows_by allowed) (run_diff H a b).
Proof. intros Ha w. eapply grows_by_one; [exact Ha | reflexivity]. Qed.

Lemma grows_mkdtemp d :
  (forall x, allowed (Mkdtemp x) = true) -> respects (grows_by allowed) (mkdtemp H d).
Proof. intros Ha w. eapply grows_by_one; [apply Ha | reflexivity]. Qed.

Lemma grows_rmtree d : allowed (Rmtree d) = true -> respects (grows_by allowed) (rmtree d).
Proof. intros Ha w. eapply grows_by_one; [exact Ha | reflexivity]. Qed.

Lemma grows_log e : allowed e = true -> respects (grows_by allowed) (log e).
Proof. intros Ha w. eapply grows_by_one; [exact Ha | reflexivity]. Qed.

Lemma grows_rpc {A} e (a : A) change :
  allowed e = true -> (forall w, trace (change w) = trace w) ->
  respects (grows_by allowed) (rpc H e a change).
Proof.
  intros Ha Hch w. unfold rpc.
  destruct (rpc_times_out H (rpcs w)); cbn;
    (eapply grows_by_one; [exact Ha | rewrite ?Hch; reflexivity]).
Qed.

End Grows.

Ltac frame_side :=
  first
    [ exact (grows_by_refl _)
    | exact (grows_by_trans _)
    | exact same_counters_refl
    | exact same_counters_trans ].

Ltac frame_step :=
  first
    [ progress cbv zeta
    | apply respects_ret; frame_side
    | apply respects_raise; frame_side
    | apply respects_assert; frame_side
    | apply respects_is_file; frame_side
    | apply respects_bind; [frame_side | | intros ?]
    | apply respects_try_except; [frame_side | | ]
    | apply respects_try_finally; [frame_side | | ]
    | match goal with
      | |- respects _ (match ?x with _ => _ end) => destruct x
      end ].

Ltac grows_prim :=
  first
    [ apply grows_write_file
    | apply grows_unlink
    | apply grows_rename
    | apply grows_communicate
    | apply grows_communicate_text
    | apply grows_popen; reflexivity
    | apply grows_kill; reflexivity
    | apply grows_run_diff; reflexivity
    | apply grows_mkdtemp; intros ?; reflexivity
    | apply grows_rmtree; reflexivity
    | apply grows_log; reflexivity
    | apply grows_rpc; [reflexivity | reflexivity] ].

Section RunnerFrame.

Variable H : Host.

Lemma runner_grows_by_process_events bitcode_file cmd_ cwd linkopts_ env num_runs_
    sanitizer_ T Tc :
  respects (grows_by is_process_event)
    (_compile_and_run_bitcode_file H bitcode_file cmd_ cwd linkopts_ env num_runs_
       sanitizer_ T Tc).
Proof.
  unfold _compile_and_run_bitcode_file, compile_stage, run_stage.
  repeat first [frame_step | grows_prim].
Qed.

Lemma runner_keeps_counters bitcode_file cmd_ cwd linkopts_ env num_runs_ sanitizer_ T Tc :
  respects same_counters
    (_compile_and_run_bitcode_file H bitcode_file cmd_ cwd linkopts_ env num_runs_
       sanitizer_ T Tc).
Proof.
  unfold _compile_and_run_bitcode_file, compile_stage, run_stage, communicate_text.
  repeat first
    [ frame_step
    | intros w; unfold write_file, unlink, popen, kill, communicate; cbn;
      repeat break_match; split; reflexivity ].
Qed.

End RunnerFrame.

(** X8. A call of [_compile_and_run_bitcode_file] only launches processes
    and sends them signals: whatever happens, it makes no call into the
    environment and no scratch directory, and every event it adds to the
    trace is the launch of a process or a signal sent to one. *)
Theorem runner_only_runs_processes :
  forall (H : Host) bitcode_file cmd_ cwd linkopts_ env num_runs_ sanitizer_
         (T Tc : Q) (w : World),
    let w' := snd (_compile_and_run_bitcode_file H bitcode_file cmd_ cwd linkopts_ env
                     num_runs_ sanitizer_ T Tc w) in
    rpcs w' = rpcs w
    /\ tmpdirs w' = tmpdirs w
    /\ exists t, trace w' = (trace w ++ t)%list /\ forallb is_process_event t = true.
Proof.
  intros H bitcode_file cmd_ cwd linkopts_ env num_runs_ sanitizer_ T Tc w w'.
  destruct (runner_keeps_counters H bitcode_file cmd_ cwd linkopts_ env num_runs_
              sanitizer_ T Tc w) as [Hr Ht].
  split; [exact Hr|]. split; [exact Ht|].
  apply runner_grows_by_process_events.
Qed.

(** ** The retry loop, in general *)

Section RetryMore.

Variable validator_cb_ : M (option ValidationError).
Variable flakiness_ : Z.
Variable obs : nat -> Observed.

Hypothesis Hmarks : leaves_marks validator_cb_.
Hypothesis Hobs :
  forall w0,
    fst (validator_cb_ w0)
    = match obs (attempts (trace w0)) with
      | Failed e => Returned (Some e)
      | TimedOut => Raised TimeoutError
      end.

Lemma flaky_loop_observed js seen w :
  let r := flaky_loop validator_cb_ flakiness_ js (option_map Some seen) w in
  fst r = match last_failure obs (S (attempts (trace w))) (length js) seen with
          | Some e => Returned (Some e)
          | None => Raised (UnboundLocalError "error")
          end
  /\ attempts (trace (snd r)) = attempts (trace w) + length js.
Proof.
  revert w seen. induction js as [|j rest IH]; intros w seen; cbn.
  - destruct seen; cbn; split; auto.
  - unfold_m.
    pose proof (Hobs (emit Attempt w)) as E.
    pose proof (Hmarks (emit Attempt w)) as F.
    assert (Hn : attempts (trace (emit Attempt w)) = S (attempts (trace w))).
    { cbn. rewrite attempts_app. cbn. lia. }
    rewrite Hn in E, F.
    destruct (validator_cb_ (emit Attempt w)) as [o w1]. cbn in E, F. subst o.
    assert (Hw : attempts (trace (emit (Warning j flakiness_) w1)) = S (attempts (trace w))).
    { cbn. rewrite attempts_app, F. cbn. lia. }
    destruct (obs (S (attempts (trace w)))) as [e|]; cbn.
    + destruct (IH (emit (Warning j flakiness_) w1) (Some e)) as [IH1 IH2].
      rewrite Hw in IH1, IH2. cbn [option_map] in IH1, IH2.
      split; [exact IH1 | etransitivity; [exact IH2 | lia]].
    + destruct (IH (emit (Warning j flakiness_) w1) seen) as [IH1 IH2].
      rewrite Hw in IH1, IH2.
      split; [exact IH1 | etransitivity; [exact IH2 | lia]].
Qed.

End RetryMore.

(** X10. When no call of the callback succeeds, the wrapper makes
    [max(flakiness, 1)] calls and returns the error of the last call that
    returned one, also when calls after it ran into the timeout of the
    environment; it fails on its unbound local [error] only when every
    call ran into that timeout. *)
Theorem wrapper_returns_the_last_returned_error :
  forall (validator_cb_ : LlvmEnv -> M (option ValidationError)) (flakiness_ : Z)
         (env : LlvmEnv) (obs : nat -> Observed) (w : World),
    leaves_marks (validator_cb_ env) ->
    (forall w0,
       fst (validator_cb_ env w0)
       = match obs (attempts (trace w0)) with
         | Failed e => Returned (Some e)
         | TimedOut => Raised TimeoutError
         end) ->
    let r := flaky_wrapped_cb validator_cb_ flakiness_ env w in
    let calls := Z.to_nat (Z.max flakiness_ 1) in
    fst r = match last_failure obs (S (attempts (trace w))) calls None with
            | Some e => Returned (Some e)
            | None => Raised (UnboundLocalError "error")
            end
    /\ attempts (trace (snd r)) = attempts (trace w) + calls.
Proof.
  intros validator_cb_ flakiness_ env obs w Hmarks Hobs r calls. subst r calls.
  unfold flaky_wrapped_cb.
  pose proof (flaky_loop_observed (validator_cb_ env) flakiness_ obs Hmarks Hobs
                (range_from_1 (Z.max flakiness_ 1)) None w) as Hloop.
  cbn [option_map] in Hloop. rewrite length_range_from_1 in Hloop. exact Hloop.
Qed.

(** X11. An exception other than the timeout of the environment is not
    retried: when the first call of the callback raises one, the wrapper
    lets it through after that one call, whatever the retry budget is. *)
Theorem other_exceptions_are_not_retried :
  forall (validator_cb_ : LlvmEnv -> M (option ValidationError)) (flakiness_ : Z)
         (env : LlvmEnv) (w : World) (e : Exn),
    leaves_marks (validator_cb_ env) ->
    fst (validator_cb_ env (emit Attempt w)) = Raised e ->
    e <> TimeoutError ->
    flaky_wrapped_cb validator_cb_ flakiness_ env w
    = (Raised e, snd (validator_cb_ env (emit Attempt w)))
    /\ attempts (trace (snd (flaky_wrapped_cb validator_cb_ flakiness_ env w)))
       = S (attempts (trace w)).
Proof.
  intros validator_cb_ flakiness_ env w e Hmarks Hr He.
  unfold flaky_wrapped_cb.
  destruct (range_from_1_cons (Z.max flakiness_ 1)) as [rest ->]; [lia|].
  rewrite (flaky_loop_fault _ _ _ _ _ _ e Hr) by (destruct e; first [reflexivity | exfalso; apply He; reflexivity]).
  split; [reflexivity|]. cbn.
  rewrite Hmarks. cbn. rewrite attempts_app. cbn. lia.
Qed.

(** ** The validation attempt, on every path *)

Lemma process_event_is_not_copy e : is_process_event e = true -> is_not_copy_event e = true.
Proof. destruct e; cbn; congruence. Qed.

Lemma not_copy_is_not_fork_or_close e :
  is_not_copy_event e = true -> is_not_fork_or_close e = true.
Proof. destruct e; cbn; congruence. Qed.

Lemma respects_weaken {A} (allowed allowed' : Event -> bool) (m : M A) :
  (forall e, allowed e = true -> allowed' e = true) ->
  respects (grows_by allowed) m -> respects (grows_by allowed') m.
Proof. intros Himp Hm w. eapply grows_by_weaken; [exact Himp | apply Hm]. Qed.

Section AttemptFrame.

Variable H : Host.

Lemma runner_emits_no_copy_event bitcode_file cmd_ cwd linkopts_ env num_runs_ sanitizer_ T Tc :
  respects (grows_by is_not_copy_event)
    (_compile_and_run_bitcode_file H bitcode_file cmd_ cwd linkopts_ env num_runs_
       sanitizer_ T Tc).
Proof.
  eapply respects_weaken; [exact process_event_is_not_copy|].
  apply runner_grows_by_process_events.
Qed.

Lemma download_emits_no_copy_event :
  respects (grows_by is_not_copy_event) (download_cBench_runtime_data H).
Proof.
  unfold download_cBench_runtime_data.
  apply respects_bind; [frame_side | apply respects_is_file; frame_side |].
  intros []; [apply respects_ret; frame_side|].
  intros w. eapply grows_by_one; [|reflexivity]. reflexivity.
Qed.

Lemma require_is_silent names w : snd (require_input_files H names w) = w.
Proof. rewrite require_input_files_spec. reflexivity. Qed.

Lemma keep_trace cfg env g paths w :
  trace (snd (keep_gold_standard_files cfg env g paths w)) = trace w.
Proof.
  revert w. induction paths as [|p paths IH]; intros w; [reflexivity|].
  cbn. unfold_m. destruct (files w !! p) eqn:E; cbn; rewrite ?E; cbn; [|reflexivity].
  rewrite IH. reflexivity.
Qed.

Lemma difftest_emits_no_copy_event cfg paths :
  respects (grows_by is_not_copy_event) (difftest_output_files H cfg paths).
Proof.
  induction paths as [|p paths IH]; cbn; repeat first [exact IH | frame_step | grows_prim].
Qed.

Lemma candidate_emits_no_copy_event cfg env cwd expanded paths gold :
  respects (grows_by is_not_copy_event) (candidate_stage H cfg env cwd expanded paths gold).
Proof.
  unfold candidate_stage, write_bitcode.
  repeat first
    [ apply runner_emits_no_copy_event
    | apply difftest_emits_no_copy_event
    | frame_step
    | grows_prim ].
Qed.

(** The statements of the reference run between the fork and the release
    of the copy. *)
Lemma reference_run_emits_no_fork_or_close cfg env cwd expanded gs_env :
  respects (grows_by is_not_fork_or_close)
    (let! gs_env' := reset H gs_env (benchmark env) in
     run! write_bitcode H gs_env' (Path.join cwd "benchmark.bc") in
     let! gold_standard :=
       _compile_and_run_bitcode_file H (Path.join cwd "benchmark.bc")
         expanded cwd (linkopts cfg ++ ["-O2"])%list (os_env cfg) 1 None 300 60 in
     match error gold_standard with
     | Some e =>
         ret (inl {| type := "Gold standard: " ++ type e; data := data e |})
     | None => ret (inr gold_standard)
     end).
Proof.
  unfold reset, write_bitcode.
  repeat first
    [ eapply respects_weaken;
      [exact not_copy_is_not_fork_or_close | apply runner_emits_no_copy_event]
    | frame_step
    | grows_prim ].
Qed.

(** The reference run when it is asked for and the fork succeeds: the
    copy is forked first and released last, whatever happens in between. *)
Lemma gold_standard_stage_forks_and_closes cfg env cwd expanded paths w :
  compare_output cfg = true \/ output_files cfg <> [] ->
  rpc_times_out H (rpcs w) = false ->
  exists t,
    trace (snd (gold_standard_stage H cfg env cwd expanded paths w))
    = (trace w ++ EnvFork :: t ++ [EnvClose])%list
    /\ forallb is_not_fork_or_close t = true.
Proof.
  intros Hask Hfork.
  assert (Hcond : compare_output cfg || negb (length (output_files cfg) =? 0)%nat = true).
  { destruct Hask as [->|Hne]; [reflexivity|].
    destruct (output_files cfg); [contradiction|]. apply orb_true_r. }
  unfold gold_standard_stage. rewrite Hcond.
  unfold bind at 1. unfold fork, rpc. rewrite Hfork. cbn [fst snd].
  set (w0 := emit EnvFork _).
  unfold bind at 1, try_finally, close, log.
  destruct (reference_run_emits_no_fork_or_close cfg env cwd expanded env w0)
    as (t & Ht & Pt).
  destruct (bind _ _ w0) as [r w1]. cbn [snd] in Ht.
  exists t. split; [|exact Pt].
  assert (Hend : trace (emit EnvClose w1) = (trace w ++ EnvFork :: t ++ [EnvClose])%list).
  { cbn. rewrite Ht. subst w0. cbn. rewrite <- !app_assoc. reflexivity. }
  destruct r as [[e|g]|x]; cbn; try exact Hend.
  unfold bind. 
  pose proof (keep_trace cfg env g paths (emit EnvClose w1)) as Hk.
  destruct (keep_gold_standard_files cfg env g paths (emit EnvClose w1)) as [[[]|x] w2];
    cbn in Hk |- *; rewrite Hk; exact Hend.
Qed.

End AttemptFrame.

(** ** The whole attempt *)

Lemma try_finally_rmtree {A} (body : M A) d w :
  try_finally body (rmtree d) w = (fst (body w), snd (rmtree d (snd (body w)))).
Proof. unfold try_finally, rmtree. destruct (body w) as [r w1]. reflexivity. Qed.

Lemma rmtree_leaves_nothing d w p :
  String.prefix (d ++ "/") p = true -> files (snd (rmtree d w)) !! p = None.
Proof.
  intros Hp. cbn. unfold rmtree_files.
  apply map_lookup_filter_None. right. intros c _. cbn. rewrite Hp. discriminate.
Qed.

Section WholeAttempt.

Variable H : Host.

(** The attempt once the input files are found to be there. *)
Lemma validator_cb_block cfg env w :
  first_missing H (input_files cfg) (files_after_download H (files w)) = None ->
  let d := scratch_dir H env w in
  let w1 := snd (download_cBench_runtime_data H w) in
  validator_cb H cfg env w
  = try_finally (validator_body H cfg env d) (rmtree d)
      (snd (mkdtemp H (working_dir env) w1))
  /\ fst (mkdtemp H (working_dir env) w1) = Returned d.
Proof.
  intros Hm d w1. subst d w1. unfold validator_cb, bind, scratch_dir.
  pose proof (download_files H w) as Hf. destruct (download_returns H w) as [b Hb].
  destruct (download_frame H w) as (_ & Ht & _).
  destruct (download_cBench_runtime_data H w) as [o wa]. cbn in Hf, Hb, Ht. subst o.
  rewrite require_input_files_spec, Hf, Hm. cbn. rewrite Ht. split; reflexivity.
Qed.

Lemma keep_grows allowed cfg env g paths :
  respects (grows_by allowed) (keep_gold_standard_files cfg env g paths).
Proof. intros w. apply grows_by_silent. apply keep_trace. Qed.

Lemma setup_grows cfg d :
  respects (grows_by is_not_fork_or_close)
    (match pre_execution_callback cfg with
     | Some setup =>
         fun w => (Returned tt, emit (PreExecution d) (set_files (setup d (files w)) w))
     | None => ret tt
     end).
Proof.
  destruct (pre_execution_callback cfg); [|apply respects_ret; frame_side].
  intros w. eapply grows_by_one; [|reflexivity]. reflexivity.
Qed.

Lemma candidate_emits_no_fork_or_close cfg env cwd expanded paths gold :
  respects (grows_by is_not_fork_or_close)
    (candidate_stage H cfg env cwd expanded paths gold).
Proof.
  eapply respects_weaken; [exact not_copy_is_not_fork_or_close|].
  apply candidate_emits_no_copy_event.
Qed.

Lemma validator_body_grows cfg env d :
  respects (grows_by any_event) (validator_body H cfg env d).
Proof.
  unfold validator_body. cbv zeta.
  apply respects_bind; [frame_side | |intros _].
  { eapply respects_weaken; [|apply setup_grows]. reflexivity. }
  apply respects_bind; [frame_side | |intros [e|g]].
  - unfold gold_standard_stage, fork, reset, write_bitcode, close.
    repeat first
      [ apply keep_grows
      | eapply respects_weaken;
        [|apply runner_emits_no_copy_event]; reflexivity
      | frame_step
      | grows_prim ].
  - apply respects_ret; frame_side.
  - eapply respects_weaken; [|apply candidate_emits_no_copy_event]. reflexivity.
Qed.

End WholeAttempt.

(** X12. Once the input files are found to be there, the callback makes
    one scratch directory in the working directory of the environment and
    removes it as the last thing it does, whether the attempt returns or
    raises: no file below the directory is left. *)
Theorem scratch_directory_is_removed_on_every_path :
  forall (H : Host) (cfg : ValidatorConfig) (env : LlvmEnv) (w : World),
    first_missing H (input_files cfg) (files_after_download H (files w)) = None ->
    let d := scratch_dir H env w in
    let w' := snd (validator_cb H cfg env w) in
    (exists t, trace w' = (trace w ++ t ++ [Rmtree d])%list /\ In (Mkdtemp d) t)
    /\ (forall p, String.prefix (d ++ "/") p = true -> files w' !! p = None).
Proof.
  intros H cfg env w Hm d w'. subst d w'.
  destruct (validator_cb_block H cfg env w Hm) as [-> _].
  rewrite try_finally_rmtree. cbn [snd]. split.
  - destruct (validator_body_grows H cfg env (scratch_dir H env w)
                (snd (mkdtemp H (working_dir env) (snd (download_cBench_runtime_data H w)))))
      as (t & Ht & _).
    destruct (download_frame H w) as (_ & Htmp & _ & Htr).
    cbn [rmtree snd emit trace set_files]. rewrite Ht.
    cbn [mkdtemp snd emit trace]. fold (scratch_dir H env (snd (download_cBench_runtime_data H w))).
    assert (Hd : scratch_dir H env (snd (download_cBench_runtime_data H w)) = scratch_dir H env w).
    { unfold scratch_dir. rewrite Htmp. reflexivity. }
    rewrite Hd.
    destruct Htr as [-> | ->].
    + exists (Mkdtemp (scratch_dir H env w) :: t). split.
      * rewrite <- !app_assoc. reflexivity.
      * left. reflexivity.
    + exists (Download :: Mkdtemp (scratch_dir H env w) :: t). split.
      * rewrite <- !app_assoc. reflexivity.
      * right. left. reflexivity.
  - intros p Hp. apply rmtree_leaves_nothing. exact Hp.
Qed.

Section Stages.

Variable H : Host.

Lemma validator_body_after_setup cfg env d w :
  validator_body H cfg env d w
  = bind
      (gold_standard_stage H cfg env d (Str.replace "$D" (cbench_data H) (cmd cfg))
         (map (Path.join d) (output_files cfg)))
      (fun gold =>
         match gold with
         | inl e => ret (Some e)
         | inr gold_standard =>
             candidate_stage H cfg env d (Str.replace "$D" (cbench_data H) (cmd cfg))
               (map (Path.join d) (output_files cfg)) gold_standard
         end)
      (after_setup cfg d w).
Proof.
  unfold validator_body, after_setup, bind.
  destruct (pre_execution_callback cfg); reflexivity.
Qed.

(** What comes before the reference run holds no fork and no release,
    and no call into the environment. *)
Lemma setup_emits_no_fork_or_close cfg env w :
  let w2 := snd (mkdtemp H (working_dir env) (snd (download_cBench_runtime_data H w))) in
  grows_by is_not_fork_or_close w (after_setup cfg (scratch_dir H env w) w2)
  /\ rpcs (after_setup cfg (scratch_dir H env w) w2) = rpcs w.
Proof.
  intros w2. subst w2. split.
  - eapply grows_by_trans.
    { eapply grows_by_weaken; [exact not_copy_is_not_fork_or_close|].
      apply download_emits_no_copy_event. }
    eapply grows_by_trans.
    { apply (grows_mkdtemp H is_not_fork_or_close). intros x. reflexivity. }
    unfold after_setup. destruct (pre_execution_callback cfg).
    + eapply grows_by_one; [|reflexivity]. reflexivity.
    + apply grows_by_refl.
  - destruct (download_frame H w) as (_ & _ & Hr & _).
    unfold after_setup. destruct (pre_execution_callback cfg); cbn; exact Hr.
Qed.

Lemma reaches_candidate_block cfg env w cwd gold w4 :
  reaches_candidate H cfg env w cwd gold w4 ->
  validator_cb H cfg env w
  = try_finally
      (let! outcome := candidate_run H cfg cwd in
       match error outcome with
       | Some e => ret (Some e)
       | None =>
           run! match validate_result cfg with
                | Some check => log (ValidateResult (check outcome))
                | None => ret tt
                end in
           let! differs :=
             if compare_output cfg
             then match gold with
                  | Some g => ret (negb (bool_decide (output g = output outcome)))
                  | None => raise (UnboundLocalError "gold_standard")
                  end
             else ret false in
           if (differs : bool)
           then
             ret (Some {| type := "Wrong output";
                          data := [("expected",
                                    of_opt_str match gold with
                                               | Some g => output g
                                               | None => None
                                               end);
                                   ("actual", of_opt_str (output outcome))] |})
           else difftest_output_files H cfg (map (Path.join cwd) (output_files cfg))
       end)
      (rmtree cwd) w4.
Proof.
  intros (unpacked & w1 & w2 & w3 & Hd & Hr & Hm & Hg & Hw).
  unfold validator_cb. unfold bind at 1. rewrite Hd.
  unfold bind at 1. rewrite Hr. unfold bind at 1. rewrite Hm.
  unfold try_finally. rewrite validator_body_after_setup.
  unfold bind at 1. rewrite Hg. unfold candidate_stage. unfold bind at 1. rewrite Hw.
  reflexivity.
Qed.

End Stages.

(** X13. When a reference run is asked for and the environment can be
    forked, the attempt forks the environment exactly once and releases the
    copy exactly once, after the fork, on every path: also when the
    reference run, the candidate run or a comparison fails or raises. *)
Theorem copy_is_forked_once_and_released_once :
  forall (H : Host) (cfg : ValidatorConfig) (env : LlvmEnv) (w : World),
    first_missing H (input_files cfg) (files_after_download H (files w)) = None ->
    compare_output cfg = true \/ output_files cfg <> [] ->
    rpc_times_out H (rpcs w) = false ->
    exists pre t post,
      trace (snd (validator_cb H cfg env w))
      = (trace w ++ pre ++ EnvFork :: t ++ EnvClose :: post)%list
      /\ forallb is_not_fork_or_close pre = true
      /\ forallb is_not_fork_or_close t = true
      /\ forallb is_not_fork_or_close post = true.
Proof.
  intros H cfg env w Hm Hask Hfork.
  destruct (validator_cb_block H cfg env w Hm) as [-> _].
  rewrite try_finally_rmtree. cbn [snd rmtree emit trace set_files].
  rewrite validator_body_after_setup.
  destruct (setup_emits_no_fork_or_close H cfg env w) as [(pre & Hpre & Ppre) Hrpcs].
  cbv zeta in Hpre, Hrpcs.
  set (ws := after_setup _ _ _) in *.
  rewrite <- Hrpcs in Hfork.
  destruct (gold_standard_stage_forks_and_closes H cfg env (scratch_dir H env w)
              (Str.replace "$D" (cbench_data H) (cmd cfg))
              (map (Path.join (scratch_dir H env w)) (output_files cfg)) ws Hask Hfork)
    as (t & Ht & Pt).
  unfold bind.
  destruct (gold_standard_stage _ _ _ _ _ _ ws) as [[[e|g]|x] w3]; cbn [snd] in Ht |- *.
  - exists pre, t, [Rmtree (scratch_dir H env w)].
    cbn [ret snd]. rewrite Ht, Hpre. repeat split; try assumption.
    rewrite <- !app_assoc. cbn. rewrite <- !app_assoc. reflexivity.
  - destruct (candidate_emits_no_fork_or_close H cfg env (scratch_dir H env w)
                (Str.replace "$D" (cbench_data H) (cmd cfg))
                (map (Path.join (scratch_dir H env w)) (output_files cfg)) g w3)
      as (tc & Htc & Ptc).
    exists pre, t, (tc ++ [Rmtree (scratch_dir H env w)])%list.
    rewrite Htc, Ht, Hpre. repeat split; try assumption.
    + rewrite <- !app_assoc. cbn. rewrite <- !app_assoc. reflexivity.
    + rewrite forallb_app, Ptc. reflexivity.
  - exists pre, t, [Rmtree (scratch_dir H env w)].
    rewrite Ht, Hpre. repeat split; try assumption.
    rewrite <- !app_assoc. cbn. rewrite <- !app_assoc. reflexivity.
Qed.

(** X14. A validator that compares neither the console output nor any
    output file makes no reference run: on every path the attempt neither
    forks the environment nor resets or releases a copy. *)
Theorem nothing_to_compare_means_no_reference_run :
  forall (H : Host) (cfg : ValidatorConfig) (env : LlvmEnv) (w : World),
    compare_output cfg = false ->
    output_files cfg = [] ->
    exists t,
      trace (snd (validator_cb H cfg env w)) = (trace w ++ t)%list
      /\ forallb is_not_copy_event t = true.
Proof.
  intros H cfg env w Hcmp Hout.
  assert (Hall : respects (grows_by is_not_copy_event) (validator_cb H cfg env)).
  { unfold validator_cb, validator_body, gold_standard_stage.
    rewrite Hcmp, Hout. cbn [length Nat.eqb negb orb map].
    apply respects_bind; [frame_side | apply download_emits_no_copy_event | intros _].
    apply respects_bind; [frame_side | | intros _].
    { intros w0. rewrite require_is_silent. apply grows_by_refl. }
    apply respects_bind; [frame_side | grows_prim | intros d].
    apply respects_try_finally; [frame_side | | grows_prim].
    cbv zeta.
    apply respects_bind; [frame_side | | intros _].
    { destruct (pre_execution_callback cfg); [|apply respects_ret; frame_side].
      intros w0. eapply grows_by_one; [|reflexivity]. reflexivity. }
    apply respects_bind; [frame_side | apply respects_ret; frame_side | intros [e|g]].
    - apply respects_ret; frame_side.
    - apply candidate_emits_no_copy_event. }
  exact (Hall w).
Qed.

(** X15. An error of the candidate run is returned as it is: its type
    gets no prefix, the checker is not called, the console outputs and the
    output files are not compared, and the scratch directory is removed. *)
Theorem candidate_error_is_returned_as_it_is :
  forall (H : Host) (cfg : ValidatorConfig) (env : LlvmEnv) (w : World) (cwd : string)
         (gold_standard : option BenchmarkExecutionResult) (w4 : World)
         (outcome : BenchmarkExecutionResult) (w5 : World) (e : ValidationError),
    reaches_candidate H cfg env w cwd gold_standard w4 ->
    candidate_run H cfg cwd w4 = (Returned outcome, w5) ->
    error outcome = Some e ->
    validator_cb H cfg env w = (Returned (Some e), snd (rmtree cwd w5)).
Proof.
  intros H cfg env w cwd gold_standard w4 outcome w5 e Hreach Hrun Herr.
  rewrite (reaches_candidate_block H cfg env w cwd gold_standard w4 Hreach).
  rewrite try_finally_rmtree. unfold bind. rewrite Hrun, Herr. reflexivity.
Qed.

(** X16. When the console outputs are compared and the candidate, which
    ran without error, printed something else than the reference run, the
    attempt returns "Wrong output" with both outputs, after the checker
    was called and before any output file is compared. *)
Theorem different_console_output_is_wrong_output :
  forall (H : Host) (cfg : ValidatorConfig) (env : LlvmEnv) (w : World) (cwd : string)
         (g : BenchmarkExecutionResult) (w4 : World)
         (outcome : BenchmarkExecutionResult) (w5 : World),
    reaches_candidate H cfg env w cwd (Some g) w4 ->
    candidate_run H cfg cwd w4 = (Returned outcome, w5) ->
    error outcome = None ->
    compare_output cfg = true ->
    output g <> output outcome ->
    validator_cb H cfg env w
    = (Returned (Some {| type := "Wrong output";
                         data := [("expected", of_opt_str (output g));
                                  ("actual", of_opt_str (output outcome))] |}),
       snd (rmtree cwd (after_checker cfg outcome w5))).
Proof.
  intros H cfg env w cwd g w4 outcome w5 Hreach Hrun Herr Hcmp Hne.
  rewrite (reaches_candidate_block H cfg env w cwd (Some g) w4 Hreach).
  rewrite try_finally_rmtree. unfold bind. rewrite Hrun, Herr, Hcmp.
  rewrite bool_decide_eq_false_2 by exact Hne.
  unfold after_checker. destruct (validate_result cfg); reflexivity.
Qed.

(** X17. In an attempt that gets as far as the comparison of the output
    files: when a declared output file is not there after the candidate
    run, the files declared before it being equal to their gold standards,
    the attempt returns "Output not generated" with the name of the file
    and the command as it was configured, before the expansion of [$D]. *)
Theorem missing_output_file_is_output_not_generated :
  forall (H : Host) (cfg : ValidatorConfig) (env : LlvmEnv) (w : World) (cwd : string)
         (w_cmp : World) (checked : list string) (name : string) (rest : list string),
    (forall a, fst (diff H (Some a) (Some a)) = 0%Z) ->
    reaches_comparison H cfg env w cwd w_cmp ->
    output_files cfg = (checked ++ name :: rest)%list ->
    Forall (fun n => same_as_gold_standard (files w_cmp) (Path.join cwd n)) checked ->
    files w_cmp !! Path.join cwd name = None ->
    fst (validator_cb H cfg env w)
    = Returned (Some {| type := "Output not generated";
                        data := [("path", PStr (Path.name (Path.join cwd name)));
                                 ("command", PStr (cmd cfg))] |}).
Proof.
  intros H cfg env w cwd w_cmp checked name rest Hsame Hreach Hout Hall Habs.
  rewrite (validator_cb_ends_with_comparison H cfg env w cwd w_cmp Hreach).
  rewrite Hout, map_app. cbn [map].
  rewrite difftest_skips_equal_files; [|exact Hsame|apply Forall_map; exact Hall].
  cbn. unfold_m. rewrite files_after_diffs, Habs. reflexivity.
Qed.

(** ** The files of the reference run *)

Lemma length_append (a b : string) :
  String.length (a ++ b) = String.length a + String.length b.
Proof. induction a as [|c a IH]; simpl; [reflexivity | rewrite IH; reflexivity]. Qed.

Lemma append_inj_suffix (a b s : string) : a ++ s = b ++ s -> a = b.
Proof.
  revert b. induction a as [|c a IH]; intros [|c' b] E; simpl in E.
  - reflexivity.
  - apply (f_equal String.length) in E. simpl in E. rewrite !length_append in E. simpl in E. lia.
  - apply (f_equal String.length) in E. simpl in E. rewrite !length_append in E. simpl in E. lia.
  - injection E as -> E. f_equal. apply IH. exact E.
Qed.

Lemma keep_step cfg env g p rest w w' :
  keep_gold_standard_files cfg env g (p :: rest) w = (Returned tt, w') ->
  exists c,
    files w !! p = Some c
    /\ keep_gold_standard_files cfg env g rest
         (set_files (<[p ++ ".gold_standard" := c]> (delete p (files w))) w)
       = (Returned tt, w').
Proof.
  cbn. unfold_m. destruct (files w !! p) as [c|] eqn:E; cbn; rewrite ?E; cbn;
    [|discriminate].
  intros Hk. exists c. split; [reflexivity | exact Hk].
Qed.

(** The loop touches the declared files and their siblings only. *)
Lemma keep_frame cfg env g paths w w' k :
  keep_gold_standard_files cfg env g paths w = (Returned tt, w') ->
  ~ In k paths ->
  (forall q, In q paths -> q ++ ".gold_standard" <> k) ->
  files w' !! k = files w !! k.
Proof.
  revert w. induction paths as [|p rest IH]; intros w Hk Hnot Hsib.
  - cbn in Hk. injection Hk as <-. reflexivity.
  - apply keep_step in Hk as (c & Hp & Hk).
    rewrite (IH _ Hk).
    + cbn. rewrite lookup_insert_ne by (apply Hsib; left; reflexivity).
      apply lookup_delete_ne. intros ->. apply Hnot. left. reflexivity.
    + intros Hin. apply Hnot. right. exact Hin.
    + intros q Hq. apply Hsib. right. exact Hq.
Qed.

(** X18. The output files of the reference run are moved aside: when the
    loop that keeps them returns, every declared output file is gone from
    its place and its [.gold_standard] sibling holds the bytes the
    reference run left in it, so that the candidate run has to write its
    own. The declared files are distinct and none is named like the
    sibling of another. *)
Theorem reference_outputs_are_moved_aside :
  forall (cfg : ValidatorConfig) (env : LlvmEnv) (g : BenchmarkExecutionResult)
         (paths : list string) (w w' : World),
    NoDup paths ->
    (forall p q, In p paths -> In q paths -> q ++ ".gold_standard" <> p) ->
    keep_gold_standard_files cfg env g paths w = (Returned tt, w') ->
    forall p, In p paths ->
      files w' !! p = None
      /\ is_Some (files w !! p)
      /\ files w' !! (p ++ ".gold_standard") = files w !! p.
Proof.
  intros cfg env g paths. induction paths as [|p0 rest IH]; intros w w' Hnd Hsib Hk p Hin.
  - contradiction.
  - apply keep_step in Hk as (c & Hp0 & Hk).
    inversion Hnd as [|? ? Hfresh Hnd']; subst. clear Hnd. rename Hnd' into Hnd.
    destruct Hin as [<-|Hin].
    + assert (Hgone : files w' !! p0 = None).
      { rewrite (keep_frame _ _ _ _ _ _ p0 Hk Hfresh).
        - cbn. rewrite lookup_insert_ne by (apply Hsib; left; reflexivity).
          apply lookup_delete_eq.
        - intros q Hq. apply Hsib; [left; reflexivity | right; exact Hq]. }
      assert (Hkept : files w' !! (p0 ++ ".gold_standard") = Some c).
      { rewrite (keep_frame _ _ _ _ _ _ (p0 ++ ".gold_standard") Hk).
        - cbn. apply lookup_insert_eq.
        - intros Hq. apply (Hsib (p0 ++ ".gold_standard") p0);
            [right; exact Hq | left; reflexivity | reflexivity].
        - intros q Hq E. apply append_inj_suffix in E. subst q. contradiction. }
      rewrite Hp0. split; [exact Hgone|]. split; [eauto | exact Hkept].
    + assert (Hsame : files (set_files (<[p0 ++ ".gold_standard" := c]>
                                         (delete p0 (files w))) w) !! p
                       = files w !! p).
      { cbn. rewrite lookup_insert_ne
          by (apply Hsib; [right; exact Hin | left; reflexivity]).
        apply lookup_delete_ne. intros ->. contradiction. }
      rewrite <- Hsame. apply (IH _ w' Hnd); [|exact Hk|exact Hin].
      intros a b Ha Hb. apply Hsib; right; assumption.
Qed.

(** ** Registration *)

Section RegistrationFacts.

Variable H : Host.

Lemma registered_insert uri uri' vs r dyn :
  registered {| VALIDATORS := <[uri' := vs]> (VALIDATORS r); DYNAMIC_CONFIGS := dyn |} uri
  = if String.eqb uri' uri then vs else registered r uri.
Proof.
  unfold registered. cbn. destruct (String.eqb_spec uri' uri) as [->|Hne].
  - rewrite lookup_insert_eq. reflexivity.
  - rewrite lookup_insert_ne by exact Hne. reflexivity.
Qed.

Lemma validator_supported kw r :
  supported H kw = true ->
  validator H kw r
  = (true,
     {| VALIDATORS :=
          <[kw_benchmark kw := (registered r (kw_benchmark kw) ++ new_validators H kw)%list]>
            (VALIDATORS r);
        DYNAMIC_CONFIGS := <[kw_benchmark kw := new_dynamic_config H kw]> (DYNAMIC_CONFIGS r) |}).
Proof. intros Hs. unfold validator. rewrite Hs. reflexivity. Qed.

Lemma validator_unsupported kw r : supported H kw = false -> validator H kw r = (false, r).
Proof. intros Hs. unfold validator. rewrite Hs. reflexivity. Qed.

Lemma supported_In kw :
  supported H kw = true
  <-> In (platform_name H) (or_else (kw_platforms kw) ["linux"; "macos"]).
Proof.
  unfold supported. rewrite existsb_exists. split.
  - intros (p & Hin & Heq). apply String.eqb_eq in Heq. subst p. exact Hin.
  - intros Hin. exists (platform_name H). split; [exact Hin | apply String.eqb_refl].
Qed.

End RegistrationFacts.

(** X19. Validators accumulate and the last configuration wins: after a
    sequence of calls of [validator], the callbacks of a benchmark are
    those it had before followed by the callbacks of every call that
    named it and was accepted on this platform, in the order of the
    calls, while its dynamic configuration is that of the last such call
    alone; a benchmark that no accepted call names keeps what it had. *)
Theorem validators_accumulate_and_the_last_configuration_wins :
  forall (H : Host) (calls : list Keywords) (r : Registry) (uri : string),
    let r' := declare H calls r in
    registered r' uri
    = (registered r uri ++ flat_map (new_validators H) (calls_for H uri calls))%list
    /\ DYNAMIC_CONFIGS r' !! uri
       = match rev (calls_for H uri calls) with
         | kw :: _ => Some (new_dynamic_config H kw)
         | [] => DYNAMIC_CONFIGS r !! uri
         end.
Proof.
  intros H calls. induction calls as [|kw calls IH]; intros r uri; cbn zeta.
  - cbn. rewrite app_nil_r. split; reflexivity.
  - unfold declare. cbn [fold_left]. fold (declare H calls (snd (validator H kw r))).
    destruct (IH (snd (validator H kw r)) uri) as [IHv IHd]. cbn zeta in IHv, IHd.
    rewrite IHv, IHd. unfold calls_for. cbn [List.filter]. fold (calls_for H uri calls).
    destruct (supported H kw) eqn:Hs.
    + rewrite (validator_supported H kw r Hs). cbn [snd andb].
      rewrite registered_insert. cbn [DYNAMIC_CONFIGS].
      destruct (String.eqb_spec (kw_benchmark kw) uri) as [E|Hne].
      * cbn [flat_map rev]. rewrite E, app_assoc. split; [reflexivity|].
        destruct (rev (calls_for H uri calls)) as [|k l]; cbn; [|reflexivity].
        apply lookup_insert_eq.
      * rewrite lookup_insert_ne by exact Hne. split; reflexivity.
    + rewrite (validator_unsupported H kw r Hs). cbn [snd andb]. split; reflexivity.
Qed.

(** X20. A call that is accepted gives the benchmark one callback without
    a sanitizer and, on Linux only, one more for each sanitizer in the
    order given: four when the argument is left out, none for an empty
    list. Every one of them has the retry budget 5 and runs the benchmark
    once, and the benchmark gets the dynamic configuration of the call. *)
Theorem accepted_call_adds_one_validator_per_sanitizer :
  forall (H : Host) (kw : Keywords) (r : Registry),
    supported H kw = true ->
    let r' := snd (validator H kw r) in
    let sanitizers :=
      if String.prefix "linux" (platform H)
      then match kw_sanitizers kw with
           | Some l => l
           | None => [ASAN; TSAN; MSAN; UBSAN]
           end
      else [] in
    exists added,
      registered r' (kw_benchmark kw) = (registered r (kw_benchmark kw) ++ added)%list
      /\ map sanitizer added = None :: map Some sanitizers
      /\ Forall (fun v => flakiness v = 5%Z /\ num_runs v = 1%Z /\ cmd v = kw_cmd kw) added
      /\ length (fst (CBenchBenchmark H r' (kw_benchmark kw)))
         = length (fst (CBenchBenchmark H r (kw_benchmark kw))) + 1 + length sanitizers
      /\ snd (CBenchBenchmark H r' (kw_benchmark kw)) = Some (new_dynamic_config H kw).
Proof.
  intros H kw r Hs r' sanitizers. subst r' sanitizers.
  rewrite (validator_supported H kw r Hs). cbn [snd].
  exists (new_validators H kw).
  unfold CBenchBenchmark. cbn [fst snd]. rewrite !length_map.
  rewrite registered_insert, String.eqb_refl. cbn [DYNAMIC_CONFIGS].
  rewrite lookup_insert_eq.
  assert (Hsan : map sanitizer (new_validators H kw)
                 = None :: map Some
                             (if String.prefix "linux" (platform H)
                              then match kw_sanitizers kw with
                                   | Some l => l
                                   | None => [ASAN; TSAN; MSAN; UBSAN]
                                   end
                              else [])).
  { unfold new_validators. cbn [map]. f_equal.
    destruct (String.prefix "linux" (platform H)); [|reflexivity].
    rewrite map_map. cbn. reflexivity. }
  split; [reflexivity|]. split; [exact Hsan|]. split; [|split; [|reflexivity]].
  - unfold new_validators. constructor; [cbn; auto|].
    destruct (String.prefix "linux" (platform H)); [|constructor].
    apply Forall_map. apply Forall_forall. intros s _. cbn. auto.
  - rewrite length_app. apply (f_equal (@length _)) in Hsan.
    rewrite !length_map in Hsan. cbn [length] in Hsan. rewrite Hsan, length_map. lia.
Qed.

(** X21. With [platforms] left out, or empty, a validator is registered
    exactly on the platforms for which the datasets have an archive:
    [darwin], [linux] and [macos]. Anywhere else [validator] returns
    [False] and leaves both tables as they are, and the lookup of the
    archive of each dataset fails. *)
Theorem validators_are_registered_where_the_datasets_exist :
  forall (H : Host) (kw : Keywords) (r : Registry),
    kw_platforms kw = None \/ kw_platforms kw = Some [] ->
    let known := platform H = "darwin" \/ platform H = "linux" \/ platform H = "macos" in
    (fst (validator H kw r) = true <-> known)
    /\ (is_Some (CBenchDataset_tar H) <-> known)
    /\ (is_Some (CBenchLegacyDataset_tar H) <-> known)
    /\ (~ known -> validator H kw r = (false, r)).
Proof.
  intros H kw r Hdef known. subst known.
  assert (Hs : supported H kw = true
               <-> platform H = "darwin" \/ platform H = "linux" \/ platform H = "macos").
  { rewrite supported_In.
    assert (Hp : or_else (kw_platforms kw) ["linux"; "macos"] = ["linux"; "macos"])
      by (destruct Hdef as [-> | ->]; reflexivity).
    rewrite Hp. unfold platform_name. cbn [In].
    destruct (String.eqb_spec (platform H) "darwin") as [E|Hne].
    - rewrite E. split; auto.
    - split.
      + intros [E|[E|[]]]; auto.
      + intros [E|[E|E]]; [contradiction | auto | auto]. }
  assert (Ht : forall tars : string -> option (string * string),
             (forall p, is_Some (tars p) <-> p = "macos" \/ p = "linux") ->
             is_Some (tars (platform_name H))
             <-> platform H = "darwin" \/ platform H = "linux" \/ platform H = "macos").
  { intros tars Htars. rewrite Htars. unfold platform_name.
    destruct (String.eqb_spec (platform H) "darwin") as [E|Hne].
    - rewrite E. split; auto.
    - split.
      + intros [E|E]; auto.
      + intros [E|[E|E]]; [contradiction | auto | auto]. }
  split; [|split; [|split]].
  - rewrite <- Hs. unfold validator. destruct (supported H kw); cbn; split; congruence.
  - apply Ht. intros p. unfold _CBENCH_TARS.
    destruct (String.eqb_spec p "macos") as [->|N1]; [split; eauto|].
    destruct (String.eqb_spec p "linux") as [->|N2]; [split; eauto|].
    split; [intros [x E]; discriminate | intros [E|E]; contradiction].
  - apply Ht. intros p. unfold _CBENCH_LEGACY_TARS.
    destruct (String.eqb_spec p "macos") as [->|N1]; [split; eauto|].
    destruct (String.eqb_spec p "linux") as [->|N2]; [split; eauto|].
    split; [intros [x E]; discriminate | intros [E|E]; contradiction].
  - intros Hnot. apply validator_unsupported.
    destruct (supported H kw) eqn:E; [|reflexivity].
    exfalso. apply Hnot. apply Hs. reflexivity.
Qed.

(** ** The checker of [sha] *)

Lemma skip_hex_space k s r :
  Sha.skip_hex k s = String " " r
  <-> exists h, all_hex h = true /\ String.length h <= k /\ s = h ++ String " " r.
Proof.
  split.
  - revert s. induction k as [|k IH]; intros s Hs.
    + exists "". cbn in Hs. destruct s; cbn in Hs; subst; auto.
    + destruct s as [|c rest]; [discriminate|]. cbn in Hs.
      destruct (Sha.is_hex c) eqn:Hc.
      * destruct (IH rest Hs) as (h & Hh & Hl & ->).
        exists (String c h). cbn. rewrite Hc, Hh. split; [reflexivity|].
        split; [lia | reflexivity].
      * exists "". rewrite Hs. cbn. split; [reflexivity|]. split; [lia | reflexivity].
  - intros (h & Hh & Hl & ->). revert k Hl.
    induction h as [|c h IH]; intros k Hl.
    + destruct k; reflexivity.
    + cbn in Hh. apply andb_true_iff in Hh as [Hc Hh].
      destruct k as [|k]; [cbn in Hl; lia|].
      simpl. rewrite Hc. apply IH; [exact Hh | cbn in Hl; lia].
Qed.

Lemma group_and_space_spec s r :
  Sha.group_and_space s = Some r
  <-> exists h, hex_group h = true /\ s = h ++ " " ++ r.
Proof.
  unfold Sha.group_and_space, hex_group. split.
  - destruct (Sha.skip_hex 16 s) as [|c rest] eqn:E; [discriminate|].
    destruct (Ascii.eqb_spec c " ") as [->|]; [|discriminate].
    intros [= ->]. apply skip_hex_space in E as (h & Hh & Hl & ->).
    exists h. rewrite Hh. split; [|reflexivity].
    apply Nat.leb_le. exact Hl.
  - intros (h & Hh & ->). apply andb_true_iff in Hh as [Hh Hl].
    apply Nat.leb_le in Hl.
    assert (E : Sha.skip_hex 16 (h ++ " " ++ r) = String " " r)
      by (apply skip_hex_space; exists h; auto).
    rewrite E. reflexivity.
Qed.

Lemma re_match_spec s :
  Sha.re_match s = true
  <-> exists h1 h2 h3 h4 rest,
        hex_group h1 = true /\ hex_group h2 = true
        /\ hex_group h3 = true /\ hex_group h4 = true
        /\ s = h1 ++ " " ++ h2 ++ " " ++ h3 ++ " " ++ h4 ++ " " ++ rest.
Proof.
  unfold Sha.re_match. split.
  - destruct (Sha.group_and_space s) as [s1|] eqn:E1; [|discriminate].
    destruct (Sha.group_and_space s1) as [s2|] eqn:E2; [|discriminate].
    destruct (Sha.group_and_space s2) as [s3|] eqn:E3; [|discriminate].
    destruct (Sha.group_and_space s3) as [s4|] eqn:E4; [|discriminate].
    intros _.
    apply group_and_space_spec in E1 as (h1 & H1 & ->).
    apply group_and_space_spec in E2 as (h2 & H2 & ->).
    apply group_and_space_spec in E3 as (h3 & H3 & ->).
    apply group_and_space_spec in E4 as (h4 & H4 & ->).
    exists h1, h2, h3, h4, s4. auto 10.
  - intros (h1 & h2 & h3 & h4 & rest & H1 & H2 & H3 & H4 & ->).
    rewrite (proj2 (group_and_space_spec _ _) (ex_intro _ h1 (conj H1 eq_refl))).
    rewrite (proj2 (group_and_space_spec _ _) (ex_intro _ h2 (conj H2 eq_refl))).
    rewrite (proj2 (group_and_space_spec _ _) (ex_intro _ h3 (conj H3 eq_refl))).
    rewrite (proj2 (group_and_space_spec _ _) (ex_intro _ h4 (conj H4 eq_refl))).
    reflexivity.
Qed.

(** X22. [validate_sha_output] accepts a result exactly when its output,
    without the white space at its end, starts with four groups of at
    most sixteen characters of [0-9a-f], each followed by one blank; what
    follows the fourth blank is not looked at, so the fifth group and the
    end of the output are not checked. Anything else gives the diagnostic
    "Failed to parse hex output". *)
Theorem sha_checker_accepts_four_groups_and_any_rest :
  forall (result : BenchmarkExecutionResult) (out : string),
    output result = Some out ->
    (Sha.validate_sha_output result = None
     <-> exists h1 h2 h3 h4 rest,
           hex_group h1 = true /\ hex_group h2 = true
           /\ hex_group h3 = true /\ hex_group h4 = true
           /\ Sha.rstrip out = h1 ++ " " ++ h2 ++ " " ++ h3 ++ " " ++ h4 ++ " " ++ rest)
    /\ (Sha.validate_sha_output result = None
        \/ Sha.validate_sha_output result = Some "Failed to parse hex output").
Proof.
  intros result out Hout. unfold Sha.validate_sha_output. rewrite Hout.
  rewrite <- re_match_spec.
  destruct (Sha.re_match (Sha.rstrip out)); cbn; split; auto; split; congruence.
Qed.

Lemma list_byte_of_string_app (a b : string) :
  list_byte_of_string (a ++ b) = (list_byte_of_string a ++ list_byte_of_string b)%list.
Proof.
  unfold list_byte_of_string. rewrite <- map_app. f_equal.
  induction a as [|c a IH]; [reflexivity|].
  change (String c a ++ b) with (String c (a ++ b)).
  cbn [list_ascii_of_string]. rewrite IH. reflexivity.
Qed.

Lemma rstrip_rev_blank (l1 l2 : list byte) :
  forallb (fun b => Utf8.between 9 13 b || Utf8.between 28 32 b) l1 = true ->
  Sha.rstrip_rev (rev l1 ++ l2) = Sha.rstrip_rev l2.
Proof.
  revert l2. induction l1 as [|b l1 IH]; intros l2 Hb; [reflexivity|].
  cbn [forallb] in Hb. apply andb_true_iff in Hb as [Hb Hl].
  cbn [rev]. rewrite <- app_assoc. rewrite IH by exact Hl.
  cbn [app Sha.rstrip_rev]. rewrite Hb. reflexivity.
Qed.

(** X23. White space that the benchmark prints at the end of its output,
    such as the line feed after the digest, makes no difference to the
    checker. *)
Theorem sha_checker_ignores_white_space_at_the_end :
  forall (out ws : string),
    blank ws = true ->
    Sha.rstrip (out ++ ws) = Sha.rstrip out
    /\ Sha.validate_sha_output (printed (out ++ ws)) = Sha.validate_sha_output (printed out).
Proof.
  intros out ws Hws.
  assert (E : Sha.rstrip (out ++ ws) = Sha.rstrip out).
  { unfold Sha.rstrip. rewrite list_byte_of_string_app, rev_app_distr.
    rewrite rstrip_rev_blank by exact Hws. reflexivity. }
  split; [exact E|].
  unfold Sha.validate_sha_output, printed. cbn [output]. rewrite E. reflexivity.
Qed.

(** ** More on the stages *)

(** X24. When the fork of the environment runs into the timeout of the
    environment, the attempt raises that timeout for the retry loop to
    see: no process has been launched, there is no copy to release and
    none is released, and the scratch directory is removed. *)
Theorem slow_fork_raises_the_timeout_and_releases_nothing :
  forall (H : Host) (cfg : ValidatorConfig) (env : LlvmEnv) (w : World),
    first_missing H (input_files cfg) (files_after_download H (files w)) = None ->
    compare_output cfg = true \/ output_files cfg <> [] ->
    rpc_times_out H (rpcs w) = true ->
    fst (validator_cb H cfg env w) = Raised TimeoutError
    /\ launched (trace (snd (validator_cb H cfg env w))) = launched (trace w)
    /\ exists pre,
         trace (snd (validator_cb H cfg env w))
         = (trace w ++ pre ++ [EnvFork; Rmtree (scratch_dir H env w)])%list
         /\ forallb is_not_fork_or_close pre = true.
Proof.
  intros H cfg env w Hm Hask Hfork.
  assert (Hcond : compare_output cfg || negb (length (output_files cfg) =? 0)%nat = true).
  { destruct Hask as [->|Hne]; [reflexivity|].
    destruct (output_files cfg); [contradiction|]. apply orb_true_r. }
  destruct (validator_cb_block H cfg env w Hm) as [-> _].
  rewrite try_finally_rmtree. cbn [fst snd rmtree emit trace set_files].
  rewrite validator_body_after_setup.
  destruct (setup_emits_no_fork_or_close H cfg env w) as [(pre & Hpre & Ppre) Hrpcs].
  cbv zeta in Hpre, Hrpcs.
  assert (Hl : launched (trace (after_setup cfg (scratch_dir H env w)
                                  (snd (mkdtemp H (working_dir env)
                                          (snd (download_cBench_runtime_data H w))))))
               = launched (trace w)).
  { destruct (download_frame H w) as (_ & _ & _ & Htr).
    unfold after_setup.
    destruct (pre_execution_callback cfg); cbn -[download_cBench_runtime_data];
      destruct Htr as [E | E]; rewrite E;
      rewrite ?launched_app; cbn; rewrite ?app_nil_r; reflexivity. }
  set (ws := after_setup _ _ _) in *.
  rewrite <- Hrpcs in Hfork.
  unfold bind, gold_standard_stage. rewrite Hcond.
  unfold bind, fork, rpc. rewrite Hfork. cbn [fst snd emit trace].
  split; [reflexivity|]. split.
  - rewrite !launched_app, Hl. cbn. rewrite !app_nil_r. reflexivity.
  - exists pre. rewrite Hpre. split; [|exact Ppre].
    rewrite <- !app_assoc. reflexivity.
Qed.

Lemma keep_present cfg env g p rest w c :
  files w !! p = Some c ->
  keep_gold_standard_files cfg env g (p :: rest) w
  = keep_gold_standard_files cfg env g rest
      (set_files (<[p ++ ".gold_standard" := c]> (delete p (files w))) w).
Proof. intros Hp. cbn. unfold_m. rewrite Hp. cbn. rewrite Hp. reflexivity. Qed.

Lemma keep_absent cfg env g p rest w :
  files w !! p = None ->
  keep_gold_standard_files cfg env g (p :: rest) w
  = (Raised (FileNotFoundError (not_generated cfg env g p)), w).
Proof. intros Hp. cbn. unfold_m. rewrite Hp. reflexivity. Qed.

Lemma keep_raises_file_not_found cfg env g paths w :
  fst (keep_gold_standard_files cfg env g paths w) = Returned tt
  \/ exists p,
       In p paths
       /\ fst (keep_gold_standard_files cfg env g paths w)
          = Raised (FileNotFoundError (not_generated cfg env g p)).
Proof.
  revert w. induction paths as [|p rest IH]; intros w; [left; reflexivity|].
  destruct (files w !! p) as [c|] eqn:Hp.
  - rewrite (keep_present _ _ _ _ _ _ _ Hp).
    destruct (IH (set_files (<[p ++ ".gold_standard" := c]> (delete p (files w))) w))
      as [Hok | (q & Hq & Hraise)]; [left; exact Hok|].
    right. exists q. split; [right; exact Hq | exact Hraise].
  - rewrite (keep_absent _ _ _ _ _ _ Hp). right. exists p. split; [left|]; reflexivity.
Qed.

(** X25. The loop that keeps the output files of the reference run
    returns exactly when the declared files are distinct and each of them
    is there when the loop starts; otherwise it raises
    [FileNotFoundError] with the message for one of the declared files,
    which is no validation error and is not retried. None of the declared
    files is named like the sibling of another. *)
Theorem reference_outputs_must_all_be_there :
  forall (cfg : ValidatorConfig) (env : LlvmEnv) (g : BenchmarkExecutionResult)
         (paths : list string) (w : World),
    (forall p q, In p paths -> In q paths -> q ++ ".gold_standard" <> p) ->
    (fst (keep_gold_standard_files cfg env g paths w) = Returned tt
     <-> NoDup paths /\ Forall (fun p => is_Some (files w !! p)) paths)
    /\ (fst (keep_gold_standard_files cfg env g paths w) = Returned tt
        \/ exists p,
             In p paths
             /\ fst (keep_gold_standard_files cfg env g paths w)
                = Raised (FileNotFoundError (not_generated cfg env g p))).
Proof.
  intros cfg env g paths w Hsib. split; [|apply keep_raises_file_not_found].
  revert w. induction paths as [|p rest IH]; intros w.
  - split; [intros _; split; constructor | reflexivity].
  - assert (Hsib' : forall a b, In a rest -> In b rest -> b ++ ".gold_standard" <> a)
      by (intros a b Ha Hb; apply Hsib; right; assumption).
    assert (Hother : forall c q, In q rest -> q <> p ->
              set_files (<[p ++ ".gold_standard" := c]> (delete p (files w))) w
              = set_files (<[p ++ ".gold_standard" := c]> (delete p (files w))) w ->
              (<[p ++ ".gold_standard" := c]> (delete p (files w)) : gmap string (list byte))
              !! q = files w !! q).
    { intros c q Hq Hne _.
      rewrite lookup_insert_ne by (apply Hsib; [right; exact Hq | left; reflexivity]).
      apply lookup_delete_ne. congruence. }
    destruct (files w !! p) as [c|] eqn:Hp.
    + rewrite (keep_present _ _ _ _ _ _ _ Hp).
      rewrite (IH Hsib'). cbn [files set_files].
      assert (Hgone : (<[p ++ ".gold_standard" := c]> (delete p (files w))
                       : gmap string (list byte)) !! p = None).
      { rewrite lookup_insert_ne by (apply Hsib; left; reflexivity).
        apply lookup_delete_eq. }
      split.
      * intros [Hnd Hall].
        assert (Hfresh : ~ In p rest).
        { intros Hin. rewrite Forall_forall in Hall.
          destruct (Hall p Hin) as [x Hx]. congruence. }
        split; [constructor; assumption|].
        constructor; [rewrite Hp; eauto|].
        rewrite Forall_forall in Hall |- *. intros q Hq.
        rewrite <- (Hother c q Hq) by (try reflexivity; intros ->; contradiction).
        apply Hall. exact Hq.
      * intros [Hnd Hall].
        inversion Hnd as [|? ? Hfresh Hnd']; subst.
        inversion Hall as [|? ? _ Hall']; subst.
        split; [exact Hnd'|].
        rewrite Forall_forall in Hall' |- *. intros q Hq.
        rewrite (Hother c q Hq) by (try reflexivity; intros ->; contradiction).
        apply Hall'. exact Hq.
    + rewrite (keep_absent _ _ _ _ _ _ Hp). cbn [fst]. split; [discriminate|].
      intros [_ Hall]. inversion Hall as [|? ? [x Hx] _]; subst. congruence.
Qed.

(** X26. The comparison of the output files changes no file and, with
    [diff] there to be launched, goes through the declared files in their
    order and stops at the first one that is missing or on which [diff]
    ends with a status other than 0. When every file passes, it has run
    [diff] once on each, against the [.gold_standard] sibling, and reports
    no error. Otherwise it has run [diff] on the files before the first
    one that does not pass and, if that one is there, on it, on none
    after it, and reports the error of that file: "Output not generated"
    if it is missing, "Wrong output (file)" with the output of [diff] if
    it differs. *)
Theorem comparison_runs_diff_on_the_files_in_turn :
  forall (H : Host) (cfg : ValidatorConfig) (paths : list string) (w : World),
    files (snd (difftest_output_files H cfg paths w)) = files w
    /\ ((forallb (passes_diff H (files w)) paths = true
         /\ difftest_output_files H cfg paths w = (Returned None, after_diffs paths w))
        \/ exists checked path rest,
             paths = (checked ++ path :: rest)%list
             /\ forallb (passes_diff H (files w)) checked = true
             /\ passes_diff H (files w) path = false
             /\ difftest_output_files H cfg paths w
                = (Returned (Some (diff_error H cfg (files w) path)),
                   after_diffs (diffed (files w) checked path) w)).
Proof.
  intros H cfg paths w.
  assert (Hmain :
    (forallb (passes_diff H (files w)) paths = true
     /\ difftest_output_files H cfg paths w = (Returned None, after_diffs paths w))
    \/ exists checked path rest,
         paths = (checked ++ path :: rest)%list
         /\ forallb (passes_diff H (files w)) checked = true
         /\ passes_diff H (files w) path = false
         /\ difftest_output_files H cfg paths w
            = (Returned (Some (diff_error H cfg (files w) path)),
               after_diffs (diffed (files w) checked path) w)).
  { revert w. induction paths as [|p paths IH]; intros w.
    - left. split; reflexivity.
    - cbn [difftest_output_files forallb]. unfold passes_diff at 1 3. unfold_m.
      destruct (files w !! p) as [c|] eqn:Hp; cbn.
      + rewrite Hp.
        destruct (fst (diff H (Some c) (files w !! (p ++ ".gold_standard"))) =? 0)%Z eqn:Hrc;
          cbn.
        * destruct (IH (emit (Popen (Argv ["diff"; p; p ++ ".gold_standard"]) None None) w))
            as [[Hall Hrun] | (checked & q & rest & -> & Hall & Hq & Hrun)].
          -- left. split; [exact Hall | exact Hrun].
          -- right. exists (p :: checked), q, rest.
             split; [reflexivity|]. cbn [forallb]. unfold passes_diff at 1.
             rewrite Hp, Hrc. cbn [andb].
             split; [exact Hall|]. split; [exact Hq|].
             rewrite Hrun. cbn [files emit]. f_equal.
             unfold diffed. destruct (files w !! q); reflexivity.
        * right. exists [], p, paths. split; [reflexivity|]. split; [reflexivity|].
          unfold passes_diff, diff_error, diffed. rewrite Hp, Hrc.
          split; reflexivity.
      + right. exists [], p, paths. split; [reflexivity|]. split; [reflexivity|].
        unfold passes_diff, diff_error, diffed. rewrite Hp.
        split; reflexivity. }
  split; [|exact Hmain].
  destruct Hmain as [[_ ->] | (checked & q & rest & _ & _ & _ & ->)];
    apply files_after_diffs.
Qed.

Section Budget.

Variable validator_cb_ : M (option ValidationError).
Variable flakiness_ : Z.

Lemma flaky_loop_at_most js error_ w :
  leaves_marks validator_cb_ ->
  attempts (trace (snd (flaky_loop validator_cb_ flakiness_ js error_ w)))
  <= attempts (trace w) + length js.
Proof.
  intros Hmarks. revert w error_.
  induction js as [|j rest IH]; intros w error_; cbn.
  - destruct error_; cbn; lia.
  - unfold_m.
    pose proof (Hmarks (emit Attempt w)) as F.
    destruct (validator_cb_ (emit Attempt w)) as [[[e|]|x] w1]; cbn in F |- *;
      rewrite attempts_app in F; cbn in F.
    + specialize (IH (emit (Warning j flakiness_) w1) (Some (Some e))).
      cbn in IH. rewrite attempts_app in IH. cbn in IH.
      destruct (flaky_loop _ _ _ _ _) as [o w2]. cbn in *. lia.
    + lia.
    + destruct x; cbn; try lia.
      specialize (IH (emit (Warning j flakiness_) w1) error_).
      cbn in IH. rewrite attempts_app in IH. cbn in IH.
      destruct (flaky_loop _ _ _ _ _) as [o w2]. cbn in *. lia.
Qed.

End Budget.

(** X27. The wrapper never calls the callback more often than its retry
    budget allows: at most [max(flakiness, 1)] times, whatever the calls
    return or raise. *)
Theorem wrapper_stays_within_its_budget :
  forall (validator_cb_ : LlvmEnv -> M (option ValidationError)) (flakiness_ : Z)
         (env : LlvmEnv) (w : World),
    leaves_marks (validator_cb_ env) ->
    attempts (trace (snd (flaky_wrapped_cb validator_cb_ flakiness_ env w)))
    <= attempts (trace w) + Z.to_nat (Z.max flakiness_ 1).
Proof.
  intros validator_cb_ flakiness_ env w Hmarks. unfold flaky_wrapped_cb.
  rewrite <- (length_range_from_1 (Z.max flakiness_ 1)).
  apply flaky_loop_at_most. exact Hmarks.
Qed.

(** ** The properties at work on the machines *)

Lemma quiet_run_returns_output_and_time :
  exists w',
    _compile_and_run_bitcode_file Demo.quiet "/w/benchmark.bc" "$BIN 512" "/w" [] [] 1 None
      300 60 (Example.start ∅)
    = (Returned {| walltime_seconds := 1; error := None;
                   output := Some (decode_or_binary (stdout (process Demo.quiet 0))) |}, w')
    /\ files w'
       = effect (process Demo.quiet 0)
           (<[Path.join "/w" "_finfo_dataset" := Utf8.encode (Str.of_Z 1 ++ LF)]>
              (files (Example.start ∅))).
Proof.
  refine (successful_run_returns_output_and_time Demo.quiet "/w/benchmark.bc" "$BIN 512"
            "/w" [] [] 1 None 300 60 (Example.start ∅) 1 _ _ _ _).
  - exact I.
  - reflexivity.
  - reflexivity.
  - reflexivity.
Defined.

Lemma leaking_run_leaves_no_binary :
  files (snd (_compile_and_run_bitcode_file
                (Example.machine Example.leaking (fun _ => false))
                "/w/benchmark.bc" "$BIN 512" "/w" [] [] 1 (Some ASAN) 300 60
                (Example.start ∅)))
  !! Path.join "/w" "a.out" = None.
Proof.
  refine (binary_never_outlives_the_call (Example.machine Example.leaking (fun _ => false))
            "/w/benchmark.bc" "$BIN 512" "/w" [] [] 1 ASAN 300 60 (Example.start ∅) _).
  apply example_compiles; [reflexivity | vm_compute; discriminate].
Defined.

Lemma stuck_process_raises_timeout_expired :
  fst (_compile_and_run_bitcode_file (Example.machine (fun _ => Demo.stuck) (fun _ => false))
         "/w/benchmark.bc" "$BIN 512" "/w" [] [] 1 None 5 60 (Example.start ∅))
  = Raised TimeoutExpired.
Proof.
  refine (proj1 (unreaped_process_raises_timeout_expired
                   (Example.machine (fun _ => Demo.stuck) (fun _ => false))
                   "/w/benchmark.bc" "$BIN 512" "/w" [] [] 1 None 5 60 (Example.start ∅)
                   _ _ _)).
  - exact I.
  - reflexivity.
  - reflexivity.
Defined.

Lemma garbled_output_is_a_runtime_error :
  exists e w',
    _compile_and_run_bitcode_file (Example.machine (fun _ => Demo.garbled 3) (fun _ => false))
      "/w/benchmark.bc" "$BIN 512" "/w" [] [] 1 None 300 60 (Example.start ∅)
    = (Returned {| walltime_seconds := 1; error := Some e; output := None |}, w')
    /\ type e = "Runtime error (" ++ Str.of_Z 3 ++ ")"
    /\ dict_get "output" (data e) = Some (PStr "<binary>")
    /\ dict_get "return_code" (data e) = Some (PInt 3).
Proof.
  refine (undecodable_output_is_a_runtime_error
            (Example.machine (fun _ => Demo.garbled 3) (fun _ => false))
            "/w/benchmark.bc" "$BIN 512" "/w" [] [] 1 None 300 60 (Example.start ∅)
            _ _ _ _).
  - exact I.
  - reflexivity.
  - discriminate.
  - vm_compute. reflexivity.
Defined.

Lemma moody_leaves_marks env : leaves_marks (Demo.moody env).
Proof. intros w. reflexivity. Qed.

Lemma moody_callback_returns_its_one_error :
  fst (flaky_wrapped_cb Demo.moody 5 Example.env (Example.start ∅))
  = Returned (Some {| type := "Wrong output"; data := [] |})
  /\ attempts (trace (snd (flaky_wrapped_cb Demo.moody 5 Example.env (Example.start ∅)))) = 5.
Proof.
  refine (wrapper_returns_the_last_returned_error Demo.moody 5 Example.env
            Demo.second_call_fails (Example.start ∅) (moody_leaves_marks _) _).
  intros w0. reflexivity.
Defined.

Lemma missing_input_is_not_retried :
  flaky_wrapped_cb (validator_cb Demo.quiet Example.crc32) 5 Example.env
    (Example.start Example.runtime_data_without_input)
  = (Raised (FileNotFoundError "Required benchmark input not found: /data/office_data/1.txt"),
     snd (validator_cb Demo.quiet Example.crc32 Example.env
            (emit Attempt (Example.start Example.runtime_data_without_input))))
  /\ attempts (trace (snd (flaky_wrapped_cb (validator_cb Demo.quiet Example.crc32) 5
                             Example.env
                             (Example.start Example.runtime_data_without_input))))
     = S (attempts (trace (Example.start Example.runtime_data_without_input))).
Proof.
  refine (other_exceptions_are_not_retried (validator_cb Demo.quiet Example.crc32) 5
            Example.env (Example.start Example.runtime_data_without_input)
            (FileNotFoundError "Required benchmark input not found: /data/office_data/1.txt")
            (leaves_marks_validator_cb _ _ _) _ _).
  - vm_compute. reflexivity.
  - discriminate.
Defined.

Lemma quiet_attempt_removes_its_scratch_directory :
  (exists t,
     trace (snd (validator_cb Demo.quiet Example.crc32 Example.env Demo.w0))
     = (trace Demo.w0 ++ t ++ [Rmtree (scratch_dir Demo.quiet Example.env Demo.w0)])%list
     /\ In (Mkdtemp (scratch_dir Demo.quiet Example.env Demo.w0)) t)
  /\ (forall p,
        String.prefix (scratch_dir Demo.quiet Example.env Demo.w0 ++ "/") p = true ->
        files (snd (validator_cb Demo.quiet Example.crc32 Example.env Demo.w0)) !! p = None).
Proof.
  refine (scratch_directory_is_removed_on_every_path Demo.quiet Example.crc32 Example.env
            Demo.w0 _).
  vm_compute. reflexivity.
Defined.

Lemma quiet_attempt_forks_once_and_releases_once :
  exists pre t post,
    trace (snd (validator_cb Demo.quiet Example.crc32 Example.env Demo.w0))
    = (trace Demo.w0 ++ pre ++ EnvFork :: t ++ EnvClose :: post)%list
    /\ forallb is_not_fork_or_close pre = true
    /\ forallb is_not_fork_or_close t = true
    /\ forallb is_not_fork_or_close post = true.
Proof.
  refine (copy_is_forked_once_and_released_once Demo.quiet Example.crc32 Example.env
            Demo.w0 _ _ _).
  - vm_compute. reflexivity.
  - left. reflexivity.
  - reflexivity.
Defined.

Lemma sha_attempt_makes_no_reference_run :
  exists t,
    trace (snd (validator_cb Demo.quiet Example.sha Example.env Demo.w0))
    = (trace Demo.w0 ++ t)%list
    /\ forallb is_not_copy_event t = true.
Proof.
  refine (nothing_to_compare_means_no_reference_run Demo.quiet Example.sha Example.env
            Demo.w0 _ _).
  - reflexivity.
  - reflexivity.
Defined.

Lemma demo_reaches_candidate H cfg :
  download_cBench_runtime_data H Demo.w0 = (Returned false, Demo.w1 H) ->
  require_input_files H (input_files cfg) (Demo.w1 H) = (Returned tt, Demo.w1 H) ->
  mkdtemp H (working_dir Example.env) (Demo.w1 H) = (Returned "/wd/tmp0", Demo.w2 H) ->
  Demo.gold H cfg = (Returned (inr (Demo.gold_standard H cfg)), snd (Demo.gold H cfg)) ->
  write_bitcode H Example.env (Path.join "/wd/tmp0" "benchmark.bc") (snd (Demo.gold H cfg))
  = (Returned tt, Demo.w4 H cfg) ->
  reaches_candidate H cfg Example.env Demo.w0 "/wd/tmp0" (Demo.gold_standard H cfg)
    (Demo.w4 H cfg).
Proof.
  intros Hd Hr Hm Hg Hw.
  exists false, (Demo.w1 H), (Demo.w2 H), (snd (Demo.gold H cfg)). auto.
Qed.

Lemma failing_reaches_candidate :
  reaches_candidate Demo.failing Example.crc32 Example.env Demo.w0 "/wd/tmp0"
    (Demo.gold_standard Demo.failing Example.crc32) (Demo.w4 Demo.failing Example.crc32).
Proof. apply demo_reaches_candidate; vm_compute; reflexivity. Qed.

Lemma talking_reaches_candidate :
  reaches_candidate Demo.talking Example.crc32 Example.env Demo.w0 "/wd/tmp0"
    (Some (Demo.reference Demo.talking Example.crc32)) (Demo.w4 Demo.talking Example.crc32).
Proof.
  replace (Some (Demo.reference Demo.talking Example.crc32))
    with (Demo.gold_standard Demo.talking Example.crc32) by (vm_compute; reflexivity).
  apply demo_reaches_candidate; vm_compute; reflexivity.
Qed.

Lemma failing_candidate_is_reported :
  validator_cb Demo.failing Example.crc32 Example.env Demo.w0
  = (Returned (Some (Demo.failure Demo.failing Example.crc32)),
     snd (rmtree "/wd/tmp0" (snd (Demo.candidate Demo.failing Example.crc32)))).
Proof.
  refine (candidate_error_is_returned_as_it_is Demo.failing Example.crc32 Example.env
            Demo.w0 "/wd/tmp0" (Demo.gold_standard Demo.failing Example.crc32)
            (Demo.w4 Demo.failing Example.crc32) (Demo.outcome Demo.failing Example.crc32)
            (snd (Demo.candidate Demo.failing Example.crc32))
            (Demo.failure Demo.failing Example.crc32) failing_reaches_candidate _ _).
  - vm_compute. reflexivity.
  - vm_compute. reflexivity.
Defined.

Lemma talking_candidate_is_wrong_output :
  validator_cb Demo.talking Example.crc32 Example.env Demo.w0
  = (Returned
       (Some {| type := "Wrong output";
                data := [("expected",
                          of_opt_str (output (Demo.reference Demo.talking Example.crc32)));
                         ("actual",
                          of_opt_str (output (Demo.outcome Demo.talking Example.crc32)))] |}),
     snd (rmtree "/wd/tmp0"
            (after_checker Example.crc32 (Demo.outcome Demo.talking Example.crc32)
               (snd (Demo.candidate Demo.talking Example.crc32))))).
Proof.
  refine (different_console_output_is_wrong_output Demo.talking Example.crc32 Example.env
            Demo.w0 "/wd/tmp0" (Demo.reference Demo.talking Example.crc32)
            (Demo.w4 Demo.talking Example.crc32) (Demo.outcome Demo.talking Example.crc32)
            (snd (Demo.candidate Demo.talking Example.crc32))
            talking_reaches_candidate _ _ _ _).
  - vm_compute. reflexivity.
  - vm_compute. reflexivity.
  - reflexivity.
  - vm_compute. discriminate.
Defined.

Lemma forgetful_reaches_comparison :
  reaches_comparison Demo.forgetful Example.blowfish Example.env Demo.w0 "/wd/tmp0"
    (snd (Demo.candidate Demo.forgetful Example.blowfish)).
Proof.
  exists false, (Demo.w1 Demo.forgetful), (Demo.w2 Demo.forgetful),
    (Demo.gold_standard Demo.forgetful Example.blowfish),
    (snd (Demo.gold Demo.forgetful Example.blowfish)),
    (Demo.w4 Demo.forgetful Example.blowfish),
    (Demo.outcome Demo.forgetful Example.blowfish),
    (snd (Demo.candidate Demo.forgetful Example.blowfish)).
  split; [vm_compute; reflexivity|].
  split; [vm_compute; reflexivity|].
  split; [vm_compute; reflexivity|].
  split; [vm_compute; reflexivity|].
  split; [vm_compute; reflexivity|].
  split; [vm_compute; reflexivity|].
  split; [vm_compute; reflexivity|].
  split; [intros _; eexists; split; vm_compute; reflexivity|].
  vm_compute. reflexivity.
Qed.

Lemma forgotten_output_file_is_reported :
  fst (validator_cb Demo.forgetful Example.blowfish Example.env Demo.w0)
  = Returned (Some {| type := "Output not generated";
                      data := [("path", PStr (Path.name (Path.join "/wd/tmp0" "output.txt")));
                               ("command", PStr (cmd Example.blowfish))] |}).
Proof.
  refine (missing_output_file_is_output_not_generated Demo.forgetful Example.blowfish
            Example.env Demo.w0 "/wd/tmp0"
            (snd (Demo.candidate Demo.forgetful Example.blowfish)) [] "output.txt" []
            (proj1 (example_diff_compares_bytes _ _)) forgetful_reaches_comparison
            eq_refl (Forall_nil _) _).
  vm_compute. reflexivity.
Defined.

Lemma output_file_is_moved_aside :
  files Demo.moved_aside !! "/wd/tmp0/output.txt" = None
  /\ is_Some (files Demo.with_output !! "/wd/tmp0/output.txt")
  /\ files Demo.moved_aside !! ("/wd/tmp0/output.txt" ++ ".gold_standard")
     = files Demo.with_output !! "/wd/tmp0/output.txt".
Proof.
  refine (reference_outputs_are_moved_aside Example.blowfish Example.env
            (printed "done") ["/wd/tmp0/output.txt"] Demo.with_output Demo.moved_aside
            _ _ _ "/wd/tmp0/output.txt" _).
  - constructor; [intros []|constructor].
  - intros p q [<-|[]] [<-|[]]. discriminate.
  - vm_compute. reflexivity.
  - left. reflexivity.
Defined.

Lemma bitcount_gets_five_validators_on_linux :
  exists added,
    registered (snd (validator Demo.quiet (Bitcount.call "$BIN 512") no_validators))
      "benchmark://cbench-v1/bitcount"
    = added
    /\ map sanitizer added = [None; Some ASAN; Some TSAN; Some MSAN; Some UBSAN].
Proof.
  destruct (accepted_call_adds_one_validator_per_sanitizer Demo.quiet
              (Bitcount.call "$BIN 512") no_validators eq_refl)
    as (added & Hreg & Hsan & _).
  exists added. split; [exact Hreg | exact Hsan].
Defined.

Lemma linux_has_validators_and_datasets :
  fst (validator Demo.quiet (Bitcount.call "$BIN 512") no_validators) = true
  /\ is_Some (CBenchDataset_tar Demo.quiet)
  /\ is_Some (CBenchLegacyDataset_tar Demo.quiet).
Proof.
  destruct (validators_are_registered_where_the_datasets_exist Demo.quiet
              (Bitcount.call "$BIN 512") no_validators (or_introl eq_refl))
    as (Hv & Hd & Hl & _).
  split; [apply Hv | split; [apply Hd | apply Hl]]; right; left; reflexivity.
Defined.

Lemma digest_of_the_empty_input_is_accepted :
  Sha.validate_sha_output (printed Demo.digest) = None.
Proof.
  refine (proj2 (proj1 (sha_checker_accepts_four_groups_and_any_rest
                          (printed Demo.digest) Demo.digest eq_refl)) _).
  exists "da39a3ee", "5e6b4b0d", "3255bfef", "95601890", "afd80709".
  vm_compute. auto.
Defined.

Lemma line_feed_after_the_digest_is_ignored :
  Sha.rstrip ("da39a3ee" ++ LF) = Sha.rstrip "da39a3ee"
  /\ Sha.validate_sha_output (printed ("da39a3ee" ++ LF))
     = Sha.validate_sha_output (printed "da39a3ee").
Proof.
  refine (sha_checker_ignores_white_space_at_the_end "da39a3ee" LF _).
  reflexivity.
Defined.

Lemma slow_fork_is_a_timeout :
  fst (validator_cb Demo.slow Example.crc32 Example.env Demo.w0) = Raised TimeoutError.
Proof.
  refine (proj1 (slow_fork_raises_the_timeout_and_releases_nothing Demo.slow Example.crc32
                   Example.env Demo.w0 _ _ _)).
  - vm_compute. reflexivity.
  - left. reflexivity.
  - reflexivity.
Defined.

Lemma output_file_that_is_there_is_kept :
  fst (keep_gold_standard_files Example.blowfish Example.env (printed "done")
         ["/wd/tmp0/output.txt"] Demo.with_output)
  = Returned tt.
Proof.
  refine (proj2 (proj1 (reference_outputs_must_all_be_there Example.blowfish Example.env
                          (printed "done") ["/wd/tmp0/output.txt"] Demo.with_output _)) _).
  - intros p q [<-|[]] [<-|[]]. discriminate.
  - split.
    + constructor; [intros []|constructor].
    + constructor; [|constructor]. vm_compute. eauto.
Defined.

Lemma quiet_validation_stays_within_five_calls :
  attempts (trace (snd (flaky_wrapped_cb (validator_cb Demo.quiet Example.crc32) 5
                          Example.env Demo.w0)))
  <= attempts (trace Demo.w0) + Z.to_nat (Z.max 5 1).
Proof.
  refine (wrapper_stays_within_its_budget (validator_cb Demo.quiet Example.crc32) 5
            Example.env Demo.w0 (leaves_marks_validator_cb _ _ _)).
Defined.

(** The two calls for [bitcount] on Linux: ten callbacks, and the run
    command of the second call alone. *)
Example bitcount_is_validated_twice_and_configured_once :
  let r := declare Demo.quiet Bitcount.calls no_validators in
  map (fun v => (cmd v, sanitizer v)) (registered r "benchmark://cbench-v1/bitcount")
  = [("$BIN 1125000", None); ("$BIN 1125000", Some ASAN); ("$BIN 1125000", Some TSAN);
     ("$BIN 1125000", Some MSAN); ("$BIN 1125000", Some UBSAN);
     ("$BIN 512", None); ("$BIN 512", Some ASAN); ("$BIN 512", Some TSAN);
     ("$BIN 512", Some MSAN); ("$BIN 512", Some UBSAN)]
  /\ (Proto.argument <$> (Proto.run_cmd <$> DYNAMIC_CONFIGS r !! "benchmark://cbench-v1/bitcount"))
     = Some ["./a.out"; "512"].
Proof. vm_compute. split; reflexivity. Qed.

(** [str.split] on a command with a tab and doubled blanks. *)
Example split_drops_every_run_of_white_space :
  Words.split ("  ./a.out -d" ++ String (ascii_of_nat 9) "x  " ++ LF) = ["./a.out"; "-d"; "x"].
Proof. vm_compute. reflexivity. Qed.
